(** * AI Personal Productivity Optimizer: a shallow embedding of
    [personal_productivity.py] and the properties of its task scorer,
    focus estimator, optimizer facade and snapshot persistence. *)

From Stdlib Require Import ZArith QArith List String Ascii Lia Bool.
From Stdlib Require Import Sorting.Permutation Sorting.Sorted.
From Stdlib Require Import DecimalString DecimalNat.
From Stdlib Require Import Floats.SpecFloat.
From stdpp Require Import gmap strings list fin_maps sorting.

Local Open Scope Z_scope.

(* ===================================================================== *)
(** ** Enumerations *)
(* ===================================================================== *)

(** [class Priority(Enum)]: LOW = 1, MEDIUM = 2, HIGH = 3, URGENT = 4. *)
Inductive Priority := LOW | MEDIUM | HIGH | URGENT.

(** [class TaskStatus(Enum)], with string values. *)
Inductive TaskStatus := PENDING | IN_PROGRESS | COMPLETED | CANCELLED.

Definition Priority_value (p : Priority) : Z :=
  match p with LOW => 1 | MEDIUM => 2 | HIGH => 3 | URGENT => 4 end.

Definition TaskStatus_value (s : TaskStatus) : string :=
  match s with
  | PENDING => "pending"
  | IN_PROGRESS => "in_progress"
  | COMPLETED => "completed"
  | CANCELLED => "cancelled"
  end.

Definition TaskStatus_eqb (a b : TaskStatus) : bool :=
  match a, b with
  | PENDING, PENDING | IN_PROGRESS, IN_PROGRESS
  | COMPLETED, COMPLETED | CANCELLED, CANCELLED => true
  | _, _ => false
  end.

(* ===================================================================== *)
(** ** Python values used by the program *)
(* ===================================================================== *)

(** A Python [float] held in a task: the rational a finite float denotes,
    the two infinities, or NaN.  The program only stores these values,
    compares them with integer literals and tests their truth value. *)
Inductive pyfloat :=
| FFinite (q : Q)
| FInf (negative : bool)
| FNaN.

(** [x <= n] for a float [x] and an integer literal [n]. *)
Definition float_le_int (x : pyfloat) (n : Z) : bool :=
  match x with
  | FFinite q => Qle_bool q (inject_Z n)
  | FInf negative => negative
  | FNaN => false
  end.

(** Truth value of a float: only zero is false. *)
Definition float_truthy (x : pyfloat) : bool :=
  match x with
  | FFinite q => negb (Qeq_bool q 0)
  | FInf _ => true
  | FNaN => true
  end.

(** A naive [datetime.datetime], stored by its fields as CPython does. *)
Record datetime := mk_datetime {
  year : Z;
  month : Z;
  day : Z;
  hour : Z;
  minute : Z;
  second : Z;
  microsecond : Z
}.

(** A [datetime.timedelta], normalised: [0 <= seconds < 86400] and
    [0 <= microseconds < 1000000]; [days] carries the sign. *)
Record timedelta := mk_timedelta {
  days : Z;
  seconds : Z;
  microseconds : Z
}.

Definition us_per_day : Z := 86400000000.

(** [timedelta(days=d, seconds=s, microseconds=us)] with its normalisation. *)
Definition timedelta_new (d s us : Z) : timedelta :=
  let total := (d * 86400 + s) * 1000000 + us in
  {| days := total / us_per_day;
     seconds := (total mod us_per_day) / 1000000;
     microseconds := total mod 1000000 |}.

Definition _is_leap (y : Z) : bool :=
  (y mod 4 =? 0) && (negb (y mod 100 =? 0) || (y mod 400 =? 0)).

Definition _days_before_year (y : Z) : Z :=
  let y := y - 1 in
  y * 365 + y / 4 - y / 100 + y / 400.

Definition _DAYS_BEFORE_MONTH (m : Z) : Z :=
  match m with
  | 1 => 0 | 2 => 31 | 3 => 59 | 4 => 90 | 5 => 120 | 6 => 151
  | 7 => 181 | 8 => 212 | 9 => 243 | 10 => 273 | 11 => 304 | 12 => 334
  | _ => -1
  end.

Definition _days_before_month (y m : Z) : Z :=
  _DAYS_BEFORE_MONTH m + (if (2 <? m) && _is_leap y then 1 else 0).

Definition _ymd2ord (y m d : Z) : Z :=
  _days_before_year y + _days_before_month y m + d.

Definition toordinal (dt : datetime) : Z :=
  _ymd2ord (year dt) (month dt) (day dt).

(** [a - b] on two naive datetimes. *)
Definition datetime_sub (a b : datetime) : timedelta :=
  let days1 := toordinal a in
  let days2 := toordinal b in
  let secs1 := second a + minute a * 60 + hour a * 3600 in
  let secs2 := second b + minute b * 60 + hour b * 3600 in
  timedelta_new (days1 - days2) (secs1 - secs2) (microsecond a - microsecond b).

(* ===================================================================== *)
(** ** Data classes *)
(* ===================================================================== *)

Record Task := mk_Task {
  id : string;
  title : string;
  description : string;
  priority : Priority;
  deadline : option datetime;
  estimated_hours : pyfloat;
  energy_level_required : Z;
  tags : list string;
  status : TaskStatus;
  created_at : datetime;
  completed_at : option datetime;
  actual_hours : option pyfloat
}.

Record ProductivitySession := mk_ProductivitySession {
  start_time : datetime;
  end_time : datetime;
  tasks_completed : list string;
  focus_score : Z;
  energy_level : Z;
  distractions_count : Z;
  tools_used : list string
}.

(* ===================================================================== *)
(** ** TaskPrioritizationAgent *)
(* ===================================================================== *)

(** The [priority_scores] dictionary of [calculate_task_score]. *)
Definition priority_scores (p : Priority) : Z :=
  match p with URGENT => 25 | HIGH => 20 | MEDIUM => 10 | LOW => 5 end.

Definition calculate_task_score
    (task : Task) (current_energy : Z) (current_time : datetime) : Z :=
  let score := 0 in
  (* Deadline urgency *)
  let score :=
    match deadline task with
    | Some d =>
        let days_until_deadline := days (datetime_sub d current_time) in
        if days_until_deadline <=? 0 then score + 40
        else if days_until_deadline <=? 1 then score + 35
        else if days_until_deadline <=? 3 then score + 25
        else if days_until_deadline <=? 7 then score + 15
        else score + 5
    | None => score
    end in
  (* Priority level *)
  let score := score + priority_scores (priority task) in
  (* Energy alignment *)
  let energy_diff := Z.abs (current_energy - energy_level_required task) in
  let score := score + Z.max 0 (20 - energy_diff * 2) in
  (* Effort vs available time *)
  let hour := hour current_time in
  let score :=
    if (9 <=? hour) && (hour <=? 17) then
      if float_le_int (estimated_hours task) 2 then score + 15
      else if float_le_int (estimated_hours task) 4 then score + 10
      else score + 5
    else score in
  score.

(** [list.sort(key=key, reverse=True)].  Python's sort is stable, also
    with [reverse=True], and the result of a stable sort is determined by
    the input (see [stable_sort_unique]); it is modelled by insertion from
    the right, each element going before the first one whose key is not
    larger than its own. *)
Fixpoint insert_reverse {A : Type} (key : A -> Z) (x : A) (l : list A) : list A :=
  match l with
  | [] => [x]
  | y :: l' =>
      if key x <? key y then y :: insert_reverse key x l'
      else x :: y :: l'
  end.

Definition sort_reverse {A : Type} (key : A -> Z) (l : list A) : list A :=
  fold_right (insert_reverse key) [] l.

(** Keys never increase along the list. *)
Definition descending {A : Type} (key : A -> Z) : list A -> Prop :=
  StronglySorted (fun a b => key b <= key a).

(** The elements of key [k], in the order of the list. *)
Definition with_key {A : Type} (key : A -> Z) (k : Z) (l : list A) : list A :=
  List.filter (fun a => key a =? k) l.

Definition is_pending (task : Task) : bool :=
  TaskStatus_eqb (status task) PENDING.

Definition prioritize_tasks
    (tasks : list Task) (current_energy : Z) (current_time : datetime)
    : list Task :=
  let task_scores :=
    List.map (fun task =>
                (task, calculate_task_score task current_energy current_time))
             (List.filter is_pending tasks) in
  (* Sort by score (descending) *)
  let task_scores := sort_reverse snd task_scores in
  List.map fst task_scores.

(* ===================================================================== *)
(** ** Exceptions *)
(* ===================================================================== *)

Inductive exn :=
| ValueError
| TypeError
| KeyError
| AttributeError
| ZeroDivisionError
| OverflowError
| OSError.

Inductive result (A : Type) :=
| Ok (a : A)
| Raise (e : exn).
Arguments Ok {A} a.
Arguments Raise {A} e.

(** Exceptions propagate through sequencing: [x ← r; k] is stdpp's
    notation for [mbind]. *)
#[global] Instance result_bind : MBind result :=
  fun A B k r =>
    match r with
    | Ok a => k a
    | Raise e => Raise e
    end.

(* ===================================================================== *)
(** ** Float arithmetic *)
(* ===================================================================== *)

(** The task fields above only store floats, compare them with small
    integer literals and test their truth value.  The focus estimator
    computes with floats: there a Python [float] is an IEEE 754 binary64
    number, a [spec_float] of the Standard Library with its operations
    (round to nearest, ties to even) at [sys.float_info.mant_dig] and
    [sys.float_info.max_exp]. *)
Definition mant_dig : Z := 53.
Definition max_exp : Z := 1024.

Definition float_add : spec_float -> spec_float -> spec_float :=
  SFadd mant_dig max_exp.

Definition float_div : spec_float -> spec_float -> spec_float :=
  SFdiv mant_dig max_exp.

(** [x > y] on two floats; false when either is NaN. *)
Definition float_gt (x y : spec_float) : bool :=
  match SFcompare x y with
  | Some Gt => true
  | _ => false
  end.

Definition is_nan (x : spec_float) : bool :=
  match x with S754_nan => true | _ => false end.

Definition is_inf (x : spec_float) : bool :=
  match x with S754_infinity _ => true | _ => false end.

Definition is_zero (x : spec_float) : bool :=
  match x with S754_zero _ => true | _ => false end.

(** The float nearest to the integer [n], infinite when [n] is out of
    range. *)
Definition float_lit (n : Z) : spec_float :=
  binary_normalize mant_dig max_exp n 0 false.

(** An integer as the exact operand of a division: the mantissa [|n|] at
    exponent 0, of any length. *)
Definition int_as_float (n : Z) : spec_float :=
  match n with
  | 0 => S754_zero false
  | Z.pos p => S754_finite false p 0
  | Z.neg p => S754_finite true p 0
  end.

(** The numbers the estimator mixes: [int] and [float]. *)
Inductive pynum :=
| PInt (n : Z)
| PFloat (f : spec_float).

(** [a / b] on two integers: the quotient of the exact integers, rounded
    once; [ZeroDivisionError] for a zero divisor, [OverflowError] when the
    quotient is too large for a float. *)
Definition int_truediv (a b : Z) : result spec_float :=
  if b =? 0 then Raise ZeroDivisionError
  else
    match float_div (int_as_float a) (int_as_float b) with
    | S754_infinity _ => Raise OverflowError
    | q => Ok q
    end.

(** The conversion of an integer operand in mixed arithmetic:
    [OverflowError] when the integer is too large for a float. *)
Definition int_to_float (n : Z) : result spec_float :=
  match float_lit n with
  | S754_infinity _ => Raise OverflowError
  | f => Ok f
  end.

Definition to_float (x : pynum) : result spec_float :=
  match x with
  | PInt n => int_to_float n
  | PFloat f => Ok f
  end.

(** [x + y]. *)
Definition py_add (x y : pynum) : result pynum :=
  match x, y with
  | PInt a, PInt b => Ok (PInt (a + b))
  | _, _ =>
      f ← to_float x;
      g ← to_float y;
      Ok (PFloat (float_add f g))
  end.

(** [x / y]: always a float. *)
Definition py_truediv (x y : pynum) : result spec_float :=
  match x, y with
  | PInt a, PInt b => int_truediv a b
  | _, _ =>
      f ← to_float x;
      g ← to_float y;
      if is_zero g then Raise ZeroDivisionError else Ok (float_div f g)
  end.

(** The exact comparison of a float with an integer. *)
Definition float_cmp_int (f : spec_float) (n : Z) : option comparison :=
  match f with
  | S754_nan => None
  | S754_infinity s => Some (if s then Lt else Gt)
  | S754_zero _ => Some (0 ?= n)
  | S754_finite s m e =>
      let v := if s then Z.neg m else Z.pos m in
      Some (if 0 <=? e then v * 2 ^ e ?= n else v ?= n * 2 ^ (- e))
  end.

(** [x > y]. *)
Definition py_gt (x y : pynum) : bool :=
  match x, y with
  | PInt a, PInt b => b <? a
  | PFloat f, PInt b =>
      match float_cmp_int f b with Some Gt => true | _ => false end
  | PInt a, PFloat g =>
      match float_cmp_int g a with Some Lt => true | _ => false end
  | PFloat f, PFloat g => float_gt f g
  end.

(* ===================================================================== *)
(** ** FocusDistractionsAgent *)
(* ===================================================================== *)

(** [focus_patterns] and [distraction_triggers] are [defaultdict]s keyed by
    the hour of day. *)
Record FocusDistractionsAgent := mk_FocusDistractionsAgent {
  productivity_history : list ProductivitySession;
  focus_patterns : gmap Z (list Z);
  distraction_triggers : gmap Z Z
}.

Definition FocusDistractionsAgent_init : FocusDistractionsAgent :=
  {| productivity_history := [];
     focus_patterns := ∅;
     distraction_triggers := ∅ |}.

Definition log_session
    (self : FocusDistractionsAgent) (session : ProductivitySession)
    : FocusDistractionsAgent :=
  let history := productivity_history self ++ [session] in
  (* Update focus patterns by time of day *)
  let hour := hour (start_time session) in
  let patterns :=
    <[hour := default [] (focus_patterns self !! hour) ++ [focus_score session]]>
      (focus_patterns self) in
  (* Track distraction triggers *)
  let triggers :=
    if 3 <? distractions_count session then
      <[hour := default 0 (distraction_triggers self !! hour) + 1]>
        (distraction_triggers self)
    else distraction_triggers self in
  {| productivity_history := history;
     focus_patterns := patterns;
     distraction_triggers := triggers |}.

(** The builtin [sum] on a list of integers. *)
Definition sum (l : list Z) : Z := fold_left Z.add l 0.

(** [range(a, b)]. *)
Definition range (a b : Z) : list Z := seqZ a (b - a).

(** [sum(scores) / len(scores)]. *)
Definition bucket_average (scores : list Z) : result spec_float :=
  int_truediv (sum scores) (Z.of_nat (length scores)).

(** The first exception of a run of computations. *)
Fixpoint first_raise {A : Type} (l : list (result A)) : option exn :=
  match l with
  | [] => None
  | Raise e :: _ => Some e
  | Ok _ :: l' => first_raise l'
  end.

Definition result_value {A : Type} (r : result A) : option A :=
  match r with
  | Ok a => Some a
  | Raise _ => None
  end.

(** The loop that fills [avg_focus_by_hour] with the average of each
    bucket.  A bucket that fails stops the loop: an empty one with
    [ZeroDivisionError], one whose average is too large for a float with
    [OverflowError].  The buckets are visited here in the order of the
    finite map and by the dict in the order the hours were first logged,
    which only matters for which of two different exceptions is seen;
    [log_session] leaves no bucket empty, so after it every failure is an
    [OverflowError]. *)
Definition avg_focus (fp : gmap Z (list Z)) : result (gmap Z spec_float) :=
  let averages := bucket_average <$> fp in
  match first_raise (snd <$> map_to_list averages) with
  | Some e => Raise e
  | None => Ok (omap result_value averages)
  end.

(** [avg_focus_by_hour.get(hour, 5)]: the default is the integer 5. *)
Definition avg_get (avg : gmap Z spec_float) (hour : Z) : pynum :=
  match avg !! hour with
  | Some f => PFloat f
  | None => PInt 5
  end.

(** [(avg.get(start_hour, 5) + avg.get(start_hour + 1, 5)) / 2]. *)
Definition window_score (avg : gmap Z spec_float) (start_hour : Z)
    : result spec_float :=
  total ← py_add (avg_get avg start_hour) (avg_get avg (start_hour + 1));
  py_truediv total (PInt 2).

(** One iteration of the window loop on [(best_score, best_window)]. *)
Definition window_step (avg : gmap Z spec_float)
    (best : pynum * (Z * Z)) (start_hour : Z) : result (pynum * (Z * Z)) :=
  let end_hour := start_hour + 2 in
  if end_hour <=? 22 then
    score ← window_score avg start_hour;
    if py_gt (PFloat score) (fst best)
    then Ok (PFloat score, (start_hour, end_hour))
    else Ok best
  else Ok best.

(** The window loop over the start hours. *)
Fixpoint window_loop (avg : gmap Z spec_float) (hours : list Z)
    (best : pynum * (Z * Z)) : result (pynum * (Z * Z)) :=
  match hours with
  | [] => Ok best
  | start_hour :: hours' =>
      best' ← window_step avg best start_hour;
      window_loop avg hours' best'
  end.

Definition get_optimal_focus_time (self : FocusDistractionsAgent)
    : result (Z * Z) :=
  match map_to_list (focus_patterns self) with
  | [] => Ok (9, 11)
  | _ :: _ =>
      avg_focus_by_hour ← avg_focus (focus_patterns self);
      best ← window_loop avg_focus_by_hour (range 6 20) (PInt 0, (9, 11));
      Ok (snd best)
  end.

Definition suggest_break_time
    (self : FocusDistractionsAgent) (current_time : datetime) : bool :=
  let hour := hour current_time in
  if 3 <? default 0 (distraction_triggers self !! hour) then true
  else false.

(* ===================================================================== *)
(** ** JSON documents and the text forms of the values written to them *)
(* ===================================================================== *)

(** What [json.dump] writes and [json.load] reads back. *)
#[local] Unset Elimination Schemes.
Inductive json :=
| JNull
| JBool (b : bool)
| JInt (z : Z)
| JFloat (f : pyfloat)
| JString (s : string)
| JArray (l : list json)
| JObject (l : list (string * json)).
#[local] Set Elimination Schemes.

(** [d.get(key)] and [d[key]] on a decoded JSON object. *)
Fixpoint dict_get (key : string) (d : list (string * json)) : option json :=
  match d with
  | [] => None
  | (k, v) :: d' => if String.eqb k key then Some v else dict_get key d'
  end.

Definition dict_item (key : string) (d : list (string * json)) : result json :=
  match dict_get key d with
  | Some v => Ok v
  | None => Raise KeyError
  end.

(** Truth value of a decoded JSON value. *)
Definition json_truthy (v : json) : bool :=
  match v with
  | JNull => false
  | JBool b => b
  | JInt z => negb (z =? 0)
  | JFloat f => float_truthy f
  | JString s => negb (String.eqb s "")
  | JArray l => match l with [] => false | _ => true end
  | JObject l => match l with [] => false | _ => true end
  end.

(** [str(Priority.X)] and [str(TaskStatus.X)]: a plain [Enum] prints as
    [ClassName.MEMBER]. *)
Definition Priority_str (p : Priority) : string :=
  match p with
  | LOW => "Priority.LOW"
  | MEDIUM => "Priority.MEDIUM"
  | HIGH => "Priority.HIGH"
  | URGENT => "Priority.URGENT"
  end.

Definition TaskStatus_str (s : TaskStatus) : string :=
  match s with
  | PENDING => "TaskStatus.PENDING"
  | IN_PROGRESS => "TaskStatus.IN_PROGRESS"
  | COMPLETED => "TaskStatus.COMPLETED"
  | CANCELLED => "TaskStatus.CANCELLED"
  end.

(** The number a JSON value compares equal to, if any ([True == 1]). *)
Definition json_number (v : json) : option Q :=
  match v with
  | JBool b => Some (inject_Z (if b then 1 else 0))
  | JInt z => Some (inject_Z z)
  | JFloat (FFinite q) => Some q
  | _ => None
  end.

(** [Priority(value)]: lookup of a member by value. *)
Definition Priority_of_value (v : json) : result Priority :=
  match json_number v with
  | Some q =>
      if Qeq_bool q (inject_Z 1) then Ok LOW
      else if Qeq_bool q (inject_Z 2) then Ok MEDIUM
      else if Qeq_bool q (inject_Z 3) then Ok HIGH
      else if Qeq_bool q (inject_Z 4) then Ok URGENT
      else Raise ValueError
  | None => Raise ValueError
  end.

(** [TaskStatus(value)]. *)
Definition TaskStatus_of_value (v : json) : result TaskStatus :=
  match v with
  | JString s =>
      if String.eqb s "pending" then Ok PENDING
      else if String.eqb s "in_progress" then Ok IN_PROGRESS
      else if String.eqb s "completed" then Ok COMPLETED
      else if String.eqb s "cancelled" then Ok CANCELLED
      else Raise ValueError
  | _ => Raise ValueError
  end.

(** Decimal digits. *)
Definition digit (n : Z) : ascii :=
  ascii_of_nat (48 + Z.to_nat (n mod 10)).

Definition digit_value (c : ascii) : option Z :=
  let n := Z.of_nat (nat_of_ascii c) in
  if (48 <=? n) && (n <=? 57) then Some (n - 48) else None.

(** [n] printed with [width] digits, as ["%0<width>d"] does for
    [0 <= n < 10 ^ width]. *)
Fixpoint zfill (width : nat) (n : Z) : string :=
  match width with
  | O => EmptyString
  | S w => zfill w (n / 10) +:+ String (digit n) EmptyString
  end.

(** [str(dt)], that is [dt.isoformat(sep=' ')], for a naive datetime. *)
Definition datetime_str (dt : datetime) : string :=
  zfill 4 (year dt) +:+ "-" +:+ zfill 2 (month dt) +:+ "-" +:+ zfill 2 (day dt)
  +:+ " " +:+ zfill 2 (hour dt) +:+ ":" +:+ zfill 2 (minute dt)
  +:+ ":" +:+ zfill 2 (second dt)
  +:+ (if microsecond dt =? 0 then EmptyString
       else "." +:+ zfill 6 (microsecond dt)).

(** Reads exactly [width] digits from the front of [s]. *)
Fixpoint parse_digits (width : nat) (acc : Z) (s : string) : option (Z * string) :=
  match width with
  | O => Some (acc, s)
  | S w =>
      match s with
      | String c s' =>
          match digit_value c with
          | Some d => parse_digits w (acc * 10 + d) s'
          | None => None
          end
      | EmptyString => None
      end
  end.

Definition expect (c : ascii) (s : string) : option string :=
  match s with
  | String c' s' => if Ascii.eqb c c' then Some s' else None
  | EmptyString => None
  end.

Definition _days_in_month (y m : Z) : Z :=
  match m with
  | 2 => if _is_leap y then 29 else 28
  | 4 | 6 | 9 | 11 => 30
  | _ => 31
  end.

(** The range checks of the [datetime] constructor. *)
Definition datetime_valid (dt : datetime) : bool :=
  (1 <=? year dt) && (year dt <=? 9999)
  && (1 <=? month dt) && (month dt <=? 12)
  && (1 <=? day dt) && (day dt <=? _days_in_month (year dt) (month dt))
  && (0 <=? hour dt) && (hour dt <=? 23)
  && (0 <=? minute dt) && (minute dt <=? 59)
  && (0 <=? second dt) && (second dt <=? 59)
  && (0 <=? microsecond dt) && (microsecond dt <=? 999999).

(** The fraction of a second: [.fff] or [.ffffff], or nothing. *)
Definition parse_fraction (s : string) : option Z :=
  match s with
  | EmptyString => Some 0
  | String c s' =>
      if Ascii.eqb c "."%char then
        match parse_digits 6 0 s' with
        | Some (us, EmptyString) => Some us
        | _ =>
            match parse_digits 3 0 s' with
            | Some (ms, EmptyString) => Some (ms * 1000)
            | _ => None
            end
        end
      else None
  end.

(** The time part [HH[:MM[:SS[.fff[fff]]]]], as (hour, minute, second,
    microsecond). *)
Definition parse_time (s : string) : option (Z * Z * Z * Z) :=
  '(hh, s) ← parse_digits 2 0 s;
  match s with
  | EmptyString => Some (hh, 0, 0, 0)
  | _ =>
      s ← expect ":" s;
      '(mm, s) ← parse_digits 2 0 s;
      match s with
      | EmptyString => Some (hh, mm, 0, 0)
      | _ =>
          s ← expect ":" s;
          '(ss, s) ← parse_digits 2 0 s;
          us ← parse_fraction s;
          Some (hh, mm, ss, us)
      end
  end.

Definition parse_isoformat (s : string) : option datetime :=
  '(y, s) ← parse_digits 4 0 s;
  s ← expect "-" s;
  '(m, s) ← parse_digits 2 0 s;
  s ← expect "-" s;
  '(d, s) ← parse_digits 2 0 s;
  match s with
  | EmptyString => Some (mk_datetime y m d 0 0 0 0)
  | String _ s =>
      '(hh, mm, ss, us) ← parse_time s;
      Some (mk_datetime y m d hh mm ss us)
  end.

(** [datetime.datetime.fromisoformat(v)] on a decoded JSON value, for the
    strings that denote a naive datetime: a date [YYYY-MM-DD], alone or
    followed by one separator character and a time.  A value that is not
    a string is a [TypeError], a malformed or out-of-range string a
    [ValueError]. *)
Definition fromisoformat (v : json) : result datetime :=
  match v with
  | JString s =>
      match parse_isoformat s with
      | Some dt => if datetime_valid dt then Ok dt else Raise ValueError
      | None => Raise ValueError
      end
  | _ => Raise TypeError
  end.

(* ===================================================================== *)
(** ** ProductivityOptimizer *)
(* ===================================================================== *)

(** The optimizer with the state its operations read and write; the
    resource and automation agents hold static tables only. *)
Record ProductivityOptimizer := mk_ProductivityOptimizer {
  user_id : string;
  focus_agent : FocusDistractionsAgent;
  tasks : list Task;
  current_energy : Z
}.

(** The part of [get_daily_recommendations] computed by the task and focus
    agents. *)
Record Recommendations := mk_Recommendations {
  prioritized_tasks : list Task;
  optimal_focus_time : Z * Z;
  should_take_break : bool
}.

Definition get_daily_recommendations
    (self : ProductivityOptimizer) (current_time : datetime)
    : result Recommendations :=
  let prioritized :=
    prioritize_tasks (tasks self) (current_energy self) current_time in
  focus_time ← get_optimal_focus_time (focus_agent self);
  let break := suggest_break_time (focus_agent self) current_time in
  Ok {| prioritized_tasks := firstn 5 prioritized;
        optimal_focus_time := focus_time;
        should_take_break := break |}.

(** The hours a task carries before [complete_task] touches it. *)
Definition recorded_hours (task : Task) : option pyfloat := actual_hours task.

(** The body of the loop of [complete_task] on a matching task; [now] is
    the value of [datetime.datetime.now()], and [if actual_hours:] tests
    the truth value of the argument. *)
Definition mark_completed
    (task : Task) (actual_hours : option pyfloat) (now : datetime) : Task :=
  {| id := id task;
     title := title task;
     description := description task;
     priority := priority task;
     deadline := deadline task;
     estimated_hours := estimated_hours task;
     energy_level_required := energy_level_required task;
     tags := tags task;
     status := COMPLETED;
     created_at := created_at task;
     completed_at := Some now;
     actual_hours :=
       match actual_hours with
       | Some h => if float_truthy h then Some h else recorded_hours task
       | None => recorded_hours task
       end |}.

(** The loop of [complete_task], left at the first match by [break]. *)
Fixpoint complete_task_loop
    (tasks : list Task) (task_id : string)
    (actual_hours : option pyfloat) (now : datetime) : list Task :=
  match tasks with
  | [] => []
  | task :: rest =>
      if String.eqb (id task) task_id
      then mark_completed task actual_hours now :: rest
      else task :: complete_task_loop rest task_id actual_hours now
  end.

Definition complete_task
    (self : ProductivityOptimizer) (task_id : string)
    (actual_hours : option pyfloat) (now : datetime) : ProductivityOptimizer :=
  {| user_id := user_id self;
     focus_agent := focus_agent self;
     tasks := complete_task_loop (tasks self) task_id actual_hours now;
     current_energy := current_energy self |}.

Definition log_productivity_session
    (self : ProductivityOptimizer) (start_time end_time : datetime)
    (tasks_completed : list string) (focus_score energy_level : Z)
    (distractions_count : Z) (tools_used : option (list string))
    : ProductivityOptimizer :=
  let session :=
    {| start_time := start_time;
       end_time := end_time;
       tasks_completed := tasks_completed;
       focus_score := focus_score;
       energy_level := energy_level;
       distractions_count := distractions_count;
       tools_used := default [] tools_used |} in
  {| user_id := user_id self;
     focus_agent := log_session (focus_agent self) session;
     tasks := tasks self;
     (* Update current energy *)
     current_energy := energy_level |}.

(* ===================================================================== *)
(** ** Snapshot persistence *)
(* ===================================================================== *)

(** [json.dump(..., default=str)] of an optional datetime. *)
Definition dump_datetime (d : option datetime) : json :=
  match d with
  | Some dt => JString (datetime_str dt)
  | None => JNull
  end.

(** [asdict(task)] as [json.dump(..., default=str)] writes it: the enum
    members and the datetimes, which JSON cannot hold, go through [str]. *)
Definition dump_task_items (task : Task) : list (string * json) :=
    [ ("id", JString (id task));
      ("title", JString (title task));
      ("description", JString (description task));
      ("priority", JString (Priority_str (priority task)));
      ("deadline", dump_datetime (deadline task));
      ("estimated_hours", JFloat (estimated_hours task));
      ("energy_level_required", JInt (energy_level_required task));
      ("tags", JArray (List.map JString (tags task)));
      ("status", JString (TaskStatus_str (status task)));
      ("created_at", JString (datetime_str (created_at task)));
      ("completed_at", dump_datetime (completed_at task));
      ("actual_hours",
        match actual_hours task with
        | Some h => JFloat h
        | None => JNull
        end) ].

Definition dump_task (task : Task) : json := JObject (dump_task_items task).

(** The snapshot file of a user. *)
Definition user_file (self : ProductivityOptimizer) : string :=
  "user_data/" +:+ user_id self +:+ ".json".

(** The files as [_load_user_data] meets them: what
    [open(path, "r")] followed by [json.load] gives at each path.  No
    entry: there is no such file, [open] raises [FileNotFoundError].
    [Raise e]: [open] or [json.load] raises another exception, as
    [ValueError] for a name with a NUL character or a file that holds no
    JSON document, and [OSError] for a name the system refuses, a
    directory or a file that may not be read.  [Ok doc]: the file decodes
    to [doc].

    [_save_user_data]: once the write is done the user's file reads as
    the document.  The four agent dictionaries that are written along are
    left out: nothing reads them back. *)
Definition _save_user_data
    (self : ProductivityOptimizer) (files : gmap string (result json))
    : gmap string (result json) :=
  let data :=
    JObject
      [ ("tasks", JArray (List.map dump_task (tasks self)));
        ("current_energy", JInt (current_energy self)) ] in
  <[user_file self := Ok data]> files.

(** Conversion of [task_data["deadline"]] and [task_data["completed_at"]]:
    only a present, true value is parsed. *)
Definition load_optional_datetime
    (key : string) (d : list (string * json)) : result (option datetime) :=
  match dict_get key d with
  | Some v =>
      if json_truthy v then dt ← fromisoformat v; Ok (Some dt)
      else Ok None
  | None => Ok None
  end.

Definition Task_fields : list string :=
  [ "id"; "title"; "description"; "priority"; "deadline"; "estimated_hours";
    "energy_level_required"; "tags"; "status"; "created_at"; "completed_at";
    "actual_hours" ]%string.

(** Keyword arguments of the [Task] constructor, taken from
    [task_data].  Python stores them unchecked; a
    value of another type than the field's lies outside this typed model
    and is reported as a [TypeError], like a missing or unknown field. *)
Definition arg (key : string) (d : list (string * json)) : result json :=
  match dict_get key d with
  | Some v => Ok v
  | None => Raise TypeError
  end.

Definition as_string (v : json) : result string :=
  match v with JString s => Ok s | _ => Raise TypeError end.

Definition as_int (v : json) : result Z :=
  match v with JInt z => Ok z | _ => Raise TypeError end.

Definition as_float (v : json) : result pyfloat :=
  match v with
  | JFloat f => Ok f
  | JInt z => Ok (FFinite (inject_Z z))
  | _ => Raise TypeError
  end.

Fixpoint as_strings (l : list json) : result (list string) :=
  match l with
  | [] => Ok []
  | v :: l' => s ← as_string v; ss ← as_strings l'; Ok (s :: ss)
  end.

(** A field left as it was read because it was false: only [null] is a
    value of an optional field. *)
Definition as_none_or {A : Type} (key : string) (d : list (string * json))
    (converted : option A) : result (option A) :=
  match dict_get key d with
  | Some v =>
      if json_truthy v then Ok converted
      else match v with JNull => Ok None | _ => Raise TypeError end
  | None => Ok None
  end.

(** One iteration of the loop of [_load_user_data]. *)
Definition load_task (task_data : json) : result Task :=
  match task_data with
  | JObject d =>
      (* Convert string dates back to datetime objects *)
      deadline ← load_optional_datetime "deadline" d;
      created_at ← (v ← dict_item "created_at" d; fromisoformat v);
      completed_at ← load_optional_datetime "completed_at" d;
      (* Convert enums *)
      priority ← (v ← dict_item "priority" d; Priority_of_value v);
      status ← (v ← dict_item "status" d; TaskStatus_of_value v);
      (* The Task constructor on the keywords of task_data *)
      if negb (forallb (fun item =>
                 existsb (String.eqb (fst item)) Task_fields) d)
      then Raise TypeError
      else
        id ← (v ← arg "id" d; as_string v);
        title ← (v ← arg "title" d; as_string v);
        description ← (v ← arg "description" d; as_string v);
        _ ← arg "deadline" d;
        deadline ← as_none_or "deadline" d deadline;
        estimated_hours ← (v ← arg "estimated_hours" d; as_float v);
        energy_level_required ←
          (v ← arg "energy_level_required" d; as_int v);
        tags ← (v ← arg "tags" d;
                match v with JArray l => as_strings l | _ => Raise TypeError end);
        completed_at ← as_none_or "completed_at" d completed_at;
        actual_hours ←
          match dict_get "actual_hours" d with
          | Some JNull | None => Ok None
          | Some v => h ← as_float v; Ok (Some h)
          end;
        Ok {| id := id; title := title; description := description;
              priority := priority; deadline := deadline;
              estimated_hours := estimated_hours;
              energy_level_required := energy_level_required;
              tags := tags; status := status; created_at := created_at;
              completed_at := completed_at; actual_hours := actual_hours |}
  | _ => Raise AttributeError
  end.

(** What a [for] loop over a decoded JSON value visits: the items of a
    list, the keys of an object, the characters of a string; the other
    values are not iterable. *)
Definition json_iter (v : json) : result (list json) :=
  match v with
  | JArray l => Ok l
  | JObject items => Ok (List.map (fun item => JString (fst item)) items)
  | JString s =>
      Ok (List.map (fun c => JString (String c EmptyString))
            (list_ascii_of_string s))
  | _ => Raise TypeError
  end.

Fixpoint load_tasks (l : list json) : result (list Task) :=
  match l with
  | [] => Ok []
  | task_data :: l' =>
      task ← load_task task_data;
      rest ← load_tasks l';
      Ok (task :: rest)
  end.

(** [_load_user_data]: a missing file leaves the optimizer as it is
    ([FileNotFoundError] is caught); any other exception of [open] and
    [json.load], and of the conversions that follow, escapes.  The energy
    is stored as it is read; a value that is not an integer lies outside
    the typed model and is reported as a [TypeError]. *)
Definition _load_user_data
    (self : ProductivityOptimizer) (files : gmap string (result json))
    : result ProductivityOptimizer :=
  match files !! user_file self with
  | None => Ok self
  | Some (Raise e) => Raise e
  | Some (Ok (JObject data)) =>
      (* Reconstruct tasks *)
      tasks ←
        match dict_get "tasks" data with
        | Some v => l ← json_iter v; load_tasks l
        | None => Ok []
        end;
      current_energy ←
        match dict_get "current_energy" data with
        | Some v => as_int v
        | None => Ok 7
        end;
      Ok {| user_id := user_id self;
            focus_agent := focus_agent self;
            tasks := tasks;
            current_energy := current_energy |}
  | Some (Ok _) => Raise AttributeError
  end.

(** [ProductivityOptimizer(user_id)]. *)
Definition ProductivityOptimizer_init
    (user_id : string) (files : gmap string (result json))
    : result ProductivityOptimizer :=
  _load_user_data
    {| user_id := user_id;
       focus_agent := FocusDistractionsAgent_init;
       tasks := [];
       current_energy := 7 |}
    files.

(* ===================================================================== *)
(** ** The four bands of the score *)
(* ===================================================================== *)

(** Whole days from [current_time] to the deadline [d]. *)
Definition days_until (d current_time : datetime) : Z :=
  days (datetime_sub d current_time).

Definition deadline_points (days_until_deadline : Z) : Z :=
  if days_until_deadline <=? 0 then 40
  else if days_until_deadline <=? 1 then 35
  else if days_until_deadline <=? 3 then 25
  else if days_until_deadline <=? 7 then 15
  else 5.

Definition deadline_band (task : Task) (current_time : datetime) : Z :=
  match deadline task with
  | Some d => deadline_points (days_until d current_time)
  | None => 0
  end.

Definition priority_band (task : Task) : Z := priority_scores (priority task).

Definition energy_band (task : Task) (current_energy : Z) : Z :=
  Z.max 0 (20 - Z.abs (current_energy - energy_level_required task) * 2).

Definition effort_band (task : Task) (current_time : datetime) : Z :=
  if (9 <=? hour current_time) && (hour current_time <=? 17) then
    if float_le_int (estimated_hours task) 2 then 15
    else if float_le_int (estimated_hours task) 4 then 10
    else 5
  else 0.

(* ===================================================================== *)
(** ** Histories of the focus agent *)
(* ===================================================================== *)

(** The agent after logging [sessions], oldest first, on a fresh agent. *)
Definition log_sessions (sessions : list ProductivitySession)
    : FocusDistractionsAgent :=
  fold_left log_session sessions FocusDistractionsAgent_init.

(** No bucket of [focus_patterns] is an empty list. *)
Definition buckets_nonempty (fp : gmap Z (list Z)) : Prop :=
  map_Forall (fun _ scores => scores <> []) fp.

(** Every focus score in the buckets is positive. *)
Definition buckets_positive (fp : gmap Z (list Z)) : Prop :=
  map_Forall (fun _ scores => Forall (fun x => 0 < x) scores) fp.

(** [distraction_triggers.get(hour, 0)]. *)
Definition trigger_count (self : FocusDistractionsAgent) (hour : Z) : Z :=
  default 0 (distraction_triggers self !! hour).

(** The average focus of the sessions started in [hour], the float
    [sum / count]; 5 when there is none. *)
Definition hour_average (self : FocusDistractionsAgent) (hour : Z)
    : spec_float :=
  match focus_patterns self !! hour with
  | Some scores =>
      float_div (int_as_float (sum scores))
                (int_as_float (Z.of_nat (length scores)))
  | None => float_lit 5
  end.

(** Every hour's average fits a float. *)
Definition averages_finite (self : FocusDistractionsAgent) : Prop :=
  forall hour, is_inf (hour_average self hour) = false.

(** The score of the window reported as [(start, start + 2)]: the mean of
    the averages of the hours [start] and [start + 1] only, in float
    arithmetic. *)
Definition window_mean (self : FocusDistractionsAgent) (start : Z)
    : spec_float :=
  float_div
    (float_add (hour_average self start) (hour_average self (start + 1)))
    (float_lit 2).

(** [start] is the first start hour, in the scan of 6 to 19, whose window
    has the largest score: no window scores more, every earlier one
    scores less. *)
Definition first_best_window (self : FocusDistractionsAgent) (start : Z) : Prop :=
  6 <= start <= 19
  /\ (forall s, 6 <= s <= 19 ->
        float_gt (window_mean self s) (window_mean self start) = false)
  /\ (forall s, 6 <= s < start ->
        float_gt (window_mean self start) (window_mean self s) = true).

(** [x] is [+inf], or a positive float of magnitude at least [k]:
    [2 ^ (k - 1) <= x]. *)
Definition at_least (k : Z) (x : spec_float) : bool :=
  match x with
  | S754_infinity false => true
  | S754_finite false m e => k <=? Zdigits2 (Z.pos m) + e
  | _ => false
  end.

(** What [avg_focus_by_hour.get(hour, 5)] holds when the loop over the
    buckets has succeeded. *)
Definition averages_of (self : FocusDistractionsAgent)
    (avg : gmap Z spec_float) : Prop :=
  forall h,
    avg_get avg h
    = match focus_patterns self !! h with
      | Some _ => PFloat (hour_average self h)
      | None => PInt 5
      end.

(** Every focus score in the buckets is within [b] of zero. *)
Definition buckets_bounded (b : Z) (fp : gmap Z (list Z)) : Prop :=
  map_Forall (fun _ scores => Forall (fun x => Z.abs x <= b) scores) fp.

(** The optimizer after logging [sessions], oldest first, each through
    [log_productivity_session]. *)
Definition log_productivity_sessions
    (self : ProductivityOptimizer) (sessions : list ProductivitySession)
    : ProductivityOptimizer :=
  fold_left
    (fun o s =>
       log_productivity_session o (start_time s) (end_time s)
         (tasks_completed s) (focus_score s) (energy_level s)
         (distractions_count s) (Some (tools_used s)))
    sessions self.

(* ===================================================================== *)
(** ** Sample data *)
(* ===================================================================== *)

Module Sample.

(** Friday 15 March 2024, 10:30. *)
Definition now : datetime := mk_datetime 2024 3 15 10 30 0 0.

Definition at_day (d : Z) : datetime := mk_datetime 2024 3 d 10 30 0 0.

Definition at_hour (h : Z) : datetime := mk_datetime 2024 3 15 h 0 0 0.

Definition proposal (deadline : option datetime) : Task :=
  {| id := "task_1";
     title := "Complete project proposal";
     description := "Write and review the Q2 project proposal";
     priority := HIGH;
     deadline := deadline;
     estimated_hours := FFinite 4;
     energy_level_required := 8;
     tags := ["writing"; "project"; "deadline"]%string;
     status := PENDING;
     created_at := now;
     completed_at := None;
     actual_hours := None |}.

Definition inbox : Task :=
  {| id := "task_2";
     title := "Review email inbox";
     description := "Go through and respond to emails";
     priority := MEDIUM;
     deadline := None;
     estimated_hours := FFinite (1 # 2);
     energy_level_required := 3;
     tags := ["email"; "communication"]%string;
     status := PENDING;
     created_at := now;
     completed_at := None;
     actual_hours := None |}.

Definition finished : Task :=
  {| id := "task_3";
     title := "Team meeting preparation";
     description := "Prepare agenda and materials for team meeting";
     priority := URGENT;
     deadline := None;
     estimated_hours := FFinite 1;
     energy_level_required := 6;
     tags := ["meeting"; "preparation"]%string;
     status := COMPLETED;
     created_at := now;
     completed_at := Some now;
     actual_hours := Some (FFinite 1) |}.

Definition proposal_again : Task :=
  {| id := "task_4";
     title := "Complete project proposal";
     description := "Write and review the Q2 project proposal";
     priority := HIGH;
     deadline := None;
     estimated_hours := FFinite 4;
     energy_level_required := 8;
     tags := ["writing"; "project"; "deadline"]%string;
     status := PENDING;
     created_at := now;
     completed_at := None;
     actual_hours := None |}.

(** One hour of work from [h] o'clock. *)
Definition session (h focus distractions : Z) : ProductivitySession :=
  {| start_time := at_hour h;
     end_time := at_hour (h + 1);
     tasks_completed := [];
     focus_score := focus;
     energy_level := 7;
     distractions_count := distractions;
     tools_used := [] |}.

(** Two sessions started at 14 o'clock. *)
Definition afternoon : list ProductivitySession :=
  [session 14 8 5; session 14 7 1].

(** One session in each hour from 6 to 20, all without any focus. *)
Definition idle_day : list ProductivitySession :=
  List.map (fun h => session h 0 0) (range 6 21).

(** Two mornings whose windows of 6 and of 12 o'clock both have the exact
    mean 22/3: focus 6 at 6 and 9, 9, 8 at 7, focus 7 at 12 and 8, 8, 7 at
    13. *)
Definition near_tie : list ProductivitySession :=
  [session 6 6 0; session 7 9 0; session 7 9 0; session 7 8 0;
   session 12 7 0; session 13 8 0; session 13 8 0; session 13 7 0].

(** The inbox task as a document that holds the enum members by value. *)
Definition inbox_by_value : json :=
  JObject
    [ ("id", JString "task_2");
      ("title", JString "Review email inbox");
      ("description", JString "Go through and respond to emails");
      ("priority", JInt 2);
      ("deadline", JNull);
      ("estimated_hours", JFloat (FFinite (1 # 2)));
      ("energy_level_required", JInt 3);
      ("tags", JArray [JString "email"; JString "communication"]);
      ("status", JString "pending");
      ("created_at", JString "2024-03-15T10:30:00");
      ("completed_at", JNull);
      ("actual_hours", JNull) ].

Definition optimizer (tasks : list Task) : ProductivityOptimizer :=
  {| user_id := "user123";
     focus_agent := FocusDistractionsAgent_init;
     tasks := tasks;
     current_energy := 7 |}.

End Sample.

(* ===================================================================== *)
(** ** Elapsed time *)
(* ===================================================================== *)

(** Microseconds from the start of day 0 of the calendar to [dt]. *)
Definition datetime_us (dt : datetime) : Z :=
  (toordinal dt * 86400 + (second dt + minute dt * 60 + hour dt * 3600))
  * 1000000 + microsecond dt.

(* ===================================================================== *)
(** ** ProductivityOptimizer: adding tasks *)
(* ===================================================================== *)

(** [str(n)] for a length. *)
Definition str_nat (n : nat) : string :=
  NilEmpty.string_of_uint (Nat.to_uint n).

(** [add_task]: the new task and the optimizer that holds it; [now] is the
    value of [datetime.datetime.now()], and [tags or []] turns a missing
    list into the empty one. *)
Definition add_task
    (self : ProductivityOptimizer) (title description : string)
    (priority : Priority) (deadline : option datetime)
    (estimated_hours : pyfloat) (energy_level_required : Z)
    (tags : option (list string)) (now : datetime)
    : ProductivityOptimizer * Task :=
  let task :=
    {| id := "task_" +:+ str_nat (length (tasks self) + 1);
       title := title;
       description := description;
       priority := priority;
       deadline := deadline;
       estimated_hours := estimated_hours;
       energy_level_required := energy_level_required;
       tags := default [] tags;
       status := PENDING;
       created_at := now;
       completed_at := None;
       actual_hours := None |} in
  ({| user_id := user_id self;
      focus_agent := focus_agent self;
      tasks := tasks self ++ [task];
      current_energy := current_energy self |},
   task).

(** The fields a caller passes to [add_task]. *)
Record NewTask := mk_NewTask {
  new_title : string;
  new_description : string;
  new_priority : Priority;
  new_deadline : option datetime;
  new_estimated_hours : pyfloat;
  new_energy_level_required : Z;
  new_tags : option (list string);
  new_now : datetime
}.

Definition add_new_task (self : ProductivityOptimizer) (t : NewTask)
    : ProductivityOptimizer :=
  fst (add_task self (new_title t) (new_description t) (new_priority t)
         (new_deadline t) (new_estimated_hours t)
         (new_energy_level_required t) (new_tags t) (new_now t)).

(** The optimizer after a series of [add_task] calls. *)
Definition add_tasks (self : ProductivityOptimizer) (l : list NewTask)
    : ProductivityOptimizer :=
  fold_left add_new_task l self.

(** A new optimizer for which no snapshot exists. *)
Definition fresh_optimizer (uid : string) : ProductivityOptimizer :=
  {| user_id := uid;
     focus_agent := FocusDistractionsAgent_init;
     tasks := [];
     current_energy := 7 |}.

(* ===================================================================== *)
(** ** FocusDistractionsAgent: tips *)
(* ===================================================================== *)

(** A tip: one of the fixed texts, or the text that names the most
    distracting hours.  That text prints the hours in the order the
    dictionary got them; the model keeps the set of these hours. *)
Inductive Tip :=
| GenericTip (text : string)
| MostDistractingHours (hours : gset Z).

Definition generic_tips : list Tip :=
  [ GenericTip "Consider using website blockers during focus sessions";
    GenericTip "Turn off non-essential notifications";
    GenericTip "Use noise-cancelling headphones or white noise";
    GenericTip "Keep your phone in another room or in airplane mode";
    GenericTip "Prepare everything you need before starting deep work" ].

Definition high_distraction_hours (self : FocusDistractionsAgent) : gset Z :=
  dom (filter (fun item : Z * Z => 2 < item.2) (distraction_triggers self)).

Definition get_distraction_mitigation_tips (self : FocusDistractionsAgent)
    : list Tip :=
  let tips := generic_tips in
  (* Add personalized tips based on patterns *)
  if bool_decide (high_distraction_hours self = ∅) then tips
  else tips ++ [MostDistractingHours (high_distraction_hours self)].


(* ===================================================================== *)
(** ** Text: [str.lower] and [str.split] *)
(* ===================================================================== *)

(** Strings are held as their UTF-8 bytes. *)
Definition byte (c : ascii) : Z := Z.of_nat (nat_of_ascii c).

(** [str.lower] on the letters A to Z.  Python also lowers letters
    outside ASCII; none of them becomes one of the ASCII letters of the
    keys and keywords the results are compared with. *)
Definition ascii_lower (c : ascii) : ascii :=
  if (65 <=? byte c) && (byte c <=? 90)
  then ascii_of_nat (nat_of_ascii c + 32)
  else c.

Fixpoint lower (s : string) : string :=
  match s with
  | EmptyString => EmptyString
  | String c s' => String (ascii_lower c) (lower s')
  end.

(** The ASCII characters for which [str.isspace] holds: tab to carriage
    return, the four separators 0x1c to 0x1f, and the space. *)
Definition ascii_space (c : ascii) : bool :=
  ((9 <=? byte c) && (byte c <=? 13)) || ((28 <=? byte c) && (byte c <=? 32)).

(** The rest of [s] after one leading whitespace character, if [s] starts
    with one: an ASCII one, or the UTF-8 form of U+0085, U+00A0, U+1680,
    U+2000 to U+200A, U+2028, U+2029, U+202F, U+205F or U+3000. *)
Definition space_prefix (s : string) : option string :=
  match s with
  | EmptyString => None
  | String c1 s1 =>
      if ascii_space c1 then Some s1
      else
        match s1 with
        | EmptyString => None
        | String c2 s2 =>
            if (byte c1 =? 194) && ((byte c2 =? 133) || (byte c2 =? 160))
            then Some s2
            else
              match s2 with
              | EmptyString => None
              | String c3 s3 =>
                  if ((byte c1 =? 225) && (byte c2 =? 154) && (byte c3 =? 128))
                     || ((byte c1 =? 226) && (byte c2 =? 128)
                         && (((128 <=? byte c3) && (byte c3 <=? 138))
                             || (byte c3 =? 168) || (byte c3 =? 169)
                             || (byte c3 =? 175)))
                     || ((byte c1 =? 226) && (byte c2 =? 129) && (byte c3 =? 159))
                     || ((byte c1 =? 227) && (byte c2 =? 128) && (byte c3 =? 128))
                  then Some s3
                  else None
              end
        end
  end.

(** The word being read, closed. *)
Definition close_word (word : string) : list string :=
  match word with
  | EmptyString => []
  | _ => [word]
  end.

(** [str.split()] reads [s] from the left, [word] being the word in
    progress; [fuel] bounds the number of steps. *)
Fixpoint split_loop (fuel : nat) (s word : string) : list string :=
  match fuel with
  | O => close_word word
  | S fuel' =>
      match space_prefix s with
      | Some rest => close_word word ++ split_loop fuel' rest EmptyString
      | None =>
          match s with
          | EmptyString => close_word word
          | String c rest =>
              split_loop fuel' rest (word +:+ String c EmptyString)
          end
      end
  end.

(** [s.split()]: the words of [s] between runs of whitespace. *)
Definition split (s : string) : list string :=
  split_loop (String.length s) s EmptyString.

(** [word in words]. *)
Definition word_in (word : string) (words : list string) : bool :=
  existsb (String.eqb word) words.

(* ===================================================================== *)
(** ** WorkflowAutomationAgent *)
(* ===================================================================== *)

Module Repetitive.
(** An entry of [repetitive_tasks]. *)
Record t := mk {
  pattern : string;
  frequency : nat;
  tasks : list Task
}.
End Repetitive.

(** The [potential_time_saved] of a suggestion: a fixed text, or the text
    printed from a number of hours per week, kept as that number. *)
Inductive TimeSaved :=
| SavedText (text : string)
| HoursPerWeek (hours : Q).

Module Suggestion.
(** An entry of the list built by [generate_automation_suggestions]. *)
Record t := mk {
  pattern : string;
  suggestion : string;
  tools : list string;
  potential_time_saved : TimeSaved
}.
End Suggestion.

(** [task_patterns] is a [defaultdict(list)]; the loop over its items
    follows the order in which the keys were first used, so it is held as
    an association list in that order.  [automation_suggestions] is never
    written. *)
Record WorkflowAutomationAgent := mk_WorkflowAutomationAgent {
  task_patterns : list (string * list Task);
  repetitive_tasks : list Repetitive.t;
  automation_suggestions : list Suggestion.t
}.

Definition WorkflowAutomationAgent_init : WorkflowAutomationAgent :=
  {| task_patterns := [];
     repetitive_tasks := [];
     automation_suggestions := [] |}.

Definition _extract_pattern_key (title : string) : string :=
  let words := split (lower title) in
  (* Look for common patterns *)
  if word_in "email" words then "email_tasks"
  else if word_in "meeting" words then "meeting_tasks"
  else if word_in "report" words then "report_tasks"
  else if word_in "review" words then "review_tasks"
  else if word_in "project" words then "project_tasks"
  else if word_in "preparation" words || word_in "prepare" words
       then "preparation_tasks"
  else "other_tasks".

(** [patterns[key].append(task)] on the ordered dictionary. *)
Fixpoint patterns_append
    (key : string) (task : Task) (patterns : list (string * list Task))
    : list (string * list Task) :=
  match patterns with
  | [] => [(key, [task])]
  | (k, l) :: rest =>
      if String.eqb k key then (k, l ++ [task]) :: rest
      else (k, l) :: patterns_append key task rest
  end.

Definition analyze_task_patterns
    (self : WorkflowAutomationAgent) (tasks : list Task)
    : WorkflowAutomationAgent :=
  (* Clear previous patterns, then group by similar titles *)
  let patterns :=
    fold_left
      (fun patterns task =>
         patterns_append (_extract_pattern_key (title task)) task patterns)
      tasks [] in
  (* Identify repetitive tasks *)
  let repetitive :=
    List.map
      (fun item : string * list Task =>
         Repetitive.mk item.1 (length item.2) item.2)
      (List.filter (fun item : string * list Task => (2 <=? length item.2)%nat)
         patterns) in
  {| task_patterns := patterns;
     repetitive_tasks := repetitive;
     automation_suggestions := automation_suggestions self |}.

Definition general_suggestions : list Suggestion.t :=
  [ Suggestion.mk "general_productivity"
      "Set up email templates for common responses"
      ["Gmail templates"; "Outlook Quick Parts"]
      (SavedText "2-3 hours/week");
    Suggestion.mk "general_productivity"
      "Use calendar automation for recurring meetings"
      ["Google Calendar"; "Outlook Calendar"]
      (SavedText "1-2 hours/week") ].

(** The hours a week that one task of a pattern saves. *)
Definition pattern_rate (pattern : string) : Q :=
  if String.eqb pattern "email_tasks" then 1 # 2
  else if String.eqb pattern "meeting_tasks" then 1 # 4
  else if String.eqb pattern "report_tasks" then 1
  else if String.eqb pattern "project_tasks" then 3 # 4
  else if String.eqb pattern "preparation_tasks" then 1 # 2
  else 0.

(** The branch of the loop of [generate_automation_suggestions] for one
    repetitive pattern.  The products [frequency * 0.5] and the like are
    kept as the rationals they denote; as floats they are exact for any
    frequency below [2 ^ 51]. *)
Definition pattern_suggestion (r : Repetitive.t) : list Suggestion.t :=
  let pattern := Repetitive.pattern r in
  let frequency := inject_Z (Z.of_nat (Repetitive.frequency r)) in
  if String.eqb pattern "email_tasks" then
    [ Suggestion.mk pattern
        "Create email templates and use email scheduling"
        ["Gmail templates"; "Boomerang"; "Mixmax"]
        (HoursPerWeek (frequency * (1 # 2))) ]
  else if String.eqb pattern "meeting_tasks" then
    [ Suggestion.mk pattern
        "Use calendar automation and meeting templates"
        ["Calendly"; "Google Calendar"; "Zoom"]
        (HoursPerWeek (frequency * (1 # 4))) ]
  else if String.eqb pattern "report_tasks" then
    [ Suggestion.mk pattern
        "Create report templates and automate data collection"
        ["Python scripts"; "Excel macros"; "Power BI"]
        (HoursPerWeek (frequency * 1)) ]
  else if String.eqb pattern "project_tasks" then
    [ Suggestion.mk pattern
        "Use project templates and automated workflows"
        ["Notion templates"; "Trello automation"; "Zapier"]
        (HoursPerWeek (frequency * (3 # 4))) ]
  else if String.eqb pattern "preparation_tasks" then
    [ Suggestion.mk pattern
        "Create preparation checklists and templates"
        ["Notion templates"; "Todoist templates"; "Google Docs"]
        (HoursPerWeek (frequency * (1 # 2))) ]
  else [].

Definition generate_automation_suggestions (self : WorkflowAutomationAgent)
    : list Suggestion.t :=
  let suggestions :=
    match repetitive_tasks self with
    | [] => general_suggestions
    | _ :: _ => []
    end in
  suggestions ++ List.concat (List.map pattern_suggestion (repetitive_tasks self)).

(** The [automation_suggestions] entry of [get_daily_recommendations]: the
    analysis starts by clearing what the agent held. *)
Definition daily_automation_suggestions (self : ProductivityOptimizer)
    : list Suggestion.t :=
  generate_automation_suggestions
    (analyze_task_patterns WorkflowAutomationAgent_init (tasks self)).

(* ===================================================================== *)
(** ** ResourceRecommendationAgent *)
(* ===================================================================== *)

Module Resource.
(** An entry of the resource database. *)
Record t := mk {
  name : string;
  type : string;
  description : string
}.
End Resource.

(** The dictionary literal of [_initialize_resources]. *)
Definition resource_table : list (string * list Resource.t) :=
  [ ("productivity",
      [ Resource.mk "Notion" "tool" "All-in-one workspace";
        Resource.mk "Todoist" "tool" "Task management";
        Resource.mk "Getting Things Done" "book" "Productivity methodology" ]);
    ("time_management",
      [ Resource.mk "RescueTime" "tool" "Time tracking";
        Resource.mk "Forest" "app" "Focus timer with gamification";
        Resource.mk "Pomodoro Timer" "technique"
          "25-minute focused work sessions" ]);
    ("automation",
      [ Resource.mk "Zapier" "tool" "Workflow automation";
        Resource.mk "IFTTT" "tool" "Simple automation";
        Resource.mk "Python scripts" "skill" "Custom automation solutions" ]);
    ("learning",
      [ Resource.mk "Coursera" "platform" "Online courses";
        Resource.mk "YouTube" "platform" "Free tutorials";
        Resource.mk "Stack Overflow" "community" "Programming Q&A" ]);
    ("writing",
      [ Resource.mk "Grammarly" "tool" "Writing assistant";
        Resource.mk "Hemingway Editor" "tool" "Writing clarity tool";
        Resource.mk "Notion" "tool" "Document creation and organization" ]);
    ("project",
      [ Resource.mk "Trello" "tool" "Project management boards";
        Resource.mk "Asana" "tool" "Team project management";
        Resource.mk "Monday.com" "tool" "Work management platform" ]);
    ("deadline",
      [ Resource.mk "Calendar blocking" "technique"
          "Block time for important deadlines";
        Resource.mk "Todoist" "tool" "Deadline tracking and reminders";
        Resource.mk "TimeTree" "app" "Shared calendar for deadlines" ]);
    ("email",
      [ Resource.mk "Boomerang" "tool" "Email scheduling and reminders";
        Resource.mk "Mixmax" "tool" "Email productivity suite";
        Resource.mk "Gmail filters" "technique"
          "Automatic email organization" ]);
    ("communication",
      [ Resource.mk "Slack" "tool" "Team communication";
        Resource.mk "Microsoft Teams" "tool" "Video conferencing and chat";
        Resource.mk "Loom" "tool" "Video messaging" ]);
    ("meeting",
      [ Resource.mk "Calendly" "tool" "Meeting scheduling";
        Resource.mk "Zoom" "tool" "Video conferencing";
        Resource.mk "Otter.ai" "tool" "Meeting transcription" ]);
    ("preparation",
      [ Resource.mk "MindMeister" "tool" "Mind mapping for preparation";
        Resource.mk "Miro" "tool" "Collaborative whiteboard";
        Resource.mk "OneNote" "tool" "Note organization" ]) ].

Definition _initialize_resources : gmap string (list Resource.t) :=
  list_to_map resource_table.

(** [tool_effectiveness] is created empty and never used. *)
Record ResourceRecommendationAgent := mk_ResourceRecommendationAgent {
  skill_interests : gmap string Z;
  resource_database : gmap string (list Resource.t)
}.

Definition ResourceRecommendationAgent_init : ResourceRecommendationAgent :=
  {| skill_interests := ∅;
     resource_database := _initialize_resources |}.

Definition track_skill_interest
    (self : ResourceRecommendationAgent) (skill : string)
    : ResourceRecommendationAgent :=
  {| skill_interests :=
       <[skill := default 0 (skill_interests self !! skill) + 1]>
         (skill_interests self);
     resource_database := resource_database self |}.

(** One iteration of the loops over tags and skills. *)
Definition extend_recommendations
    (database : gmap string (list Resource.t))
    (recommendations : list Resource.t) (tag : string) : list Resource.t :=
  match database !! lower tag with
  | Some resources => recommendations ++ resources
  | None => recommendations
  end.

(** The loop that removes duplicates and stops at five. *)
Fixpoint unique_loop
    (recommendations : list Resource.t) (seen : gset string)
    (unique_recommendations : list Resource.t) : list Resource.t :=
  match recommendations with
  | [] => unique_recommendations
  | rec :: rest =>
      if bool_decide (Resource.name rec ∈ seen)
      then unique_loop rest seen unique_recommendations
      else
        let seen := {[Resource.name rec]} ∪ seen in
        let unique_recommendations := unique_recommendations ++ [rec] in
        if (5 <=? length unique_recommendations)%nat
        then unique_recommendations
        else unique_loop rest seen unique_recommendations
  end.

Definition get_recommendations
    (self : ResourceRecommendationAgent) (task_tags : list string)
    (skill_goals : option (list string)) : result (list Resource.t) :=
  let database := resource_database self in
  (* Recommend based on task tags *)
  let recommendations :=
    fold_left (extend_recommendations database) task_tags [] in
  (* Recommend based on skill goals *)
  let recommendations :=
    fold_left (extend_recommendations database) (default [] skill_goals)
      recommendations in
  (* If no specific recommendations found, provide general productivity tools *)
  recommendations ←
    match recommendations with
    | [] =>
        match database !! "productivity" with
        | Some resources => Ok resources
        | None => Raise KeyError
        end
    | _ :: _ => Ok recommendations
    end;
  (* Remove duplicates and limit to top 5 *)
  Ok (unique_loop recommendations ∅ []).



(* ===================================================================== *)
(** ** Readings of the agents' state *)
(* ===================================================================== *)

(** The points a deadline [elapsed] microseconds ahead contributes. *)
Definition points_by_elapsed (elapsed : Z) : Z :=
  if elapsed <? 1 * us_per_day then 40
  else if elapsed <? 2 * us_per_day then 35
  else if elapsed <? 4 * us_per_day then 25
  else if elapsed <? 8 * us_per_day then 15
  else 5.

(** The sessions of [sessions] started in [hour], in their order. *)
Definition sessions_at (hour' : Z) (sessions : list ProductivitySession)
    : list ProductivitySession :=
  List.filter (fun s => hour (start_time s) =? hour') sessions.

(** Those of them that count as distracted. *)
Definition distracted_at (hour' : Z) (sessions : list ProductivitySession)
    : list ProductivitySession :=
  List.filter (fun s => 3 <? distractions_count s) (sessions_at hour' sessions).

(** The pattern [analyze_task_patterns] files a task under. *)
Definition pattern_of (task : Task) : string :=
  _extract_pattern_key (title task).

(** The tasks of [tasks] whose title has the pattern [key], in order. *)
Definition tasks_of_pattern (key : string) (tasks : list Task) : list Task :=
  List.filter (fun task => String.eqb (pattern_of task) key) tasks.

(** [patterns.get(key)] on the ordered dictionary. *)
Fixpoint patterns_get (key : string) (patterns : list (string * list Task))
    : option (list Task) :=
  match patterns with
  | [] => None
  | (k, l) :: rest => if String.eqb k key then Some l else patterns_get key rest
  end.

(** The loop of [analyze_task_patterns] from the dictionary [patterns]. *)
Definition group_tasks (tasks : list Task) (patterns : list (string * list Task))
    : list (string * list Task) :=
  fold_left
    (fun patterns task =>
       patterns_append (_extract_pattern_key (title task)) task patterns)
    tasks patterns.

(** The patterns for which [generate_automation_suggestions] has a
    branch. *)
Definition suggested_patterns : list string :=
  [ "email_tasks"; "meeting_tasks"; "report_tasks"; "project_tasks";
    "preparation_tasks" ]%string.

(** The identifiers ["task_<i>"] for [count] numbers from [first] on. *)
Definition task_ids (first count : nat) : list string :=
  List.map (fun i => "task_" +:+ str_nat i) (seq first count).

(** The task [add_task] returns for the fields [t]. *)
Definition added_task (self : ProductivityOptimizer) (t : NewTask) : Task :=
  snd (add_task self (new_title t) (new_description t) (new_priority t)
         (new_deadline t) (new_estimated_hours t)
         (new_energy_level_required t) (new_tags t) (new_now t)).


(** The three resources filed under ["productivity"]. *)
Definition productivity_resources : list Resource.t :=
  [ Resource.mk "Notion" "tool" "All-in-one workspace";
    Resource.mk "Todoist" "tool" "Task management";
    Resource.mk "Getting Things Done" "book" "Productivity methodology" ].

(* ===================================================================== *)
(** ** More sample data *)
(* ===================================================================== *)

Module Demo.

Definition groceries : Task :=
  {| id := "task_1";
     title := "Buy groceries";
     description := "Vegetables and bread";
     priority := LOW;
     deadline := None;
     estimated_hours := FFinite 1;
     energy_level_required := 2;
     tags := ["home"]%string;
     status := PENDING;
     created_at := Sample.now;
     completed_at := None;
     actual_hours := None |}.

Definition bank : Task :=
  {| id := "task_2";
     title := "Call the bank";
     description := "Ask about the new card";
     priority := MEDIUM;
     deadline := None;
     estimated_hours := FFinite 1;
     energy_level_required := 4;
     tags := ["Email"; "unknown"]%string;
     status := PENDING;
     created_at := Sample.now;
     completed_at := None;
     actual_hours := None |}.

Definition overdue : Task :=
  {| id := "task_3";
     title := "Send the quarterly report";
     description := "Figures for the last quarter";
     priority := URGENT;
     deadline := Some (Sample.at_day 10);
     estimated_hours := FFinite 2;
     energy_level_required := 6;
     tags := []%string;
     status := PENDING;
     created_at := Sample.at_day 1;
     completed_at := None;
     actual_hours := None |}.

(** The first two tasks of the example run of the program. *)
Definition new_proposal : NewTask :=
  {| new_title := "Complete project proposal";
     new_description := "Write and review the Q2 project proposal";
     new_priority := HIGH;
     new_deadline := Some (Sample.at_day 17);
     new_estimated_hours := FFinite 4;
     new_energy_level_required := 8;
     new_tags := Some ["writing"; "project"; "deadline"]%string;
     new_now := Sample.now |}.

Definition new_inbox : NewTask :=
  {| new_title := "Review email inbox";
     new_description := "Go through and respond to emails";
     new_priority := MEDIUM;
     new_deadline := None;
     new_estimated_hours := FFinite (1 # 2);
     new_energy_level_required := 3;
     new_tags := Some ["email"; "communication"]%string;
     new_now := Sample.now |}.

(** A snapshot that holds the enum members by value. *)
Definition snapshot : gmap string (result json) :=
  {[ "user_data/user123.json"%string :=
       Ok (JObject [ ("tasks", JArray [Sample.inbox_by_value]);
                     ("current_energy", JInt 4) ]) ]}.

(** Sessions that all start at night. *)
Definition night : list ProductivitySession :=
  [Sample.session 22 9 0; Sample.session 23 8 1; Sample.session 2 3 6].

(** Four distracted sessions at 14 o'clock and a calm one at 9. *)
Definition distracted_afternoon : list ProductivitySession :=
  [Sample.session 14 6 5; Sample.session 9 8 1; Sample.session 14 5 4;
   Sample.session 14 4 7; Sample.session 14 6 5].

End Demo.

(* ===================================================================== *)
(** * Properties *)
(* ===================================================================== *)

(** ** Task scorer *)

Lemma calculate_task_score_bands task current_energy current_time :
  calculate_task_score task current_energy current_time
  = deadline_band task current_time + priority_band task
    + energy_band task current_energy + effort_band task current_time.
Proof.
  unfold calculate_task_score, deadline_band, deadline_points, days_until,
    priority_band, energy_band, effort_band.
  destruct (deadline task) as [d|];
    repeat match goal with |- context [if ?b then _ else _] => destruct b end;
    lia.
Qed.

Lemma deadline_points_range n : 5 <= deadline_points n <= 40.
Proof.
  unfold deadline_points.
  repeat match goal with |- context [if ?b then _ else _] => destruct b end;
    lia.
Qed.

(** Fewer days left never lowers the urgency points. *)
Lemma deadline_points_antitone n m :
  n <= m -> deadline_points m <= deadline_points n.
Proof.
  intros Hnm. unfold deadline_points.
  repeat match goal with
         | |- context [?a <=? ?b] => destruct (Z.leb_spec a b)
         end; lia.
Qed.

Lemma deadline_band_range task current_time :
  0 <= deadline_band task current_time <= 40.
Proof.
  unfold deadline_band. destruct (deadline task).
  - pose proof (deadline_points_range (days_until d current_time)). lia.
  - lia.
Qed.

Lemma priority_band_range task : 5 <= priority_band task <= 25.
Proof. unfold priority_band. destruct (priority task); simpl; lia. Qed.

Lemma energy_band_range task current_energy :
  0 <= energy_band task current_energy <= 20.
Proof. unfold energy_band. lia. Qed.

Lemma effort_band_range task current_time :
  0 <= effort_band task current_time <= 15.
Proof.
  unfold effort_band.
  repeat match goal with |- context [if ?b then _ else _] => destruct b end;
    lia.
Qed.

(** C2: a task due exactly one day after [now], of priority HIGH, needing
    energy 8 and an estimated 4 hours, scored with current energy 7 at a
    time whose hour is 10, gets 35 + 20 + 18 + 10 = 83. *)
Theorem score_example_83 (task : Task) (now d : datetime) (h : Q) :
  status task = PENDING ->
  deadline task = Some d ->
  datetime_sub d now = timedelta_new 1 0 0 ->
  priority task = HIGH ->
  energy_level_required task = 8 ->
  estimated_hours task = FFinite h ->
  (h == 4)%Q ->
  hour now = 10 ->
  deadline_band task now = 35
  /\ priority_band task = 20
  /\ energy_band task 7 = 18
  /\ effort_band task now = 10
  /\ calculate_task_score task 7 now = 83.
Proof.
  intros _ Hd Hsub Hp He Hh Hq Hhour.
  assert (B1 : deadline_band task now = 35).
  { unfold deadline_band, days_until. rewrite Hd, Hsub. reflexivity. }
  assert (B2 : priority_band task = 20).
  { unfold priority_band. rewrite Hp. reflexivity. }
  assert (B3 : energy_band task 7 = 18).
  { unfold energy_band. rewrite He. reflexivity. }
  assert (B4 : effort_band task now = 10).
  { unfold effort_band, float_le_int. rewrite Hhour, Hh.
    rewrite (Qleb_comp _ _ Hq (inject_Z 2) _ (Qeq_refl _)).
    rewrite (Qleb_comp _ _ Hq (inject_Z 4) _ (Qeq_refl _)). reflexivity. }
  rewrite calculate_task_score_bands, B1, B2, B3, B4. repeat split.
Qed.

Lemma score_example_83_witness :
  calculate_task_score (Sample.proposal (Some (Sample.at_day 16))) 7 Sample.now
  = 83.
Proof.
  apply (score_example_83 (Sample.proposal (Some (Sample.at_day 16)))
           Sample.now (Sample.at_day 16) 4%Q); reflexivity.
Defined.

(** C9: each band of the score is non-negative, the bands are at most 40,
    25, 20 and 15, and the score, their sum, lies between 0 and 100. *)
Theorem score_range (task : Task) (current_energy : Z) (current_time : datetime) :
  0 <= deadline_band task current_time <= 40
  /\ 0 <= priority_band task <= 25
  /\ 0 <= energy_band task current_energy <= 20
  /\ 0 <= effort_band task current_time <= 15
  /\ calculate_task_score task current_energy current_time
     = deadline_band task current_time + priority_band task
       + energy_band task current_energy + effort_band task current_time
  /\ 0 <= calculate_task_score task current_energy current_time <= 100.
Proof.
  pose proof (deadline_band_range task current_time).
  pose proof (priority_band_range task).
  pose proof (energy_band_range task current_energy).
  pose proof (effort_band_range task current_time).
  pose proof (calculate_task_score_bands task current_energy current_time).
  repeat split; lia.
Qed.

(** C7: with the priority, the required energy, the estimated hours, the
    current energy and the hour of day fixed and a deadline present, a
    deadline fewer whole days away never scores lower. *)
Theorem score_monotone_in_days
    (task1 task2 : Task) (d1 d2 now1 now2 : datetime) (current_energy : Z) :
  deadline task1 = Some d1 ->
  deadline task2 = Some d2 ->
  priority task1 = priority task2 ->
  energy_level_required task1 = energy_level_required task2 ->
  estimated_hours task1 = estimated_hours task2 ->
  hour now1 = hour now2 ->
  days_until d1 now1 <= days_until d2 now2 ->
  calculate_task_score task2 current_energy now2
  <= calculate_task_score task1 current_energy now1.
Proof.
  intros H1 H2 Hp He Hh Hhour Hdays.
  rewrite !calculate_task_score_bands.
  unfold deadline_band, priority_band, energy_band, effort_band.
  rewrite H1, H2, Hp, He, Hh, Hhour.
  pose proof (deadline_points_antitone _ _ Hdays). lia.
Qed.

Lemma score_monotone_in_days_witness :
  calculate_task_score (Sample.proposal (Some (Sample.at_day 20))) 7 Sample.now
  <= calculate_task_score (Sample.proposal (Some (Sample.at_day 16))) 7 Sample.now.
Proof.
  apply (score_monotone_in_days
           (Sample.proposal (Some (Sample.at_day 16)))
           (Sample.proposal (Some (Sample.at_day 20)))
           (Sample.at_day 16) (Sample.at_day 20) Sample.now Sample.now 7);
    try reflexivity.
  vm_compute. discriminate.
Defined.

(** ** The stable descending sort *)

Section SortReverse.
Context {A : Type}.
Variable key : A -> Z.

Lemma insert_reverse_perm x l : Permutation (insert_reverse key x l) (x :: l).
Proof.
  induction l as [|y l IH]; simpl.
  - reflexivity.
  - destruct (key x <? key y).
    + rewrite IH. apply perm_swap.
    + reflexivity.
Qed.

Lemma sort_reverse_perm l : Permutation (sort_reverse key l) l.
Proof.
  induction l as [|x l IH]; simpl.
  - reflexivity.
  - rewrite insert_reverse_perm. now constructor.
Qed.

Lemma insert_reverse_descending x l :
  descending key l -> descending key (insert_reverse key x l).
Proof.
  unfold descending. induction 1 as [|y l Hl IH Hy]; simpl.
  - repeat constructor.
  - destruct (Z.ltb_spec (key x) (key y)) as [Hlt|Hge].
    + constructor; [exact IH|].
      rewrite insert_reverse_perm. constructor; [lia | exact Hy].
    + constructor; [now constructor|].
      constructor; [lia|].
      eapply List.Forall_impl; [|exact Hy]. simpl. intros; lia.
Qed.

Lemma sort_reverse_descending l : descending key (sort_reverse key l).
Proof.
  induction l as [|x l IH]; simpl.
  - constructor.
  - now apply insert_reverse_descending.
Qed.

(** Insertion never moves an element past one of the same key. *)
Lemma insert_reverse_with_key k x l :
  with_key key k (insert_reverse key x l) = with_key key k (x :: l).
Proof.
  unfold with_key. induction l as [|y l IH]; simpl; [reflexivity|].
  destruct (Z.ltb_spec (key x) (key y)) as [Hlt|Hge]; [|reflexivity].
  simpl. rewrite IH. simpl.
  destruct (Z.eqb_spec (key x) k), (Z.eqb_spec (key y) k);
    try reflexivity; lia.
Qed.

Lemma sort_reverse_with_key k l :
  with_key key k (sort_reverse key l) = with_key key k l.
Proof.
  induction l as [|x l IH]; simpl; [reflexivity|].
  rewrite insert_reverse_with_key. unfold with_key in *. simpl.
  now rewrite IH.
Qed.

Lemma with_key_head x l :
  with_key key (key x) (x :: l) = x :: with_key key (key x) l.
Proof. unfold with_key. simpl. now rewrite Z.eqb_refl. Qed.

Lemma with_key_In k a l : In a (with_key key k l) -> In a l /\ key a = k.
Proof.
  unfold with_key. rewrite filter_In. intros [Hin Hk].
  split; [exact Hin | now apply Z.eqb_eq].
Qed.

(** The head of a descending list has the largest key. *)
Lemma descending_head_max x l a :
  descending key (x :: l) -> In a (x :: l) -> key a <= key x.
Proof.
  intros Hs Hin. apply StronglySorted_inv in Hs as [_ Hall].
  destruct Hin as [<-|Hin]; [lia|].
  rewrite List.Forall_forall in Hall. now apply Hall.
Qed.

Lemma descending_heads x l y l' :
  descending key (x :: l) -> descending key (y :: l') ->
  (forall k, with_key key k (x :: l) = with_key key k (y :: l')) ->
  key x <= key y.
Proof.
  intros _ Hs Heq.
  assert (Hin : In x (with_key key (key x) (y :: l'))).
  { rewrite <- Heq, with_key_head. now left. }
  apply with_key_In in Hin as [Hin _].
  exact (descending_head_max _ _ _ Hs Hin).
Qed.

(** Two descending lists with the same elements of each key, in the same
    order, are equal: a stable sort has one possible result. *)
Lemma stable_sort_unique l1 l2 :
  descending key l1 -> descending key l2 ->
  (forall k, with_key key k l1 = with_key key k l2) ->
  l1 = l2.
Proof.
  revert l2. induction l1 as [|x l1 IH]; intros [|y l2] H1 H2 Heq.
  - reflexivity.
  - specialize (Heq (key y)). rewrite with_key_head in Heq. discriminate.
  - specialize (Heq (key x)). rewrite with_key_head in Heq. discriminate.
  - assert (Hk : key x = key y).
    { pose proof (descending_heads _ _ _ _ H1 H2 Heq).
      pose proof (descending_heads _ _ _ _ H2 H1 (fun k => eq_sym (Heq k))).
      lia. }
    assert (Hxy : x = y).
    { pose proof (Heq (key x)) as E. rewrite with_key_head in E.
      rewrite Hk, with_key_head in E. congruence. }
    subst y. f_equal. apply IH.
    + now apply StronglySorted_inv in H1.
    + now apply StronglySorted_inv in H2.
    + intros k. specialize (Heq k). unfold with_key in *. simpl in Heq.
      destruct (key x =? k); congruence.
Qed.

(** Whatever stable descending sort Python runs, it returns what
    [sort_reverse] returns. *)
Lemma sort_reverse_unique l r :
  descending key r -> (forall k, with_key key k r = with_key key k l) ->
  r = sort_reverse key l.
Proof.
  intros Hr Hk. apply stable_sort_unique.
  - exact Hr.
  - apply sort_reverse_descending.
  - intros k. now rewrite sort_reverse_with_key.
Qed.

End SortReverse.

(** Sorting the (task, score) pairs on the score and dropping the scores is
    sorting the tasks on their score. *)
Lemma sort_reverse_decorated {A : Type} (f : A -> Z) (l : list A) :
  List.map fst (sort_reverse snd (List.map (fun a => (a, f a)) l))
  = sort_reverse f l.
Proof.
  assert (Hins : forall x l',
    insert_reverse snd (x, f x) (List.map (fun a => (a, f a)) l')
    = List.map (fun a => (a, f a)) (insert_reverse f x l')).
  { intros x l'. induction l' as [|y l' IH]; simpl; [reflexivity|].
    destruct (f x <? f y); simpl; [now rewrite IH | reflexivity]. }
  assert (Hsort : sort_reverse snd (List.map (fun a => (a, f a)) l)
                  = List.map (fun a => (a, f a)) (sort_reverse f l)).
  { unfold sort_reverse. induction l as [|x l IH]; simpl; [reflexivity|].
    now rewrite IH, Hins. }
  rewrite Hsort, List.map_map. simpl. apply List.map_id.
Qed.

Lemma prioritize_tasks_sort tasks current_energy current_time :
  prioritize_tasks tasks current_energy current_time
  = sort_reverse
      (fun task => calculate_task_score task current_energy current_time)
      (List.filter is_pending tasks).
Proof. unfold prioritize_tasks. apply sort_reverse_decorated. Qed.

Lemma is_pending_spec task : is_pending task = true <-> status task = PENDING.
Proof. unfold is_pending. destruct (status task); simpl; split; congruence. Qed.

(** C3: [prioritize_tasks] returns exactly the tasks whose status is
    PENDING (each as often as the input holds it), ordered by descending
    score, and the tasks of one same score come out in the order they have
    in the input. *)
Theorem prioritize_tasks_stable_sort
    (tasks : list Task) (current_energy : Z) (current_time : datetime) :
  let score task := calculate_task_score task current_energy current_time in
  let ranked := prioritize_tasks tasks current_energy current_time in
  Permutation ranked (List.filter is_pending tasks)
  /\ (forall task, In task ranked <-> In task tasks /\ status task = PENDING)
  /\ StronglySorted (fun a b => score b <= score a) ranked
  /\ (forall s,
        List.filter (fun task => score task =? s) ranked
        = List.filter (fun task => score task =? s)
            (List.filter is_pending tasks)).
Proof.
  intros score ranked. subst ranked. rewrite prioritize_tasks_sort.
  fold score. split; [|split; [|split]].
  - apply sort_reverse_perm.
  - intros task. rewrite <- is_pending_spec, <- filter_In. split; intros Hin.
    + exact (Permutation_in _ (sort_reverse_perm score _) Hin).
    + exact (Permutation_in _ (Permutation_sym (sort_reverse_perm score _)) Hin).
  - apply sort_reverse_descending.
  - intros s. apply sort_reverse_with_key.
Qed.

(** Two tasks of one score keep their order and a completed task is left
    out: at energy 10 and 20 o'clock the proposal (20 + 16) and the same
    proposal under another id tie, the inbox (10 + 6) comes last. *)
Example prioritize_tasks_ties :
  List.map id
    (prioritize_tasks
       [Sample.inbox; Sample.proposal None; Sample.finished;
        Sample.proposal_again]
       10 (Sample.at_hour 20))
  = ["task_1"; "task_4"; "task_2"]%string.
Proof. vm_compute. reflexivity. Qed.

(** ** Focus estimator: breaks *)

Lemma trigger_count_init h : trigger_count FocusDistractionsAgent_init h = 0.
Proof. reflexivity. Qed.

(** [log_session] adds one to the counter of the session's start hour when
    the session has more than 3 distractions, and changes no other
    counter. *)
Lemma trigger_count_log_session self session h :
  trigger_count (log_session self session) h
  = trigger_count self h
    + (if (3 <? distractions_count session)
          && (h =? hour (start_time session))
       then 1 else 0).
Proof.
  unfold trigger_count, log_session. simpl.
  destruct (3 <? distractions_count session); simpl; [|lia].
  destruct (Z.eqb_spec h (hour (start_time session))) as [->|Hne].
  - now rewrite lookup_insert_eq.
  - rewrite lookup_insert_ne by congruence. lia.
Qed.

Lemma trigger_count_log_session_le self session h :
  trigger_count self h <= trigger_count (log_session self session) h.
Proof.
  rewrite trigger_count_log_session.
  destruct (_ && _); lia.
Qed.

Lemma trigger_count_fold_le sessions self h :
  trigger_count self h <= trigger_count (fold_left log_session sessions self) h.
Proof.
  revert self. induction sessions as [|s l IH]; intros self; simpl.
  - lia.
  - pose proof (trigger_count_log_session_le self s h).
    specialize (IH (log_session self s)). lia.
Qed.

Lemma suggest_break_time_spec self current_time :
  suggest_break_time self current_time = true
  <-> 3 < trigger_count self (hour current_time).
Proof.
  unfold suggest_break_time, trigger_count.
  destruct (Z.ltb_spec 3 (default 0 (distraction_triggers self !! hour current_time)));
    split; intros; try lia; congruence.
Qed.

(** C6: [suggest_break_time] answers true exactly when the trigger count
    of the current hour exceeds 3; [log_session] raises that count by one
    exactly for a session with more than 3 distractions started in that
    hour; so once four sessions with 5 distractions started at hour 14 are
    logged, whatever came before and whatever follows, the answer at hour
    14 is true. *)
Theorem break_after_four_sessions
    (earlier later : list ProductivitySession)
    (s1 s2 s3 s4 : ProductivitySession) (current_time : datetime) :
  Forall (fun s => hour (start_time s) = 14 /\ distractions_count s = 5)
         [s1; s2; s3; s4] ->
  hour current_time = 14 ->
  (forall self t,
      suggest_break_time self t = true <-> 3 < trigger_count self (hour t))
  /\ (forall self session h,
        trigger_count (log_session self session) h
        = trigger_count self h
          + (if (3 <? distractions_count session)
                && (h =? hour (start_time session))
             then 1 else 0))
  /\ suggest_break_time
       (log_sessions (earlier ++ [s1; s2; s3; s4] ++ later)) current_time
     = true.
Proof.
  intros Hfour Hnow.
  split; [exact suggest_break_time_spec|].
  split; [exact trigger_count_log_session|].
  apply suggest_break_time_spec. rewrite Hnow.
  unfold log_sessions. rewrite !fold_left_app.
  set (before := fold_left log_session earlier FocusDistractionsAgent_init).
  assert (H0 : 0 <= trigger_count before 14).
  { subst before. rewrite <- (trigger_count_init 14).
    apply trigger_count_fold_le. }
  eapply Z.lt_le_trans; [|apply trigger_count_fold_le].
  simpl. rewrite !trigger_count_log_session.
  repeat match goal with
         | H : Forall _ (_ :: _) |- _ =>
             apply Forall_cons_1 in H as [[-> ->] H]
         end.
  simpl. lia.
Qed.

Lemma break_after_four_sessions_witness :
  suggest_break_time
    (log_sessions
       ([Sample.session 9 8 1]
        ++ [Sample.session 14 6 5; Sample.session 14 5 5;
            Sample.session 14 4 5; Sample.session 14 6 5]
        ++ [Sample.session 14 7 0]))
    (Sample.at_hour 14)
  = true.
Proof.
  apply (break_after_four_sessions
           [Sample.session 9 8 1] [Sample.session 14 7 0]
           (Sample.session 14 6 5) (Sample.session 14 5 5)
           (Sample.session 14 4 5) (Sample.session 14 6 5)
           (Sample.at_hour 14)).
  - repeat constructor.
  - reflexivity.
Defined.

(** ** Focus estimator: the optimal window *)

(** C5: with no session logged, [get_optimal_focus_time] returns exactly
    (9, 11). *)
Theorem optimal_focus_time_default (self : FocusDistractionsAgent) :
  focus_patterns self = ∅ ->
  get_optimal_focus_time self = Ok (9, 11).
Proof.
  intros Hempty. unfold get_optimal_focus_time.
  now rewrite Hempty, map_to_list_empty.
Qed.

Lemma optimal_focus_time_default_witness :
  get_optimal_focus_time (log_sessions []) = Ok (9, 11).
Proof. apply (optimal_focus_time_default (log_sessions [])). reflexivity. Defined.

(** ** Binary64 arithmetic: digits, shifts and rounding *)

Lemma fexp_eq e : fexp mant_dig max_exp e = Z.max (e - 53) (-1074).
Proof. reflexivity. Qed.

Lemma digits2_pos_size p : digits2_pos p = Pos.size p.
Proof. induction p; simpl; congruence. Qed.

Lemma Zdigits2_log2 m : 0 < m -> Zdigits2 m = Z.log2 m + 1.
Proof.
  destruct m as [|p|p]; try lia. intros _.
  destruct p; simpl; rewrite ?digits2_pos_size; lia.
Qed.

Lemma Zdigits2_nonneg m : 0 <= Zdigits2 m.
Proof. destruct m; simpl; lia. Qed.

Lemma Zdigits2_pos m : 0 < m -> 0 < Zdigits2 m.
Proof. destruct m; simpl; lia. Qed.

Lemma Zdigits2_le m n : 0 <= m <= n -> Zdigits2 m <= Zdigits2 n.
Proof.
  intros H. destruct (Z.eq_dec m 0) as [->|Hm].
  - apply Zdigits2_nonneg.
  - rewrite !Zdigits2_log2 by lia.
    pose proof (Z.log2_le_mono m n). lia.
Qed.

(** [2 ^ (d - 1) <= m < 2 ^ d] for the number [d] of digits of [m]. *)
Lemma Zdigits2_spec m :
  0 < m -> 2 ^ (Zdigits2 m - 1) <= m < 2 ^ Zdigits2 m.
Proof.
  intros H. rewrite Zdigits2_log2 by exact H.
  replace (Z.log2 m + 1 - 1) with (Z.log2 m) by lia.
  apply Z.log2_spec, H.
Qed.

Lemma Zdigits2_lower m d : 0 <= d -> 2 ^ d <= m -> d + 1 <= Zdigits2 m.
Proof.
  intros Hd H.
  assert (0 < m) by (pose proof (Z.pow_pos_nonneg 2 d); lia).
  rewrite Zdigits2_log2 by assumption.
  pose proof (Z.log2_le_pow2 m d). lia.
Qed.

Lemma Zdigits2_upper m d : 0 <= d -> 0 <= m < 2 ^ d -> Zdigits2 m <= d.
Proof.
  intros Hd H. destruct (Z.eq_dec m 0) as [->|Hm]; [simpl; lia|].
  rewrite Zdigits2_log2 by lia.
  pose proof (Z.log2_lt_pow2 m d). lia.
Qed.

Lemma Zdigits2_succ m : 0 <= m -> Zdigits2 (m + 1) <= Zdigits2 m + 1.
Proof.
  intros H. destruct (Z.eq_dec m 0) as [->|Hm]; [simpl; lia|].
  pose proof (Zdigits2_spec m ltac:(lia)) as [_ Hlt].
  pose proof (Zdigits2_pos m ltac:(lia)).
  apply Zdigits2_upper; [lia|].
  rewrite Z.pow_add_r, Z.pow_1_r by lia. lia.
Qed.

Lemma Zdigits2_shiftr m n :
  0 < m -> 0 <= n -> n < Zdigits2 m ->
  0 < Z.shiftr m n /\ Zdigits2 (Z.shiftr m n) = Zdigits2 m - n.
Proof.
  intros Hm Hn Hlt. rewrite Zdigits2_log2 in Hlt by exact Hm.
  assert (0 < Z.shiftr m n).
  { rewrite Z.shiftr_div_pow2 by exact Hn.
    apply Z.div_str_pos. split; [apply Z.pow_pos_nonneg; lia|].
    apply Z.log2_le_pow2; lia. }
  split; [assumption|].
  rewrite !Zdigits2_log2 by assumption.
  rewrite Z.log2_shiftr by exact Hm. lia.
Qed.

Lemma Zdigits2_shiftr_small m n :
  0 <= m -> 0 <= n -> Zdigits2 m <= n -> Z.shiftr m n = 0.
Proof.
  intros Hm Hn Hle. destruct (Z.eq_dec m 0) as [->|]; [apply Z.shiftr_0_l|].
  apply Z.shiftr_eq_0; [lia|].
  rewrite Zdigits2_log2 in Hle by lia. lia.
Qed.

Lemma Zdigits2_shiftl m n :
  0 < m -> 0 <= n -> Zdigits2 (Z.shiftl m n) = Zdigits2 m + n.
Proof.
  intros Hm Hn.
  assert (0 < Z.shiftl m n).
  { rewrite Z.shiftl_mul_pow2 by exact Hn.
    pose proof (Z.pow_pos_nonneg 2 n). nia. }
  rewrite !Zdigits2_log2 by assumption.
  rewrite Z.log2_shiftl by assumption. lia.
Qed.

(** ** Shifting the mantissa right *)

Lemma shr_1_m mrs : 0 <= shr_m mrs -> shr_m (shr_1 mrs) = Z.shiftr (shr_m mrs) 1.
Proof.
  destruct mrs as [m r s]. simpl. intros H.
  rewrite <- Z.div2_spec.
  destruct m as [|[p|p|]|p]; try reflexivity; lia.
Qed.

Lemma iter_pos_shr_1_m p mrs :
  0 <= shr_m mrs ->
  shr_m (SpecFloat.iter_pos shr_1 p mrs) = Z.shiftr (shr_m mrs) (Z.pos p).
Proof.
  revert mrs. induction p as [p IH|p IH|]; intros mrs H; simpl.
  - assert (H1 : 0 <= shr_m (shr_1 mrs)).
    { rewrite shr_1_m by exact H. now apply Z.shiftr_nonneg. }
    assert (H2 : 0 <= shr_m (SpecFloat.iter_pos shr_1 p (shr_1 mrs))).
    { rewrite IH by exact H1. now apply Z.shiftr_nonneg. }
    rewrite IH, IH, shr_1_m, !Z.shiftr_shiftr by (assumption || lia).
    f_equal. lia.
  - assert (H2 : 0 <= shr_m (SpecFloat.iter_pos shr_1 p mrs)).
    { rewrite IH by exact H. now apply Z.shiftr_nonneg. }
    rewrite IH, IH, !Z.shiftr_shiftr by (assumption || lia).
    f_equal. lia.
  - now apply shr_1_m.
Qed.

Lemma shr_record_of_loc_m m l : shr_m (shr_record_of_loc m l) = m.
Proof. now destruct l as [|[| |]]. Qed.

Lemma shr_spec mrs e n :
  0 <= shr_m mrs ->
  shr_m (fst (shr mrs e n)) = Z.shiftr (shr_m mrs) (Z.max 0 n)
  /\ snd (shr mrs e n) = e + Z.max 0 n.
Proof.
  intros H. destruct n as [|p|p]; simpl.
  - split; [reflexivity | lia].
  - split; [now apply iter_pos_shr_1_m | reflexivity].
  - split; [reflexivity | lia].
Qed.

Lemma round_nearest_even_range m l :
  m <= round_nearest_even m l <= m + 1.
Proof.
  destruct l as [|[| |]]; simpl; try lia.
  destruct (Z.even m); lia.
Qed.

(** ** The shape of a rounded result *)

(** [binary_round_aux] shifts the mantissa to the exponent of its
    magnitude, rounds it up or down, and shifts once more in case the
    rounding has added a digit. *)
Lemma binary_round_aux_spec sx mx ex lx :
  0 <= mx ->
  exists r,
    let n1 := Z.max 0 (fexp mant_dig max_exp (Zdigits2 mx + ex) - ex) in
    let e1 := ex + n1 in
    let n2 := Z.max 0 (fexp mant_dig max_exp (Zdigits2 r + e1) - e1) in
    Z.shiftr mx n1 <= r <= Z.shiftr mx n1 + 1
    /\ 0 <= Z.shiftr r n2
    /\ binary_round_aux mant_dig max_exp sx mx ex lx
       = match Z.shiftr r n2 with
         | 0 => S754_zero sx
         | Z.pos m =>
             if e1 + n2 <=? max_exp - mant_dig then S754_finite sx m (e1 + n2)
             else S754_infinity sx
         | Z.neg _ => S754_nan
         end.
Proof.
  intros Hmx. unfold binary_round_aux, shr_fexp.
  set (n1 := fexp mant_dig max_exp (Zdigits2 mx + ex) - ex).
  destruct (shr_spec (shr_record_of_loc mx lx) ex n1) as [Hm1 He1].
  { now rewrite shr_record_of_loc_m. }
  rewrite shr_record_of_loc_m in Hm1.
  destruct (shr (shr_record_of_loc mx lx) ex n1) as [mrs' e'].
  simpl in Hm1, He1. subst e'.
  set (r := round_nearest_even (shr_m mrs') (loc_of_shr_record mrs')).
  pose proof (round_nearest_even_range (shr_m mrs') (loc_of_shr_record mrs')) as Hr.
  fold r in Hr. rewrite Hm1 in Hr.
  assert (H0 : 0 <= Z.shiftr mx (Z.max 0 n1)) by now apply Z.shiftr_nonneg.
  set (n2 := fexp mant_dig max_exp (Zdigits2 r + (ex + Z.max 0 n1)) - (ex + Z.max 0 n1)).
  destruct (shr_spec (shr_record_of_loc r loc_Exact) (ex + Z.max 0 n1) n2) as [Hm2 He2].
  { simpl. lia. }
  destruct (shr (shr_record_of_loc r loc_Exact) (ex + Z.max 0 n1) n2) as [mrs'' e''].
  simpl in Hm2, He2. subst e''. rewrite Hm2.
  exists r. cbv zeta. fold n1 n2.
  split; [exact Hr|]. split; [apply Z.shiftr_nonneg; lia|]. reflexivity.
Qed.

Lemma binary_round_aux_not_nan sx mx ex lx :
  0 <= mx -> is_nan (binary_round_aux mant_dig max_exp sx mx ex lx) = false.
Proof.
  intros H. destruct (binary_round_aux_spec sx mx ex lx H) as (r & _ & H0 & ->).
  cbv zeta in *.
  destruct (Z.shiftr r _) as [|m|m]; [reflexivity| |lia].
  now destruct (_ <=? _).
Qed.

Lemma binary_round_aux_lower k mx ex lx :
  0 < mx -> -1021 <= k -> k <= Zdigits2 mx + ex ->
  at_least k (binary_round_aux mant_dig max_exp false mx ex lx) = true.
Proof.
  intros Hmx Hk Hmag.
  destruct (binary_round_aux_spec false mx ex lx ltac:(lia)) as (r & Hr & H0 & ->).
  cbv zeta in *. rewrite !fexp_eq in *.
  set (n1 := Z.max 0 (Z.max (Zdigits2 mx + ex - 53) (-1074) - ex)) in *.
  pose proof (Zdigits2_pos mx Hmx) as Hd.
  assert (Hn1 : 0 <= n1 < Zdigits2 mx) by lia.
  destruct (Zdigits2_shiftr mx n1 Hmx) as [Hm1 Hd1]; [lia..|].
  assert (Hdr : Zdigits2 mx - n1 <= Zdigits2 r).
  { rewrite <- Hd1. apply Zdigits2_le. lia. }
  assert (Hr0 : 0 < r) by lia.
  set (n2 := Z.max 0 (Z.max (Zdigits2 r + (ex + n1) - 53) (-1074) - (ex + n1))) in *.
  assert (Hn2 : 0 <= n2 < Zdigits2 r) by lia.
  destruct (Zdigits2_shiftr r n2 Hr0) as [Hm2 Hd2]; [lia..|].
  destruct (Z.shiftr r n2) as [|m|m] eqn:E; try lia.
  destruct (_ <=? _); [|reflexivity].
  cbn [at_least]. apply Z.leb_le. lia.
Qed.

Lemma binary_round_aux_upper sx mx ex lx :
  0 <= mx -> Zdigits2 mx + ex <= 1023 -> ex <= 971 ->
  is_inf (binary_round_aux mant_dig max_exp sx mx ex lx) = false.
Proof.
  intros Hmx Hmag Hex.
  destruct (binary_round_aux_spec sx mx ex lx Hmx) as (r & Hr & H0 & ->).
  cbv zeta in *. rewrite !fexp_eq in *.
  set (n1 := Z.max 0 (Z.max (Zdigits2 mx + ex - 53) (-1074) - ex)) in *.
  assert (Hn1 : 0 <= n1) by lia.
  assert (Hm1 : 0 <= Z.shiftr mx n1) by now apply Z.shiftr_nonneg.
  assert (Hd1 : Zdigits2 (Z.shiftr mx n1) + (ex + n1) <= 1023).
  { destruct (Z_lt_le_dec n1 (Zdigits2 mx)) as [Hlt|Hle].
    - destruct (Z.eq_dec mx 0) as [->|]; [simpl in Hlt; lia|].
      destruct (Zdigits2_shiftr mx n1) as [_ ->]; lia.
    - rewrite Zdigits2_shiftr_small by lia. simpl. lia. }
  assert (Hdr : Zdigits2 r <= Zdigits2 (Z.shiftr mx n1) + 1).
  { etransitivity; [|apply Zdigits2_succ; lia]. apply Zdigits2_le. lia. }
  set (n2 := Z.max 0 (Z.max (Zdigits2 r + (ex + n1) - 53) (-1074) - (ex + n1))) in *.
  destruct (Z.shiftr r n2) as [|m|m]; try reflexivity.
  destruct (Z.leb_spec (ex + n1 + n2) (max_exp - mant_dig)) as [|Hgt];
    [reflexivity|].
  unfold max_exp, mant_dig in Hgt. lia.
Qed.

(** ** Division *)

Lemma SFdiv_core_binary_spec mx ex my ey :
  let M := Zdigits2 (Z.pos mx) + ex - (Zdigits2 (Z.pos my) + ey) in
  exists q e' l,
    SFdiv_core_binary mant_dig max_exp (Z.pos mx) ex (Z.pos my) ey = (q, e', l)
    /\ 0 <= q
    /\ e' <= Z.max (M - 53) (-1074)
    /\ (Zdigits2 q + e' <= M + 1 \/ q = 0)
    /\ (-1021 <= M -> 0 < q /\ M <= Zdigits2 q + e').
Proof.
  intros M. unfold SFdiv_core_binary. rewrite fexp_eq. fold M.
  set (d1 := Zdigits2 (Z.pos mx)) in *. set (d2 := Zdigits2 (Z.pos my)) in *.
  set (e' := Z.min (Z.max (M - 53) (-1074)) (ex - ey)).
  set (s := ex - ey - e').
  assert (Hs : 0 <= s) by lia.
  set (m' := match s with Z.pos _ => Z.shiftl (Z.pos mx) s | 0 => Z.pos mx | Z.neg _ => 0 end).
  assert (Hm' : m' = Z.pos mx * 2 ^ s).
  { unfold m'. destruct s as [|p|p] eqn:E; [simpl; lia| |lia].
    now rewrite Z.shiftl_mul_pow2. }
  clearbody m'.
  pose proof (Zdigits2_spec (Z.pos mx) ltac:(lia)) as [Hx1 Hx2]. fold d1 in Hx1, Hx2.
  pose proof (Zdigits2_spec (Z.pos my) ltac:(lia)) as [Hy1 Hy2]. fold d2 in Hy1, Hy2.
  pose proof (Zdigits2_pos (Z.pos mx) ltac:(lia)) as Hd1. fold d1 in Hd1.
  pose proof (Zdigits2_pos (Z.pos my) ltac:(lia)) as Hd2. fold d2 in Hd2.
  pose proof (Z.pow_pos_nonneg 2 s ltac:(lia) Hs) as Hps.
  assert (Hq : fst (Z.div_eucl m' (Z.pos my)) = m' / Z.pos my) by reflexivity.
  destruct (Z.div_eucl m' (Z.pos my)) as [q r]. simpl in Hq. subst q.
  exists (m' / Z.pos my), e', (new_location (Z.pos my) r).
  split; [reflexivity|].
  assert (H0 : 0 <= m' / Z.pos my) by (apply Z.div_pos; nia).
  split; [exact H0|]. split; [lia|]. split.
  - (* upper bound *)
    destruct (Z_le_gt_dec (d2 - 1) (d1 + s)) as [Hle|Hgt].
    + left. enough (Zdigits2 (m' / Z.pos my) <= d1 + s - (d2 - 1)) by lia.
      apply Zdigits2_upper; [lia|]. split; [exact H0|].
      apply Z.div_lt_upper_bound; [lia|].
      assert (E : 2 ^ (d1 + s) = 2 ^ (d2 - 1) * 2 ^ (d1 + s - (d2 - 1))).
      { rewrite <- Z.pow_add_r by lia. f_equal. lia. }
      assert (m' < 2 ^ (d1 + s)).
      { rewrite Z.pow_add_r by lia. nia. }
      pose proof (Z.pow_pos_nonneg 2 (d1 + s - (d2 - 1)) ltac:(lia) ltac:(lia)).
      nia.
    + right. apply Z.div_small. split; [nia|].
      assert (m' < 2 ^ (d1 + s)).
      { rewrite Z.pow_add_r by lia. nia. }
      assert (2 ^ (d1 + s) <= 2 ^ (d2 - 1)) by (apply Z.pow_le_mono_r; lia).
      lia.
  - (* lower bound *)
    intros HM.
    assert (HC : 0 <= d1 - 1 + s - d2) by lia.
    assert (Hlow : 2 ^ (d1 - 1 + s - d2) <= m' / Z.pos my).
    { apply Z.div_le_lower_bound; [lia|].
      assert (E : 2 ^ (d1 - 1 + s) = 2 ^ d2 * 2 ^ (d1 - 1 + s - d2)).
      { rewrite <- Z.pow_add_r by lia. f_equal. lia. }
      assert (2 ^ (d1 - 1 + s) <= m').
      { rewrite Z.pow_add_r by lia. nia. }
      pose proof (Z.pow_pos_nonneg 2 (d1 - 1 + s - d2) ltac:(lia) HC).
      nia. }
    pose proof (Z.pow_pos_nonneg 2 (d1 - 1 + s - d2) ltac:(lia) HC).
    split; [lia|].
    pose proof (Zdigits2_lower _ _ HC Hlow). lia.
Qed.

Lemma SFdiv_finite_not_nan sx mx ex sy my ey :
  is_nan (SFdiv mant_dig max_exp (S754_finite sx mx ex) (S754_finite sy my ey))
  = false.
Proof.
  cbn [SFdiv].
  destruct (SFdiv_core_binary_spec mx ex my ey) as (q & e' & l & -> & Hq & _).
  now apply binary_round_aux_not_nan.
Qed.

Lemma SFdiv_finite_lower k mx ex my ey :
  -1021 <= k ->
  k <= Zdigits2 (Z.pos mx) + ex - (Zdigits2 (Z.pos my) + ey) ->
  at_least k
    (SFdiv mant_dig max_exp (S754_finite false mx ex) (S754_finite false my ey))
  = true.
Proof.
  intros Hk HM. cbn [SFdiv xorb].
  destruct (SFdiv_core_binary_spec mx ex my ey)
    as (q & e' & l & -> & _ & _ & _ & Hlow).
  destruct Hlow as [Hq Hmag]; [lia|].
  apply binary_round_aux_lower; lia.
Qed.

Lemma SFdiv_finite_upper sx mx ex sy my ey :
  Zdigits2 (Z.pos mx) + ex - (Zdigits2 (Z.pos my) + ey) <= 1022 ->
  is_inf (SFdiv mant_dig max_exp (S754_finite sx mx ex) (S754_finite sy my ey))
  = false.
Proof.
  intros HM. cbn [SFdiv].
  destruct (SFdiv_core_binary_spec mx ex my ey)
    as (q & e' & l & -> & Hq & He' & Hup & _).
  apply binary_round_aux_upper; [exact Hq| |lia].
  destruct Hup as [Hup| ->]; [lia|]. simpl. lia.
Qed.

(** ** Addition *)

Lemma Pos_iter_xO m d : Z.pos (Pos.iter xO m d) = Z.pos m * 2 ^ Z.pos d.
Proof.
  induction d as [|d IH] using Pos.peano_ind.
  - simpl. lia.
  - rewrite Pos.iter_succ, Pos2Z.inj_xO, IH, Pos2Z.inj_succ, Z.pow_succ_r by lia.
    lia.
Qed.

Lemma shl_align_spec mx ex ex' :
  Z.pos (fst (shl_align mx ex ex'))
  = Z.pos mx * 2 ^ (ex - snd (shl_align mx ex ex'))
  /\ snd (shl_align mx ex ex') = Z.min ex ex'.
Proof.
  unfold shl_align. destruct (ex' - ex) as [|d|d] eqn:E; cbn [fst snd].
  - rewrite Z.sub_diag, Z.pow_0_r. lia.
  - rewrite Z.sub_diag, Z.pow_0_r. lia.
  - rewrite Pos_iter_xO. replace (ex - ex') with (Z.pos d) by lia. lia.
Qed.

Lemma Zdigits2_mul_pow2 m n :
  0 < m -> 0 <= n -> Zdigits2 (m * 2 ^ n) = Zdigits2 m + n.
Proof.
  intros Hm Hn. rewrite <- Z.shiftl_mul_pow2 by exact Hn.
  now apply Zdigits2_shiftl.
Qed.

Lemma binary_round_not_nan sx mx ex :
  is_nan (binary_round mant_dig max_exp sx mx ex) = false.
Proof.
  unfold binary_round.
  destruct (shl_align mx ex _) as [mz ez].
  now apply binary_round_aux_not_nan.
Qed.

Lemma binary_round_lower k mx ex :
  -1021 <= k -> k <= Zdigits2 (Z.pos mx) + ex ->
  at_least k (binary_round mant_dig max_exp false mx ex) = true.
Proof.
  intros Hk Hmag. unfold binary_round.
  pose proof (shl_align_spec mx ex
                (fexp mant_dig max_exp (Z.pos (digits2_pos mx) + ex))) as [Hm He].
  destruct (shl_align mx ex _) as [mz ez]. cbn [fst snd] in Hm, He.
  apply binary_round_aux_lower; [lia|exact Hk|].
  rewrite Hm, Zdigits2_mul_pow2 by lia. lia.
Qed.

Lemma binary_normalize_not_nan m e szero :
  is_nan (binary_normalize mant_dig max_exp m e szero) = false.
Proof.
  destruct m; simpl; [reflexivity|apply binary_round_not_nan..].
Qed.

(** The sum of two floats that are neither NaN nor infinite is not NaN. *)
Lemma SFadd_not_nan x y :
  is_nan x = false -> is_inf x = false ->
  is_nan y = false -> is_inf y = false ->
  is_nan (SFadd mant_dig max_exp x y) = false.
Proof.
  destruct x as [[|]|?| |sx mx ex], y as [[|]|?| |sy my ey];
    try discriminate; try reflexivity.
  intros _ _ _ _. cbn [SFadd]. apply binary_normalize_not_nan.
Qed.

Lemma SFadd_lower k x y :
  -1021 <= k -> at_least k x = true -> at_least k y = true ->
  at_least k (SFadd mant_dig max_exp x y) = true.
Proof.
  intros Hk.
  destruct x as [?|[|]| |[|] mx ex], y as [?|[|]| |[|] my ey];
    try discriminate; try reflexivity; try (intros; assumption).
  cbn [at_least SFadd cond_Zopp]. intros Hx Hy.
  apply Z.leb_le in Hx. apply Z.leb_le in Hy.
  pose proof (shl_align_spec mx ex (Z.min ex ey)) as [Hmx Hex].
  pose proof (shl_align_spec my ey (Z.min ex ey)) as [Hmy Hey].
  destruct (shl_align mx ex _) as [mx' ex'], (shl_align my ey _) as [my' ey'].
  cbn [fst snd] in *.
  change (Z.pos mx' + Z.pos my') with (Z.pos (mx' + my')).
  cbn [binary_normalize].
  apply binary_round_lower; [exact Hk|].
  assert (Zdigits2 (Z.pos mx') + Z.min ex ey = Zdigits2 (Z.pos mx) + ex).
  { rewrite Hmx, Zdigits2_mul_pow2 by lia. lia. }
  assert (Zdigits2 (Z.pos mx') <= Zdigits2 (Z.pos (mx' + my'))).
  { apply Zdigits2_le. lia. }
  lia.
Qed.

(** ** The order of the floats *)

Ltac compare_cases :=
  repeat match goal with
  | H : context [Pos.compare_cont Eq ?a ?b] |- _ =>
      change (Pos.compare_cont Eq a b) with (Pos.compare a b) in H
  | |- context [Pos.compare_cont Eq ?a ?b] =>
      change (Pos.compare_cont Eq a b) with (Pos.compare a b)
  end;
  repeat match goal with
  | H : context [Z.compare ?a ?b] |- _ => destruct (Z.compare_spec a b)
  | |- context [Z.compare ?a ?b] => destruct (Z.compare_spec a b)
  | H : context [Pos.compare ?a ?b] |- _ => destruct (Pos.compare_spec a b)
  | |- context [Pos.compare ?a ?b] => destruct (Pos.compare_spec a b)
  end;
  simpl in *; try reflexivity; try discriminate; try lia.

Ltac float_cases x :=
  destruct x as [[|]|[|]| |[|] ? ?].

Lemma float_gt_irrefl x : float_gt x x = false.
Proof. unfold float_gt. float_cases x; simpl; compare_cases. Qed.

Lemma float_gt_trans x y z :
  float_gt x y = true -> float_gt y z = true -> float_gt x z = true.
Proof.
  unfold float_gt.
  float_cases x; float_cases y; simpl; try discriminate;
    float_cases z; simpl; try discriminate; try reflexivity;
    intros H1 H2; compare_cases.
Qed.

Lemma float_gt_asym x y : float_gt x y = true -> float_gt y x = false.
Proof.
  unfold float_gt.
  float_cases x; float_cases y; simpl; try discriminate; try reflexivity;
    intros H1; compare_cases.
Qed.

Lemma float_le_gt_trans x y z :
  is_nan x = false -> is_nan y = false ->
  float_gt x y = false -> float_gt z y = true -> float_gt z x = true.
Proof.
  unfold float_gt.
  float_cases x; float_cases y; simpl; try discriminate;
    float_cases z; simpl; try discriminate; try reflexivity;
    intros _ _ H1 H2; compare_cases.
Qed.


(** ** Focus estimator: mixed arithmetic on the literals of the loop *)

Lemma float_lit_2 : float_lit 2 = S754_finite false 4503599627370496 (-51).
Proof. vm_compute. reflexivity. Qed.

Lemma int_to_float_2 : int_to_float 2 = Ok (float_lit 2).
Proof. vm_compute. reflexivity. Qed.

Lemma int_to_float_5 : int_to_float 5 = Ok (float_lit 5).
Proof. vm_compute. reflexivity. Qed.

Lemma py_add_int_float b :
  py_add (PInt 5) (PFloat b) = Ok (PFloat (float_add (float_lit 5) b)).
Proof. unfold py_add, to_float. now rewrite int_to_float_5. Qed.

Lemma py_add_float_int a :
  py_add (PFloat a) (PInt 5) = Ok (PFloat (float_add a (float_lit 5))).
Proof. unfold py_add, to_float. now rewrite int_to_float_5. Qed.

Lemma py_truediv_float_2 t :
  py_truediv (PFloat t) (PInt 2) = Ok (float_div t (float_lit 2)).
Proof.
  unfold py_truediv, to_float. rewrite int_to_float_2.
  cbn [mbind result_bind]. now rewrite float_lit_2.
Qed.

Lemma py_truediv_10_2 :
  py_truediv (PInt 10) (PInt 2)
  = Ok (float_div (float_add (float_lit 5) (float_lit 5)) (float_lit 2)).
Proof. vm_compute. reflexivity. Qed.

(** True division at a few integers: [26 / 3] is [0x1.1555555555555p+3];
    the largest integer that still rounds to the largest float divides,
    the next one is halfway to [2 ^ 1024] and overflows. *)
Example int_truediv_values :
  int_truediv 26 3 = Ok (S754_finite false 4878899596318037 (-49))
  /\ int_truediv 0 (-3) = Ok (S754_zero true)
  /\ int_truediv 1 0 = Raise ZeroDivisionError
  /\ int_truediv (2 ^ 1024 - 2 ^ 970 - 1) 1
     = Ok (S754_finite false 9007199254740991 971)
  /\ int_truediv (2 ^ 1024 - 2 ^ 970) 1 = Raise OverflowError
  /\ int_truediv (10 ^ 400) 1 = Raise OverflowError.
Proof. repeat split; vm_compute; reflexivity. Qed.

(** Against the initial best score, the integer 0, a float compares as
    against the float zero. *)
Lemma py_gt_int_0 x : py_gt (PFloat x) (PInt 0) = float_gt x (S754_zero false).
Proof.
  unfold py_gt, float_gt, float_cmp_int.
  destruct x as [s|[|]| |[|] m e]; try reflexivity; cbn [SFcompare].
  - destruct (Z.leb_spec 0 e) as [He|He].
    + pose proof (Z.pow_pos_nonneg 2 e ltac:(lia) He).
      destruct (Z.compare_spec (Z.neg m * 2 ^ e) 0); (reflexivity || lia).
    + reflexivity.
  - destruct (Z.leb_spec 0 e) as [He|He].
    + pose proof (Z.pow_pos_nonneg 2 e ltac:(lia) He).
      destruct (Z.compare_spec (Z.pos m * 2 ^ e) 0); (reflexivity || lia).
    + reflexivity.
Qed.

Lemma at_least_gt_zero k x :
  at_least k x = true -> float_gt x (S754_zero false) = true.
Proof. destruct x as [?|[|]| |[|] m e]; (discriminate || reflexivity). Qed.

(** ** Focus estimator: the window loop *)

Lemma window_step_in_range avg best s score :
  s + 2 <= 22 ->
  window_score avg s = Ok score ->
  window_step avg best s
  = Ok (if py_gt (PFloat score) (fst best)
        then (PFloat score, (s, s + 2))
        else best).
Proof.
  intros H Hscore. unfold window_step. rewrite Hscore.
  destruct (Z.leb_spec (s + 2) 22); [|lia].
  cbn [mbind result_bind]. now destruct (py_gt _ _).
Qed.

(** The window loop over any list of start hours, for scores [ws] that
    are not NaN and a best score that compares as the float [fb]: either
    no window beats the initial best score and the initial pair is kept,
    or the loop ends on the first window of the largest score. *)
Lemma window_scan avg (ws : Z -> spec_float) l best_score fb best_window :
  (forall s, window_score avg s = Ok (ws s)) ->
  (forall s, is_nan (ws s) = false) ->
  is_nan fb = false ->
  (forall x, py_gt (PFloat x) best_score = float_gt x fb) ->
  Forall (fun s => s + 2 <= 22) l ->
  (Forall (fun s => float_gt (ws s) fb = false) l
   /\ window_loop avg l (best_score, best_window)
      = Ok (best_score, best_window))
  \/ (exists l1 s l2,
        l = l1 ++ s :: l2
        /\ window_loop avg l (best_score, best_window)
           = Ok (PFloat (ws s), (s, s + 2))
        /\ float_gt (ws s) fb = true
        /\ Forall (fun s' => float_gt (ws s) (ws s') = true) l1
        /\ Forall (fun s' => float_gt (ws s') (ws s) = false) l2).
Proof.
  intros Hws Hnan. revert best_score fb best_window.
  induction l as [|s0 l IH]; intros best_score fb best_window Hfb Hgt Hl.
  - left. split; [constructor | reflexivity].
  - apply Forall_cons_1 in Hl as [Hs0 Hl].
    cbn [window_loop].
    rewrite (window_step_in_range avg _ s0 (ws s0) Hs0 (Hws s0)).
    cbn [mbind result_bind fst]. rewrite Hgt.
    destruct (float_gt (ws s0) fb) eqn:Hs0gt.
    + destruct (IH (PFloat (ws s0)) (ws s0) (s0, s0 + 2) (Hnan s0)
                  ltac:(reflexivity) Hl)
        as [[Hall Hloop] | (l1 & s & l2 & Hsplit & Hloop & Hlt & H1 & H2)];
        rewrite Hloop.
      * right. exists [], s0, l.
        split; [reflexivity|]. split; [reflexivity|]. split; [exact Hs0gt|].
        split; [constructor | exact Hall].
      * right. exists (s0 :: l1), s, l2.
        split; [now rewrite Hsplit|]. split; [reflexivity|].
        split; [exact (float_gt_trans _ _ _ Hlt Hs0gt)|].
        split; [constructor; assumption | exact H2].
    + destruct (IH best_score fb best_window Hfb Hgt Hl)
        as [[Hall Hloop] | (l1 & s & l2 & Hsplit & Hloop & Hlt & H1 & H2)];
        rewrite Hloop.
      * left. split; [constructor; assumption | reflexivity].
      * right. exists (s0 :: l1), s, l2.
        split; [now rewrite Hsplit|]. split; [reflexivity|].
        split; [exact Hlt|].
        split; [constructor; [|assumption] | exact H2].
        exact (float_le_gt_trans _ _ _ (Hnan s0) Hfb Hs0gt Hlt).
Qed.

Lemma range_6_20_sorted : StronglySorted Z.lt (range 6 20).
Proof. vm_compute. repeat constructor. Qed.

Lemma elem_of_range_6_20 s : s ∈ range 6 20 <-> 6 <= s <= 19.
Proof. unfold range. rewrite elem_of_seqZ. lia. Qed.

(** ** Reachable states of the focus agent *)

Lemma log_session_buckets_nonempty self session :
  buckets_nonempty (focus_patterns self) ->
  buckets_nonempty (focus_patterns (log_session self session)).
Proof.
  intros H. unfold log_session, buckets_nonempty. simpl.
  apply map_Forall_insert_2; [|exact H].
  now destruct (default [] _).
Qed.

Lemma fold_log_session_buckets_nonempty sessions self :
  buckets_nonempty (focus_patterns self) ->
  buckets_nonempty (focus_patterns (fold_left log_session sessions self)).
Proof.
  revert self. induction sessions as [|s l IH]; intros self H; simpl.
  - exact H.
  - apply IH. now apply log_session_buckets_nonempty.
Qed.

Lemma log_sessions_buckets_nonempty sessions :
  buckets_nonempty (focus_patterns (log_sessions sessions)).
Proof.
  apply fold_log_session_buckets_nonempty. apply map_Forall_empty.
Qed.

(** The bucket map is empty exactly when no session was logged. *)
Lemma log_sessions_empty sessions :
  focus_patterns (log_sessions sessions) = ∅ <-> sessions = [].
Proof.
  split; [|now intros ->].
  destruct sessions as [|s l] using rev_ind; [reflexivity|].
  unfold log_sessions. rewrite fold_left_app. simpl.
  intros H. now apply insert_non_empty in H.
Qed.

Lemma fold_left_add_sum l a : fold_left Z.add l a = a + sum l.
Proof.
  unfold sum. revert a. induction l as [|x l IH]; intros a; cbn [fold_left].
  - lia.
  - rewrite (IH (a + x)), (IH (0 + x)). lia.
Qed.

Lemma sum_cons x l : sum (x :: l) = x + sum l.
Proof. unfold sum. cbn [fold_left]. rewrite !fold_left_add_sum. lia. Qed.

(** A sum of positive integers is at least their number. *)
Lemma sum_ge_length l :
  Forall (fun x => 0 < x) l -> Z.of_nat (length l) <= sum l.
Proof.
  induction 1 as [|x l Hx _ IH]; [reflexivity|].
  rewrite sum_cons. cbn [length]. lia.
Qed.

Lemma sum_positive l : l <> [] -> Forall (fun x => 0 < x) l -> 0 < sum l.
Proof.
  intros Hne Hall. pose proof (sum_ge_length l Hall).
  destruct l; [congruence | cbn [length] in *; lia].
Qed.

(** A sum of integers within [b] of zero is within [b] times their number. *)
Lemma sum_abs_le b l :
  Forall (fun x => Z.abs x <= b) l -> Z.abs (sum l) <= b * Z.of_nat (length l).
Proof.
  induction 1 as [|x l Hx _ IH]; [unfold sum; simpl; lia|].
  rewrite sum_cons. cbn [length]. lia.
Qed.

Lemma fold_log_session_buckets_positive sessions self :
  Forall (fun s => 0 < focus_score s) sessions ->
  buckets_positive (focus_patterns self) ->
  buckets_positive (focus_patterns (fold_left log_session sessions self)).
Proof.
  revert self. induction sessions as [|s l IH]; intros self Hall H; simpl.
  - exact H.
  - apply Forall_cons_1 in Hall as [Hs Hall]. apply IH; [exact Hall|].
    unfold log_session, buckets_positive. simpl.
    apply map_Forall_insert_2; [|exact H].
    apply Forall_app. split; [|now repeat constructor].
    destruct (focus_patterns self !! hour (start_time s)) as [scores|] eqn:E.
    + exact (map_Forall_lookup_1 _ _ _ _ H E).
    + constructor.
Qed.

(** ** Focus estimator: the averages *)

Lemma first_raise_None {A : Type} (l : list (result A)) :
  first_raise l = None -> Forall (fun r => exists a, r = Ok a) l.
Proof.
  induction l as [|[a|e] l IH]; cbn [first_raise]; intros H.
  - constructor.
  - constructor; [now exists a | now apply IH].
  - discriminate.
Qed.

Lemma first_raise_Some {A : Type} (l : list (result A)) e :
  first_raise l = Some e -> Raise e ∈ l.
Proof.
  induction l as [|[a|e'] l IH]; cbn [first_raise]; intros H.
  - discriminate.
  - apply elem_of_cons. right. now apply IH.
  - injection H as ->. apply elem_of_cons. now left.
Qed.

Lemma elem_of_bucket_averages (fp : gmap Z (list Z)) r :
  r ∈ snd <$> map_to_list (bucket_average <$> fp) <->
  exists h scores, fp !! h = Some scores /\ r = bucket_average scores.
Proof.
  rewrite list_elem_of_fmap. split.
  - intros ([h r'] & -> & Hin). apply elem_of_map_to_list in Hin.
    rewrite lookup_fmap in Hin.
    destruct (fp !! h) as [scores|] eqn:E; [|discriminate].
    injection Hin as <-. now exists h, scores.
  - intros (h & scores & E & ->). exists (h, bucket_average scores).
    split; [reflexivity|]. apply elem_of_map_to_list.
    now rewrite lookup_fmap, E.
Qed.

(** The loop over the buckets succeeds exactly when every average does,
    and then holds the average of every logged hour. *)
Lemma avg_focus_Ok fp avg :
  avg_focus fp = Ok avg ->
  forall h,
    match fp !! h with
    | Some scores => exists q, bucket_average scores = Ok q /\ avg !! h = Some q
    | None => avg !! h = None
    end.
Proof.
  unfold avg_focus.
  destruct (first_raise _) as [e|] eqn:E; [discriminate|].
  intros [= <-] h. rewrite lookup_omap, lookup_fmap.
  destruct (fp !! h) as [scores|] eqn:Eh; [|reflexivity].
  apply first_raise_None in E. rewrite Forall_forall in E.
  destruct (E (bucket_average scores)) as [q Hq].
  { apply elem_of_bucket_averages. now exists h, scores. }
  exists q. split; [exact Hq|]. cbn. now rewrite Hq.
Qed.

Lemma avg_focus_Raise fp e :
  avg_focus fp = Raise e ->
  exists h scores, fp !! h = Some scores /\ bucket_average scores = Raise e.
Proof.
  unfold avg_focus.
  destruct (first_raise _) as [e'|] eqn:E; [|discriminate].
  intros [= <-]. apply first_raise_Some, elem_of_bucket_averages in E.
  destruct E as (h & scores & Hh & Hr). now exists h, scores.
Qed.

Lemma length_positive {A : Type} (l : list A) :
  l <> [] -> exists p, Z.of_nat (length l) = Z.pos p.
Proof.
  destruct l as [|x l]; [congruence|]. intros _.
  cbn [length]. rewrite Nat2Z.inj_succ.
  destruct (Z.of_nat (length l)) as [|p|p] eqn:E; [now exists 1%positive| |lia].
  exists (Pos.succ p). lia.
Qed.

(** The average of a bucket that is not empty: the rounded quotient, or
    [OverflowError] when it is infinite. *)
Lemma bucket_average_nonempty scores :
  scores <> [] ->
  bucket_average scores
  = match float_div (int_as_float (sum scores))
                    (int_as_float (Z.of_nat (length scores))) with
    | S754_infinity _ => Raise OverflowError
    | q => Ok q
    end.
Proof.
  intros H. unfold bucket_average, int_truediv.
  destruct (length_positive scores H) as [p ->]. reflexivity.
Qed.

Lemma bucket_average_Ok scores q :
  scores <> [] ->
  bucket_average scores = Ok q ->
  q = float_div (int_as_float (sum scores))
                (int_as_float (Z.of_nat (length scores)))
  /\ is_inf q = false.
Proof.
  intros H. rewrite bucket_average_nonempty by exact H.
  destruct (float_div _ _); intros [= <-]; now split.
Qed.

Lemma bucket_average_Raise scores e :
  scores <> [] ->
  bucket_average scores = Raise e ->
  e = OverflowError
  /\ is_inf (float_div (int_as_float (sum scores))
                       (int_as_float (Z.of_nat (length scores)))) = true.
Proof.
  intros H. rewrite bucket_average_nonempty by exact H.
  destruct (float_div _ _); intros [= <-]; now split.
Qed.

Lemma avg_focus_averages self avg :
  buckets_nonempty (focus_patterns self) ->
  avg_focus (focus_patterns self) = Ok avg ->
  averages_of self avg /\ averages_finite self.
Proof.
  intros Hne Havg. pose proof (avg_focus_Ok _ _ Havg) as H.
  split; intros h; specialize (H h).
  - unfold avg_get, hour_average.
    destruct (focus_patterns self !! h) as [scores|] eqn:E.
    + destruct H as (q & Hq & ->).
      apply bucket_average_Ok in Hq as [-> _]; [reflexivity|].
      exact (map_Forall_lookup_1 _ _ _ _ Hne E).
    + now rewrite H.
  - unfold hour_average.
    destruct (focus_patterns self !! h) as [scores|] eqn:E.
    + destruct H as (q & Hq & _).
      apply bucket_average_Ok in Hq as [<- Hinf]; [exact Hinf|].
      exact (map_Forall_lookup_1 _ _ _ _ Hne E).
    + vm_compute. reflexivity.
Qed.

Lemma avg_focus_finite self :
  buckets_nonempty (focus_patterns self) ->
  averages_finite self ->
  exists avg, avg_focus (focus_patterns self) = Ok avg.
Proof.
  intros Hne Hfin.
  destruct (avg_focus (focus_patterns self)) as [avg|e] eqn:E;
    [now exists avg|].
  apply avg_focus_Raise in E as (h & scores & Hh & Hr).
  apply bucket_average_Raise in Hr as [_ Hinf];
    [|exact (map_Forall_lookup_1 _ _ _ _ Hne Hh)].
  specialize (Hfin h). unfold hour_average in Hfin. rewrite Hh in Hfin.
  congruence.
Qed.

Lemma avg_focus_overflow self :
  buckets_nonempty (focus_patterns self) ->
  ~ averages_finite self ->
  avg_focus (focus_patterns self) = Raise OverflowError.
Proof.
  intros Hne Hnot.
  destruct (avg_focus (focus_patterns self)) as [avg|e] eqn:E.
  - exfalso. apply Hnot. now apply (avg_focus_averages self avg).
  - apply avg_focus_Raise in E as (h & scores & Hh & Hr).
    apply bucket_average_Raise in Hr as [-> _]; [reflexivity|].
    exact (map_Forall_lookup_1 _ _ _ _ Hne Hh).
Qed.

Lemma hour_average_no_bucket self h :
  focus_patterns self !! h = None -> hour_average self h = float_lit 5.
Proof. intros E. unfold hour_average. now rewrite E. Qed.

(** The score the loop computes for a window is the mean of the two
    averages, the integer default 5 entering the sum as the float 5. *)
Lemma window_score_mean self avg s :
  averages_of self avg -> window_score avg s = Ok (window_mean self s).
Proof.
  intros H. unfold window_score, window_mean. rewrite (H s), (H (s + 1)).
  destruct (focus_patterns self !! s) eqn:Es,
           (focus_patterns self !! (s + 1)) eqn:Es';
    rewrite ?(hour_average_no_bucket _ _ Es), ?(hour_average_no_bucket _ _ Es').
  - cbn [py_add to_float mbind result_bind]. apply py_truediv_float_2.
  - rewrite py_add_float_int. cbn [mbind result_bind].
    apply py_truediv_float_2.
  - rewrite py_add_int_float. cbn [mbind result_bind].
    apply py_truediv_float_2.
  - cbn [py_add mbind result_bind]. exact py_truediv_10_2.
Qed.

Lemma hour_average_not_nan self h :
  buckets_nonempty (focus_patterns self) ->
  is_nan (hour_average self h) = false.
Proof.
  intros Hne. unfold hour_average.
  destruct (focus_patterns self !! h) as [scores|] eqn:E;
    [|vm_compute; reflexivity].
  destruct (length_positive scores (map_Forall_lookup_1 _ _ _ _ Hne E))
    as [p ->].
  destruct (sum scores) as [|a|a]; cbn [int_as_float];
    [reflexivity | apply SFdiv_finite_not_nan..].
Qed.

Lemma float_div_2_not_nan t :
  is_nan t = false -> is_nan (float_div t (float_lit 2)) = false.
Proof.
  rewrite float_lit_2.
  destruct t as [?|?| |? m e]; try reflexivity; try discriminate.
  intros _. apply SFdiv_finite_not_nan.
Qed.

Lemma window_mean_not_nan self s :
  buckets_nonempty (focus_patterns self) ->
  averages_finite self ->
  is_nan (window_mean self s) = false.
Proof.
  intros Hne Hfin. unfold window_mean.
  apply float_div_2_not_nan, SFadd_not_nan;
    auto using hour_average_not_nan.
Qed.

(** With positive focus scores only, every hour's average is at least
    a half. *)
Lemma hour_average_at_least self h :
  buckets_nonempty (focus_patterns self) ->
  buckets_positive (focus_patterns self) ->
  at_least 0 (hour_average self h) = true.
Proof.
  intros Hne Hpos. unfold hour_average.
  destruct (focus_patterns self !! h) as [scores|] eqn:E;
    [|vm_compute; reflexivity].
  pose proof (sum_ge_length scores (map_Forall_lookup_1 _ _ _ _ Hpos E)) as Hsum.
  destruct (length_positive scores (map_Forall_lookup_1 _ _ _ _ Hne E))
    as [p Hp].
  rewrite Hp in *.
  destruct (sum scores) as [|a|a]; try lia. cbn [int_as_float].
  apply SFdiv_finite_lower; [lia|].
  pose proof (Zdigits2_le (Z.pos p) (Z.pos a)). lia.
Qed.

Lemma float_div_2_positive t :
  at_least 0 t = true ->
  float_gt (float_div t (float_lit 2)) (S754_zero false) = true.
Proof.
  rewrite float_lit_2.
  destruct t as [?|[|]| |[|] m e]; try discriminate; intros H.
  - reflexivity.
  - apply (at_least_gt_zero (-2)). apply SFdiv_finite_lower; [lia|].
    cbn [at_least] in H. apply Z.leb_le in H.
    change (Zdigits2 (Z.pos 4503599627370496)) with 53. lia.
Qed.

(** With positive focus scores only, every window scores above 0. *)
Lemma window_mean_positive self s :
  buckets_nonempty (focus_patterns self) ->
  buckets_positive (focus_patterns self) ->
  float_gt (window_mean self s) (S754_zero false) = true.
Proof.
  intros Hne Hpos. unfold window_mean.
  apply float_div_2_positive, SFadd_lower;
    [lia | now apply hour_average_at_least..].
Qed.

Lemma Zdigits2_mul_bound a p k :
  0 <= k -> 0 < p -> 0 <= a <= 2 ^ k * p -> Zdigits2 a <= k + Zdigits2 p.
Proof.
  intros Hk Hp Ha.
  pose proof (Zdigits2_spec p Hp) as [_ Hlt].
  pose proof (Zdigits2_pos p Hp).
  pose proof (Z.pow_pos_nonneg 2 k ltac:(lia) Hk).
  apply Zdigits2_upper; [lia|].
  rewrite Z.pow_add_r by lia. nia.
Qed.

Lemma fold_log_session_buckets_bounded b sessions self :
  Forall (fun s => Z.abs (focus_score s) <= b) sessions ->
  buckets_bounded b (focus_patterns self) ->
  buckets_bounded b (focus_patterns (fold_left log_session sessions self)).
Proof.
  revert self. induction sessions as [|s l IH]; intros self Hall H; simpl.
  - exact H.
  - apply Forall_cons_1 in Hall as [Hs Hall]. apply IH; [exact Hall|].
    unfold log_session, buckets_bounded. simpl.
    apply map_Forall_insert_2; [|exact H].
    apply Forall_app. split; [|now repeat constructor].
    destruct (focus_patterns self !! hour (start_time s)) as [scores|] eqn:E.
    + exact (map_Forall_lookup_1 _ _ _ _ H E).
    + constructor.
Qed.

(** Focus scores within [2 ^ 1000] of zero have averages that fit a
    float. *)
Lemma averages_finite_bounded self :
  buckets_nonempty (focus_patterns self) ->
  buckets_bounded (2 ^ 1000) (focus_patterns self) ->
  averages_finite self.
Proof.
  intros Hne Hb h. unfold hour_average.
  destruct (focus_patterns self !! h) as [scores|] eqn:E;
    [|vm_compute; reflexivity].
  pose proof (sum_abs_le _ scores (map_Forall_lookup_1 _ _ _ _ Hb E)) as Hsum.
  destruct (length_positive scores (map_Forall_lookup_1 _ _ _ _ Hne E))
    as [p Hp].
  rewrite Hp in *.
  destruct (sum scores) as [|a|a]; cbn [int_as_float]; [reflexivity|..];
    apply SFdiv_finite_upper;
    pose proof (Zdigits2_mul_bound (Z.pos a) (Z.pos p) 1000);
    lia.
Qed.

Lemma log_sessions_averages_finite sessions :
  Forall (fun s => Z.abs (focus_score s) <= 2 ^ 1000) sessions ->
  averages_finite (log_sessions sessions).
Proof.
  intros H. apply averages_finite_bounded.
  - apply log_sessions_buckets_nonempty.
  - apply fold_log_session_buckets_bounded; [exact H|].
    apply map_Forall_empty.
Qed.

(** The scale of the focus scores, 1 to 10, lies well within that bound. *)
Lemma scale_bounded x : Z.abs x <= 10 -> Z.abs x <= 2 ^ 1000.
Proof.
  intros H. transitivity (2 ^ 4); [change (2 ^ 4) with 16; lia|].
  apply Z.pow_le_mono_r; lia.
Qed.

(** ** Focus estimator: the first best window *)

(** What the scan of [get_optimal_focus_time] returns once a session is
    logged and the averages fit. *)
Lemma optimal_focus_time_scan (sessions : list ProductivitySession) :
  sessions <> [] ->
  let self := log_sessions sessions in
  averages_finite self ->
  ((forall s, 6 <= s <= 19 ->
      float_gt (window_mean self s) (S754_zero false) = false)
   /\ get_optimal_focus_time self = Ok (9, 11))
  \/ (exists start,
        first_best_window self start
        /\ float_gt (window_mean self start) (S754_zero false) = true
        /\ get_optimal_focus_time self = Ok (start, start + 2)).
Proof.
  intros Hne self Hfin. unfold get_optimal_focus_time.
  destruct (map_to_list (focus_patterns self)) as [|item items] eqn:E.
  { apply map_to_list_empty_iff, log_sessions_empty in E. contradiction. }
  pose proof (log_sessions_buckets_nonempty sessions) as Hbuckets.
  fold self in Hbuckets.
  destruct (avg_focus_finite self Hbuckets Hfin) as [avg Havg].
  rewrite Havg. cbn [mbind result_bind].
  destruct (avg_focus_averages self avg Hbuckets Havg) as [Hof _].
  assert (Hr : Forall (fun s => s + 2 <= 22) (range 6 20)).
  { apply Forall_forall. intros s Hs. apply elem_of_range_6_20 in Hs. lia. }
  destruct (window_scan avg (window_mean self) (range 6 20)
              (PInt 0) (S754_zero false) (9, 11)
              (fun s => window_score_mean self avg s Hof)
              (fun s => window_mean_not_nan self s Hbuckets Hfin)
              ltac:(reflexivity) py_gt_int_0 Hr)
    as [[Hall ->] | (l1 & s & l2 & Hsplit & -> & Hlt & H1 & H2)].
  - left. split; [|reflexivity].
    intros s Hs. rewrite Forall_forall in Hall. apply Hall.
    now apply elem_of_range_6_20.
  - right. exists s. cbn [mbind result_bind snd].
    pose proof range_6_20_sorted as Hsorted. rewrite Hsplit in Hsorted.
    apply StronglySorted_app_1_r, StronglySorted_cons in Hsorted as [Hafter _].
    rewrite Forall_forall in H1, H2, Hafter.
    assert (Hin : forall s', 6 <= s' <= 19 -> s' ∈ l1 \/ s' = s \/ s' ∈ l2).
    { intros s' Hs'. apply elem_of_range_6_20 in Hs'. rewrite Hsplit in Hs'.
      apply elem_of_app in Hs' as [?|Hs']; [now left|].
      apply elem_of_cons in Hs' as [?|?]; auto. }
    assert (Hs : 6 <= s <= 19).
    { apply elem_of_range_6_20. rewrite Hsplit. set_solver. }
    split; [|split; [exact Hlt | reflexivity]].
    split; [|split].
    + exact Hs.
    + intros s' Hs'.
      destruct (Hin s' Hs') as [Hl1 | [-> | Hl2]].
      * apply float_gt_asym. now apply H1.
      * apply float_gt_irrefl.
      * now apply H2.
    + intros s' Hs'.
      destruct (Hin s' ltac:(lia)) as [Hl1 | [-> | Hl2]].
      * now apply H1.
      * lia.
      * apply Hafter in Hl2. lia.
Qed.

(** C4, as the code has it: once a session is logged, the averages of the
    logged hours are computed as floats, which raises [OverflowError]
    when one of them is too large for a float.  Otherwise the start hours
    6 to 19 are scanned in ascending order, each window scored by the
    float mean of the averages of the hours [start] and [start + 1] (5 for
    an hour without session), and the first window of the largest score
    is returned as [(start, start + 2)], provided some window scores above
    the initial best score 0, which is so whenever every logged focus
    score is positive; when no window scores above 0, the initial (9, 11)
    is returned. *)
Theorem optimal_focus_time_first_best (sessions : list ProductivitySession) :
  sessions <> [] ->
  let self := log_sessions sessions in
  (~ averages_finite self ->
   get_optimal_focus_time self = Raise OverflowError)
  /\ (averages_finite self ->
      ((exists s, 6 <= s <= 19
                  /\ float_gt (window_mean self s) (S754_zero false) = true) ->
       exists start,
         first_best_window self start
         /\ get_optimal_focus_time self = Ok (start, start + 2))
      /\ ((forall s, 6 <= s <= 19 ->
             float_gt (window_mean self s) (S754_zero false) = false) ->
          get_optimal_focus_time self = Ok (9, 11))
      /\ (Forall (fun s => 0 < focus_score s) sessions ->
          exists start,
            first_best_window self start
            /\ get_optimal_focus_time self = Ok (start, start + 2))).
Proof.
  intros Hne self.
  pose proof (log_sessions_buckets_nonempty sessions) as Hbuckets.
  fold self in Hbuckets.
  split.
  - intros Hnot. unfold get_optimal_focus_time.
    destruct (map_to_list (focus_patterns self)) as [|item items] eqn:E.
    { apply map_to_list_empty_iff, log_sessions_empty in E. contradiction. }
    now rewrite (avg_focus_overflow self Hbuckets Hnot).
  - intros Hfin.
    pose proof (optimal_focus_time_scan sessions Hne Hfin) as Hscan.
    fold self in Hscan.
    assert (H1 : (exists s, 6 <= s <= 19
                    /\ float_gt (window_mean self s) (S754_zero false) = true) ->
                 exists start,
                   first_best_window self start
                   /\ get_optimal_focus_time self = Ok (start, start + 2)).
    { intros (s & Hs & Hpos).
      destruct Hscan as [[Hall _] | (start & Hbest & _ & Hget)].
      - specialize (Hall s Hs). congruence.
      - now exists start. }
    split; [exact H1|]. split.
    + intros Hall.
      destruct Hscan as [[_ Hget] | (start & (Hs & _) & Hpos & _)];
        [exact Hget|].
      specialize (Hall start Hs). congruence.
    + intros Hpos. apply H1. exists 6. split; [lia|].
      apply window_mean_positive; [exact Hbuckets|].
      apply fold_log_session_buckets_positive; [exact Hpos|].
      apply map_Forall_empty.
Qed.

Lemma optimal_focus_time_first_best_witness :
  exists start,
    first_best_window (log_sessions Sample.afternoon) start
    /\ get_optimal_focus_time (log_sessions Sample.afternoon)
       = Ok (start, start + 2).
Proof.
  apply (optimal_focus_time_first_best Sample.afternoon).
  - discriminate.
  - apply log_sessions_averages_finite.
    repeat (apply List.Forall_cons; [apply scale_bounded; simpl; lia|]).
    apply List.Forall_nil.
  - repeat constructor.
Defined.

(** With the afternoon sessions the window of 13 o'clock wins: it is the
    first to reach the mean of 5 and 7.5. *)
Example optimal_focus_time_afternoon :
  get_optimal_focus_time (log_sessions Sample.afternoon) = Ok (13, 15).
Proof. vm_compute. reflexivity. Qed.

(** On the mornings below the exact means of the windows of 6 and of 12
    o'clock are both 22/3; the floats differ in the last bit, and the
    later window wins. *)
Example optimal_focus_time_rounding :
  get_optimal_focus_time (log_sessions Sample.near_tie) = Ok (12, 14)
  /\ float_gt (window_mean (log_sessions Sample.near_tie) 12)
              (window_mean (log_sessions Sample.near_tie) 6) = true.
Proof. split; vm_compute; reflexivity. Qed.

(** A focus score beyond the range of the floats makes the average fail. *)
Example optimal_focus_time_overflow :
  get_optimal_focus_time (log_sessions [Sample.session 22 (10 ^ 400) 0])
  = Raise OverflowError.
Proof. vm_compute. reflexivity. Qed.

(** C4 as it is stated fails on a day of sessions without focus: every
    window scores 0, the first of them starts at 6, and the code, whose
    best score starts at 0, keeps the initial (9, 11). *)
Lemma optimal_focus_time_idle_day :
  Sample.idle_day <> []
  /\ (forall s, 6 <= s <= 19 ->
        window_mean (log_sessions Sample.idle_day) s = S754_zero false)
  /\ first_best_window (log_sessions Sample.idle_day) 6
  /\ get_optimal_focus_time (log_sessions Sample.idle_day) = Ok (9, 11)
  /\ ~ (exists start,
          first_best_window (log_sessions Sample.idle_day) start
          /\ get_optimal_focus_time (log_sessions Sample.idle_day)
             = Ok (start, start + 2)).
Proof.
  assert (Hzero : forall s, 6 <= s <= 19 ->
            window_mean (log_sessions Sample.idle_day) s = S754_zero false).
  { intros s Hs.
    assert (Hcases : s = 6 \/ s = 7 \/ s = 8 \/ s = 9 \/ s = 10 \/ s = 11
                     \/ s = 12 \/ s = 13 \/ s = 14 \/ s = 15 \/ s = 16
                     \/ s = 17 \/ s = 18 \/ s = 19) by lia.
    repeat destruct Hcases as [-> | Hcases]; try subst s;
      vm_compute; reflexivity. }
  assert (Hget : get_optimal_focus_time (log_sessions Sample.idle_day)
                 = Ok (9, 11)) by (vm_compute; reflexivity).
  split; [discriminate|]. split; [exact Hzero|]. split; [|split].
  - split; [lia|]. split.
    + intros s Hs. now rewrite (Hzero s Hs), (Hzero 6) by lia.
    + intros s Hs. lia.
  - exact Hget.
  - intros (start & (_ & _ & Hfirst) & Hstart).
    rewrite Hget in Hstart.
    assert (start = 9) by congruence. subst start.
    specialize (Hfirst 6 ltac:(lia)).
    rewrite (Hzero 6), (Hzero 9) in Hfirst by lia.
    discriminate.
Qed.

(** ** Optimizer facade: completing tasks *)

Lemma complete_task_loop_not_found tasks task_id actual_hours now :
  Forall (fun task => id task <> task_id) tasks ->
  complete_task_loop tasks task_id actual_hours now = tasks.
Proof.
  induction 1 as [|task rest Hne _ IH]; simpl; [reflexivity|].
  apply String.eqb_neq in Hne. now rewrite Hne, IH.
Qed.

(** With no task of the given id, [complete_task] changes nothing. *)
Lemma complete_task_not_found self task_id actual_hours now :
  Forall (fun task => id task <> task_id) (tasks self) ->
  complete_task self task_id actual_hours now = self.
Proof.
  intros H. unfold complete_task.
  rewrite complete_task_loop_not_found by exact H. now destruct self.
Qed.

(** The first task of the given id, and no other, is marked completed at
    [now]. *)
Lemma complete_task_found self task_id actual_hours now before task after :
  tasks self = before ++ task :: after ->
  Forall (fun t => id t <> task_id) before ->
  id task = task_id ->
  tasks (complete_task self task_id actual_hours now)
  = before ++ mark_completed task actual_hours now :: after
  /\ status (mark_completed task actual_hours now) = COMPLETED
  /\ completed_at (mark_completed task actual_hours now) = Some now.
Proof.
  intros Htasks Hbefore Hid. split; [|split; reflexivity].
  unfold complete_task. simpl. rewrite Htasks. clear Htasks.
  induction Hbefore as [|t rest Hne _ IH]; simpl.
  - apply String.eqb_eq in Hid. now rewrite Hid.
  - apply String.eqb_neq in Hne. now rewrite Hne, IH.
Qed.

(** Hours whose truth value is true are recorded. *)
Lemma mark_completed_records_hours task h now :
  float_truthy h = true ->
  actual_hours (mark_completed task (Some h) now) = Some h.
Proof. intros H. simpl. now rewrite H. Qed.

(** Hours equal to zero are not: the task keeps what it had. *)
Lemma mark_completed_drops_zero task q now :
  (q == 0)%Q ->
  actual_hours (mark_completed task (Some (FFinite q)) now)
  = actual_hours task.
Proof.
  intros H. simpl. apply Qeq_bool_iff in H. now rewrite H.
Qed.

(** C8 at [complete_task("task_1", 0.0)]: the task is marked completed
    at [now], yet the hours that were passed are not recorded. *)
Theorem complete_task_zero_hours :
  tasks (complete_task (Sample.optimizer [Sample.proposal None; Sample.inbox])
           "task_1" (Some (FFinite 0)) Sample.now)
  = [ {| id := "task_1";
         title := "Complete project proposal";
         description := "Write and review the Q2 project proposal";
         priority := HIGH;
         deadline := None;
         estimated_hours := FFinite 4;
         energy_level_required := 8;
         tags := ["writing"; "project"; "deadline"]%string;
         status := COMPLETED;
         created_at := Sample.now;
         completed_at := Some Sample.now;
         actual_hours := None |};
      Sample.inbox ].
Proof. reflexivity. Qed.

(** ** Optimizer facade: logging sessions *)

(** C10: logging a session through the optimizer replaces the current
    energy by the session's energy level and leaves the task list as it
    is, so the ranking of the next recommendations is computed from these
    tasks with that energy. *)
Theorem log_productivity_session_energy
    (self : ProductivityOptimizer) (start_time end_time : datetime)
    (tasks_completed : list string) (focus_score energy_level : Z)
    (distractions_count : Z) (tools_used : option (list string))
    (current_time : datetime) :
  let self' :=
    log_productivity_session self start_time end_time tasks_completed
      focus_score energy_level distractions_count tools_used in
  current_energy self' = energy_level
  /\ tasks self' = tasks self
  /\ user_id self' = user_id self
  /\ get_daily_recommendations self' current_time
     = (focus_time ← get_optimal_focus_time (focus_agent self');
        Ok {| prioritized_tasks :=
                firstn 5 (prioritize_tasks (tasks self) energy_level
                            current_time);
              optimal_focus_time := focus_time;
              should_take_break :=
                suggest_break_time (focus_agent self') current_time |}).
Proof. repeat split. Qed.

(** Logging sessions never touches the task list. *)
Lemma log_productivity_sessions_tasks self sessions :
  tasks (log_productivity_sessions self sessions) = tasks self.
Proof.
  unfold log_productivity_sessions. revert self.
  induction sessions as [|s l IH]; intros self; [reflexivity|].
  cbn [fold_left]. now rewrite IH.
Qed.

(** After several sessions the current energy is that of the last one. *)
Lemma log_productivity_sessions_last self sessions session :
  current_energy (log_productivity_sessions self (sessions ++ [session]))
  = energy_level session.
Proof.
  unfold log_productivity_sessions. now rewrite fold_left_app.
Qed.

(** ** Timestamps in the snapshot *)

Lemma string_app_assoc (a b c : string) : (a +:+ b) +:+ c = a +:+ (b +:+ c).
Proof.
  induction a as [|x a IH]; [reflexivity|].
  change (String x ((a +:+ b) +:+ c) = String x (a +:+ (b +:+ c))).
  now rewrite IH.
Qed.

Lemma string_app_nil_r (a : string) : a +:+ EmptyString = a.
Proof.
  induction a as [|x a IH]; [reflexivity|].
  change (String x (a +:+ EmptyString) = String x a). now rewrite IH.
Qed.

(** Reading back a digit that was printed. *)
Lemma digit_value_digit n : digit_value (digit n) = Some (n mod 10).
Proof.
  unfold digit. pose proof (Z.mod_pos_bound n 10 ltac:(lia)) as Hb.
  set (k := n mod 10) in *.
  assert (Hk : k = 0 \/ k = 1 \/ k = 2 \/ k = 3 \/ k = 4 \/ k = 5
               \/ k = 6 \/ k = 7 \/ k = 8 \/ k = 9) by lia.
  repeat destruct Hk as [-> | Hk]; try rewrite Hk; reflexivity.
Qed.

Lemma parse_digits_snoc w acc s :
  parse_digits (S w) acc s
  = match parse_digits w acc s with
    | Some (a, String c s') =>
        match digit_value c with
        | Some d => Some (a * 10 + d, s')
        | None => None
        end
    | _ => None
    end.
Proof.
  revert acc s. induction w as [|w IH]; intros acc s.
  - destruct s as [|c s]; [reflexivity|]. cbn [parse_digits].
    now destruct (digit_value c).
  - destruct s as [|c s]; [reflexivity|].
    change (parse_digits (S (S w)) acc (String c s))
      with (match digit_value c with
            | Some d => parse_digits (S w) (acc * 10 + d) s
            | None => None
            end).
    change (parse_digits (S w) acc (String c s))
      with (match digit_value c with
            | Some d => parse_digits w (acc * 10 + d) s
            | None => None
            end).
    destruct (digit_value c) as [d|]; [apply IH | reflexivity].
Qed.

(** Reading back [width] digits that were printed. *)
Lemma parse_digits_zfill w n acc rest :
  parse_digits w acc (zfill w n +:+ rest)
  = Some (acc * 10 ^ Z.of_nat w + n mod 10 ^ Z.of_nat w, rest).
Proof.
  revert n acc rest. induction w as [|w IH]; intros n acc rest.
  - cbn [parse_digits zfill String.append]. f_equal. f_equal.
    change (10 ^ Z.of_nat 0) with 1. rewrite Z.mod_1_r. lia.
  - rewrite parse_digits_snoc. cbn [zfill].
    rewrite string_app_assoc.
    change (String (digit n) EmptyString +:+ rest) with (String (digit n) rest).
    rewrite IH. cbv beta iota. rewrite digit_value_digit. f_equal. f_equal.
    rewrite Nat2Z.inj_succ, Z.pow_succ_r by lia.
    rewrite (Z.rem_mul_r n 10 (10 ^ Z.of_nat w)) by lia. lia.
Qed.

Lemma parse_digits_zfill_small w n rest :
  0 <= n < 10 ^ Z.of_nat w ->
  parse_digits w 0 (zfill w n +:+ rest) = Some (n, rest).
Proof.
  intros H. rewrite parse_digits_zfill, Z.mod_small by exact H.
  now rewrite Z.mul_0_l.
Qed.

Lemma days_in_month_le y m : _days_in_month y m <= 31.
Proof.
  unfold _days_in_month.
  repeat match goal with
         | |- context [match ?x with _ => _ end] => destruct x
         end; lia.
Qed.

Lemma expect_cons c rest : expect c (String c rest) = Some rest.
Proof. unfold expect. now rewrite Ascii.eqb_refl. Qed.

Lemma parse_fraction_zfill us :
  0 <= us <= 999999 ->
  parse_fraction (if us =? 0 then EmptyString else "." +:+ zfill 6 us)
  = Some us.
Proof.
  intros H. destruct (Z.eqb_spec us 0) as [->|_]; [reflexivity|].
  change ("." +:+ zfill 6 us) with (String "."%char (zfill 6 us)).
  unfold parse_fraction. rewrite Ascii.eqb_refl.
  rewrite <- (string_app_nil_r (zfill 6 us)).
  now rewrite parse_digits_zfill_small by (cbn; lia).
Qed.

(** A timestamp written by [str] is read back by [fromisoformat] as the
    same datetime, microseconds included. *)
Lemma datetime_roundtrip dt :
  datetime_valid dt = true ->
  fromisoformat (JString (datetime_str dt)) = Ok dt.
Proof.
  intros Hv. pose proof Hv as Hvalid.
  unfold datetime_valid in Hv.
  repeat (apply andb_prop in Hv as [Hv ?]).
  repeat match goal with
         | H : (_ <=? _) = true |- _ => apply Z.leb_le in H
         end.
  pose proof (days_in_month_le (year dt) (month dt)).
  unfold fromisoformat, parse_isoformat, parse_time, datetime_str.
  repeat match goal with
         | |- context [String ?c EmptyString +:+ ?r] =>
             change (String c EmptyString +:+ r) with (String c r)
         end.
  set (frac := if microsecond dt =? 0 then _ else _).
  repeat first
    [ rewrite parse_digits_zfill_small by (cbn; lia)
    | rewrite expect_cons
    | progress cbn [mbind option_bind] ].
  replace (parse_fraction frac) with (Some (microsecond dt))
    by (symmetry; apply parse_fraction_zfill; lia).
  cbn [mbind option_bind].
  destruct dt as [y m d hh mm ss us].
  cbn [year month day hour minute second microsecond].
  now rewrite Hvalid.
Qed.

(** ** Snapshot persistence *)

(** Where [open] finds no file, the optimizer stays as it is. *)
Lemma load_missing_file self files :
  files !! user_file self = None ->
  _load_user_data self files = Ok self.
Proof. intros H. unfold _load_user_data. now rewrite H. Qed.

(** What [save] wrote is what [load] finds. *)
Lemma load_after_save self files :
  _load_user_data self (_save_user_data self files)
  = (tasks ← load_tasks (List.map dump_task (tasks self));
     Ok {| user_id := user_id self;
           focus_agent := focus_agent self;
           tasks := tasks;
           current_energy := current_energy self |}).
Proof.
  unfold _load_user_data, _save_user_data. rewrite lookup_insert_eq.
  reflexivity.
Qed.

(** An empty task list survives the round trip. *)
Lemma save_load_no_task self files :
  tasks self = [] ->
  _load_user_data self (_save_user_data self files) = Ok self.
Proof.
  intros H. rewrite load_after_save, H. simpl. rewrite <- H.
  now destruct self.
Qed.

Lemma fromisoformat_string s :
  (exists dt, fromisoformat (JString s) = Ok dt)
  \/ fromisoformat (JString s) = Raise ValueError.
Proof.
  unfold fromisoformat. destruct (parse_isoformat s) as [dt|]; [|now right].
  destruct (datetime_valid dt); [left; now exists dt | now right].
Qed.

Lemma load_optional_datetime_dump key items d :
  dict_get key items = Some (dump_datetime d) ->
  (exists r, load_optional_datetime key items = Ok r)
  \/ load_optional_datetime key items = Raise ValueError.
Proof.
  intros H. unfold load_optional_datetime. rewrite H.
  destruct d as [dt|]; cbn [dump_datetime]; [|left; now exists None].
  destruct (json_truthy (JString (datetime_str dt)));
    [|left; now exists None].
  destruct (fromisoformat_string (datetime_str dt)) as [[r ->] | ->];
    [left; now exists (Some r) | now right].
Qed.

(** [load] does read a task whose enum members are held by value. *)
Example load_task_by_value : load_task Sample.inbox_by_value = Ok Sample.inbox.
Proof. vm_compute. reflexivity. Qed.

(** Members are found by their value. *)
Lemma Priority_of_value_value p :
  Priority_of_value (JInt (Priority_value p)) = Ok p.
Proof. now destruct p. Qed.

Lemma TaskStatus_of_value_value st :
  TaskStatus_of_value (JString (TaskStatus_value st)) = Ok st.
Proof. now destruct st. Qed.

(** No member of [Priority] has the text of a member as its value. *)
Lemma Priority_of_value_str p :
  Priority_of_value (JString (Priority_str p)) = Raise ValueError.
Proof. reflexivity. Qed.

(** A task written by [save] never loads: whatever the timestamps, the
    priority was written as [str] prints it and [Priority(...)] refuses
    that text. *)
Lemma load_task_dump task : load_task (dump_task task) = Raise ValueError.
Proof.
  unfold load_task, dump_task.
  destruct (load_optional_datetime_dump "deadline" (dump_task_items task)
              (deadline task) eq_refl) as [[r1 ->] | ->]; [|reflexivity].
  cbn [mbind result_bind].
  replace (dict_item "created_at" (dump_task_items task))
    with (Ok (A:=json) (JString (datetime_str (created_at task))))
    by reflexivity.
  cbn [mbind result_bind].
  destruct (fromisoformat_string (datetime_str (created_at task)))
    as [[r2 ->] | ->]; [|reflexivity].
  destruct (load_optional_datetime_dump "completed_at" (dump_task_items task)
              (completed_at task) eq_refl) as [[r3 ->] | ->]; [|reflexivity].
  reflexivity.
Qed.

Lemma load_tasks_dump task rest :
  load_tasks (List.map dump_task (task :: rest)) = Raise ValueError.
Proof. cbn [List.map load_tasks]. now rewrite load_task_dump. Qed.

(** Every snapshot with at least one task fails to load. *)
Lemma save_load_raises self files task rest :
  tasks self = task :: rest ->
  _load_user_data self (_save_user_data self files) = Raise ValueError.
Proof.
  intros H. now rewrite load_after_save, H, load_tasks_dump.
Qed.

(** C1 at a list of one task: [save] followed by [load] does not give the
    list back, [load] raises [ValueError]. *)
Theorem save_load_one_task :
  _load_user_data (Sample.optimizer [Sample.inbox])
    (_save_user_data (Sample.optimizer [Sample.inbox]) ∅)
  = Raise ValueError
  /\ ProductivityOptimizer_init "user123"
       (_save_user_data (Sample.optimizer [Sample.inbox]) ∅)
     = Raise ValueError.
Proof. split; vm_compute; reflexivity. Qed.

(* ===================================================================== *)
(** * Further properties *)
(* ===================================================================== *)

(** ** Task scorer *)

(** The score is never below the 5 points of the lowest priority and
    never above 100, and both bounds are reached. *)
Theorem score_tight_bounds :
  (forall task current_energy current_time,
      5 <= calculate_task_score task current_energy current_time <= 100)
  /\ (exists task current_energy current_time,
        calculate_task_score task current_energy current_time = 5)
  /\ (exists task current_energy current_time,
        calculate_task_score task current_energy current_time = 100).
Proof.
  split; [|split].
  - intros task e t.
    pose proof (deadline_band_range task t).
    pose proof (priority_band_range task).
    pose proof (energy_band_range task e).
    pose proof (effort_band_range task t).
    rewrite calculate_task_score_bands. lia.
  - exists Demo.groceries, 12, (Sample.at_hour 20). reflexivity.
  - exists Demo.overdue, 6, (Sample.at_hour 10). reflexivity.
Qed.


(** The whole days of [deadline - now] are the elapsed time divided by a
    day, rounded down. *)
Lemma days_until_floor d now :
  days_until d now = (datetime_us d - datetime_us now) / us_per_day.
Proof.
  unfold days_until, datetime_sub, timedelta_new, datetime_us.
  cbn [days]. f_equal. ring.
Qed.

Lemma deadline_points_elapsed elapsed :
  deadline_points (elapsed / us_per_day) = points_by_elapsed elapsed.
Proof.
  unfold deadline_points, points_by_elapsed, us_per_day.
  pose proof (Z.div_mod elapsed 86400000000 ltac:(lia)) as Hdiv.
  pose proof (Z.mod_pos_bound elapsed 86400000000 ltac:(lia)) as Hmod.
  set (n := elapsed / 86400000000) in *.
  set (r := elapsed mod 86400000000) in *.
  repeat match goal with
         | |- context [?a <=? ?b] => destruct (Z.leb_spec a b)
         | |- context [?a <? ?b] => destruct (Z.ltb_spec a b)
         end; lia.
Qed.

(** The urgency points follow the time left, not the calendar day: a
    deadline less than 24 hours ahead, like one that has passed, gives 40
    points, less than 48 hours 35, less than 4 days 25, less than 8 days
    15, and 5 beyond. *)
Theorem deadline_points_by_elapsed
    (task : Task) (d : datetime) (current_energy : Z) (current_time : datetime) :
  deadline task = Some d ->
  deadline_band task current_time
  = points_by_elapsed (datetime_us d - datetime_us current_time)
  /\ calculate_task_score task current_energy current_time
     = points_by_elapsed (datetime_us d - datetime_us current_time)
       + priority_scores (priority task)
       + energy_band task current_energy
       + effort_band task current_time.
Proof.
  intros Hd.
  assert (Hband : deadline_band task current_time
                  = points_by_elapsed (datetime_us d - datetime_us current_time)).
  { unfold deadline_band. rewrite Hd, days_until_floor.
    apply deadline_points_elapsed. }
  split; [exact Hband|].
  now rewrite calculate_task_score_bands, Hband.
Qed.

(** Due tomorrow, one second less than 24 hours ahead: 40 points, the
    score 40 + 20 + 18 + 10. *)
Lemma deadline_points_by_elapsed_witness :
  calculate_task_score
    (Sample.proposal (Some (mk_datetime 2024 3 16 10 29 59 0))) 7 Sample.now
  = 88.
Proof.
  pose proof (deadline_points_by_elapsed
                (Sample.proposal (Some (mk_datetime 2024 3 16 10 29 59 0)))
                (mk_datetime 2024 3 16 10 29 59 0) 7 Sample.now eq_refl)
    as [_ H].
  rewrite H. reflexivity.
Defined.

(** ** Ranking *)

Lemma filter_all_true {A : Type} (f : A -> bool) (l : list A) :
  (forall x, In x l -> f x = true) -> List.filter f l = l.
Proof.
  induction l as [|x l IH]; intros H; simpl; [reflexivity|].
  rewrite (H x) by now left.
  f_equal. apply IH. intros y Hy. apply H. now right.
Qed.

(** A list that is already descending is left as it is. *)
Lemma sort_reverse_descending_id {A : Type} (key : A -> Z) (l : list A) :
  descending key l -> sort_reverse key l = l.
Proof.
  intros H. symmetry. now apply sort_reverse_unique.
Qed.

(** Ranking a ranking changes nothing. *)
Theorem prioritize_tasks_idempotent
    (tasks : list Task) (current_energy : Z) (current_time : datetime) :
  prioritize_tasks
    (prioritize_tasks tasks current_energy current_time)
    current_energy current_time
  = prioritize_tasks tasks current_energy current_time.
Proof.
  rewrite !prioritize_tasks_sort.
  set (score := fun task =>
                  calculate_task_score task current_energy current_time).
  rewrite filter_all_true.
  - apply sort_reverse_descending_id, sort_reverse_descending.
  - intros task Hin.
    apply (Permutation_in _ (sort_reverse_perm score _)) in Hin.
    now apply filter_In in Hin.
Qed.

(** The first task of the ranking is a pending task of the list, and no
    pending task of the list scores more. *)
Theorem prioritize_tasks_head_max
    (tasks : list Task) (current_energy : Z) (current_time : datetime)
    (top : Task) (rest : list Task) :
  prioritize_tasks tasks current_energy current_time = top :: rest ->
  In top tasks
  /\ status top = PENDING
  /\ (forall task,
        In task tasks -> status task = PENDING ->
        calculate_task_score task current_energy current_time
        <= calculate_task_score top current_energy current_time).
Proof.
  intros Hrank.
  set (score := fun task =>
                  calculate_task_score task current_energy current_time).
  pose proof (sort_reverse_perm score (List.filter is_pending tasks)) as Hperm.
  pose proof (sort_reverse_descending score (List.filter is_pending tasks))
    as Hdesc.
  rewrite prioritize_tasks_sort in Hrank. fold score in Hrank.
  rewrite Hrank in Hperm, Hdesc.
  assert (Htop : In top (List.filter is_pending tasks)).
  { apply (Permutation_in _ Hperm). now left. }
  apply filter_In in Htop as [Hin Hpend].
  split; [exact Hin|]. split; [now apply is_pending_spec|].
  intros task Htask Hst.
  apply (descending_head_max score top rest task Hdesc).
  apply (Permutation_in _ (Permutation_sym Hperm)).
  apply filter_In. split; [exact Htask | now apply is_pending_spec].
Qed.

Lemma prioritize_tasks_head_max_witness :
  In (Sample.proposal None) [Sample.inbox; Sample.proposal None; Sample.finished]
  /\ status (Sample.proposal None) = PENDING
  /\ (forall task,
        In task [Sample.inbox; Sample.proposal None; Sample.finished] ->
        status task = PENDING ->
        calculate_task_score task 10 (Sample.at_hour 20)
        <= calculate_task_score (Sample.proposal None) 10 (Sample.at_hour 20)).
Proof.
  apply (prioritize_tasks_head_max
           [Sample.inbox; Sample.proposal None; Sample.finished]
           10 (Sample.at_hour 20) (Sample.proposal None) [Sample.inbox]).
  reflexivity.
Defined.

(** Completing a task takes it out of the ranking and leaves the ranking
    of the other tasks as it was. *)
Theorem complete_task_leaves_ranking
    (self : ProductivityOptimizer) (task_id : string)
    (actual_hours : option pyfloat) (now : datetime)
    (before after : list Task) (task : Task)
    (current_energy : Z) (current_time : datetime) :
  tasks self = before ++ task :: after ->
  Forall (fun t => id t <> task_id) before ->
  id task = task_id ->
  prioritize_tasks (tasks (complete_task self task_id actual_hours now))
    current_energy current_time
  = prioritize_tasks (before ++ after) current_energy current_time.
Proof.
  intros Htasks Hbefore Hid.
  destruct (complete_task_found self task_id actual_hours now before task
              after Htasks Hbefore Hid) as [-> _].
  rewrite !prioritize_tasks_sort, !List.filter_app. reflexivity.
Qed.

Lemma complete_task_leaves_ranking_witness :
  prioritize_tasks
    (tasks (complete_task
              (Sample.optimizer [Sample.inbox; Sample.proposal None])
              "task_1" None Sample.now))
    7 Sample.now
  = prioritize_tasks ([Sample.inbox] ++ []) 7 Sample.now.
Proof.
  apply (complete_task_leaves_ranking
           (Sample.optimizer [Sample.inbox; Sample.proposal None]) "task_1"
           None Sample.now [Sample.inbox] [] (Sample.proposal None)
           7 Sample.now).
  - reflexivity.
  - repeat constructor. discriminate.
  - reflexivity.
Defined.


(** ** Focus estimator: the state after a history *)

Lemma trigger_count_fold sessions self h :
  trigger_count (fold_left log_session sessions self) h
  = trigger_count self h + Z.of_nat (length (distracted_at h sessions)).
Proof.
  revert self. induction sessions as [|s l IH]; intros self.
  - simpl. lia.
  - cbn [fold_left]. rewrite IH, trigger_count_log_session.
    unfold distracted_at, sessions_at. cbn [List.filter].
    rewrite (Z.eqb_sym h).
    destruct (hour (start_time s) =? h); cbn [List.filter];
      destruct (3 <? distractions_count s); cbn [andb length]; lia.
Qed.

Lemma trigger_count_log_sessions sessions h :
  trigger_count (log_sessions sessions) h
  = Z.of_nat (length (distracted_at h sessions)).
Proof.
  unfold log_sessions. now rewrite trigger_count_fold, trigger_count_init.
Qed.

Lemma suggest_break_time_log_sessions sessions current_time :
  suggest_break_time (log_sessions sessions) current_time = true
  <-> (4 <= length (distracted_at (hour current_time) sessions))%nat.
Proof.
  rewrite suggest_break_time_spec, trigger_count_log_sessions. lia.
Qed.

(** The trigger count of an hour is the number of logged sessions that
    started in that hour with more than 3 distractions, so a break is
    suggested exactly from the fourth such session on. *)
Theorem trigger_count_exact (sessions : list ProductivitySession) :
  (forall h,
      trigger_count (log_sessions sessions) h
      = Z.of_nat (length (distracted_at h sessions)))
  /\ (forall current_time,
        suggest_break_time (log_sessions sessions) current_time = true
        <-> (4 <= length (distracted_at (hour current_time) sessions))%nat).
Proof.
  split.
  - apply trigger_count_log_sessions.
  - apply suggest_break_time_log_sessions.
Qed.

Lemma productivity_history_fold sessions self :
  productivity_history (fold_left log_session sessions self)
  = productivity_history self ++ sessions.
Proof.
  revert self. induction sessions as [|s l IH]; intros self.
  - simpl. now rewrite app_nil_r.
  - cbn [fold_left]. rewrite IH. simpl. now rewrite <- app_assoc.
Qed.

Lemma focus_patterns_log_session self s h :
  focus_patterns (log_session self s) !! h
  = if hour (start_time s) =? h
    then Some (default [] (focus_patterns self !! h) ++ [focus_score s])
    else focus_patterns self !! h.
Proof.
  unfold log_session. cbn [focus_patterns].
  destruct (Z.eqb_spec (hour (start_time s)) h) as [->|Hne].
  - now rewrite lookup_insert_eq.
  - now rewrite lookup_insert_ne.
Qed.

Lemma focus_patterns_fold sessions self h :
  focus_patterns (fold_left log_session sessions self) !! h
  = match sessions_at h sessions with
    | [] => focus_patterns self !! h
    | ss =>
        Some (default [] (focus_patterns self !! h)
              ++ List.map focus_score ss)
    end.
Proof.
  revert self. induction sessions as [|s l IH]; intros self.
  - reflexivity.
  - cbn [fold_left]. rewrite IH, focus_patterns_log_session.
    unfold sessions_at. cbn [List.filter].
    destruct (hour (start_time s) =? h).
    + destruct (List.filter _ l) as [|s' ss]; simpl.
      * reflexivity.
      * now rewrite <- app_assoc.
    + reflexivity.
Qed.

(** The agent holds the logged sessions in order, and the bucket of an
    hour holds the focus scores of the sessions started in that hour, in
    the order they were logged; an hour without session has no bucket. *)
Theorem focus_agent_state_exact (sessions : list ProductivitySession) :
  productivity_history (log_sessions sessions) = sessions
  /\ (forall h,
        focus_patterns (log_sessions sessions) !! h
        = match sessions_at h sessions with
          | [] => None
          | ss => Some (List.map focus_score ss)
          end).
Proof.
  split.
  - unfold log_sessions. now rewrite productivity_history_fold.
  - intros h. unfold log_sessions. now rewrite focus_patterns_fold.
Qed.

(** ** Focus estimator: the window *)

Lemma optimal_focus_time_ok (sessions : list ProductivitySession) :
  averages_finite (log_sessions sessions) ->
  exists start,
    get_optimal_focus_time (log_sessions sessions) = Ok (start, start + 2)
    /\ 6 <= start <= 19.
Proof.
  intros Hfin. destruct sessions as [|s l].
  - exists 9. split; [reflexivity | lia].
  - destruct (optimal_focus_time_scan (s :: l) ltac:(discriminate) Hfin)
      as [[_ Hget] | (start & (Hs & _) & _ & Hget)].
    + exists 9. split; [exact Hget | lia].
    + exists start. split; [exact Hget | exact Hs].
Qed.

Lemma optimal_focus_time_raises (sessions : list ProductivitySession) :
  ~ averages_finite (log_sessions sessions) ->
  get_optimal_focus_time (log_sessions sessions) = Raise OverflowError.
Proof.
  intros Hnot. unfold get_optimal_focus_time.
  destruct (map_to_list (focus_patterns (log_sessions sessions)))
    as [|item items] eqn:E.
  - exfalso. apply Hnot. intros h. apply map_to_list_empty_iff in E.
    unfold hour_average. rewrite E, lookup_empty. vm_compute. reflexivity.
  - now rewrite (avg_focus_overflow _
                   (log_sessions_buckets_nonempty sessions) Hnot).
Qed.

(** For focus scores of at most [2 ^ 1000] in absolute value, so for any
    score on the scale of 1 to 10, [get_optimal_focus_time] raises nothing
    and returns two hours that start between 6 and 19. *)
Theorem optimal_focus_time_total (sessions : list ProductivitySession) :
  Forall (fun s => Z.abs (focus_score s) <= 2 ^ 1000) sessions ->
  exists start,
    get_optimal_focus_time (log_sessions sessions) = Ok (start, start + 2)
    /\ 6 <= start <= 19.
Proof.
  intros H. now apply optimal_focus_time_ok, log_sessions_averages_finite.
Qed.

Lemma optimal_focus_time_total_witness :
  exists start,
    get_optimal_focus_time (log_sessions Sample.near_tie)
    = Ok (start, start + 2)
    /\ 6 <= start <= 19.
Proof.
  apply (optimal_focus_time_total Sample.near_tie).
  repeat (apply List.Forall_cons; [apply scale_bounded; simpl; lia|]).
  apply List.Forall_nil.
Defined.

(** Whatever was logged, the only exception of [get_optimal_focus_time] is
    [OverflowError], raised exactly when the average of some hour is too
    large for a float; otherwise two hours are returned that start between
    6 and 19. *)
Theorem optimal_focus_time_overflow_only (sessions : list ProductivitySession) :
  (averages_finite (log_sessions sessions)
   /\ exists start,
        get_optimal_focus_time (log_sessions sessions) = Ok (start, start + 2)
        /\ 6 <= start <= 19)
  \/ (~ averages_finite (log_sessions sessions)
      /\ get_optimal_focus_time (log_sessions sessions) = Raise OverflowError).
Proof.
  destruct (avg_focus (focus_patterns (log_sessions sessions)))
    as [avg|e] eqn:E.
  - left.
    destruct (avg_focus_averages _ avg
                (log_sessions_buckets_nonempty sessions) E) as [_ Hfin].
    split; [exact Hfin | now apply optimal_focus_time_ok].
  - right.
    assert (Hnot : ~ averages_finite (log_sessions sessions)).
    { intros Hfin.
      destruct (avg_focus_finite _
                  (log_sessions_buckets_nonempty sessions) Hfin) as [avg Havg].
      congruence. }
    split; [exact Hnot | now apply optimal_focus_time_raises].
Qed.

Lemma hour_average_no_session sessions h :
  sessions_at h sessions = [] ->
  hour_average (log_sessions sessions) h = float_lit 5.
Proof.
  intros H. unfold hour_average, log_sessions.
  now rewrite focus_patterns_fold, H.
Qed.

Lemma sessions_at_outside sessions h :
  Forall (fun s => hour (start_time s) < 6 \/ 20 < hour (start_time s))
         sessions ->
  6 <= h <= 20 ->
  sessions_at h sessions = [].
Proof.
  intros Hall Hh. unfold sessions_at.
  induction Hall as [|s l Hs _ IH]; [reflexivity|].
  cbn [List.filter].
  destruct (Z.eqb_spec (hour (start_time s)) h); [lia | exact IH].
Qed.

(** Sessions that start before 6 or after 20 o'clock are not read by the
    scan, yet they switch the default off and their averages are computed:
    with such sessions only, every window scores 5 and the first one,
    (6, 8), is returned in place of (9, 11), unless one of the averages is
    too large for a float, which raises [OverflowError]. *)
Theorem optimal_focus_time_outside_scan (sessions : list ProductivitySession) :
  sessions <> [] ->
  Forall (fun s => hour (start_time s) < 6 \/ 20 < hour (start_time s))
         sessions ->
  (averages_finite (log_sessions sessions) ->
   get_optimal_focus_time (log_sessions sessions) = Ok (6, 8))
  /\ (~ averages_finite (log_sessions sessions) ->
      get_optimal_focus_time (log_sessions sessions) = Raise OverflowError).
Proof.
  intros Hne Hall. split; [|apply optimal_focus_time_raises].
  intros Hfin.
  assert (Hmean : forall s, 6 <= s <= 19 ->
            window_mean (log_sessions sessions) s = float_lit 5).
  { intros s Hs. unfold window_mean.
    rewrite !hour_average_no_session
      by (apply sessions_at_outside; [exact Hall | lia]).
    vm_compute. reflexivity. }
  destruct (optimal_focus_time_scan sessions Hne Hfin)
    as [[Hle _] | (start & (Hs & _ & Hfirst) & _ & Hget)].
  - specialize (Hle 6 ltac:(lia)). rewrite Hmean in Hle by lia.
    now vm_compute in Hle.
  - destruct (Z.eq_dec start 6) as [->|Hstart]; [exact Hget|].
    specialize (Hfirst 6 ltac:(lia)).
    rewrite (Hmean 6), (Hmean start), float_gt_irrefl in Hfirst by lia.
    discriminate.
Qed.

Lemma optimal_focus_time_outside_scan_witness :
  get_optimal_focus_time (log_sessions Demo.night) = Ok (6, 8).
Proof.
  apply (optimal_focus_time_outside_scan Demo.night).
  - discriminate.
  - repeat constructor; vm_compute; (left; reflexivity) || (right; reflexivity).
  - apply log_sessions_averages_finite.
    repeat (apply List.Forall_cons; [apply scale_bounded; simpl; lia|]).
    apply List.Forall_nil.
Defined.

(** ** Focus estimator: tips *)

Lemma high_distraction_hours_spec self h :
  h ∈ high_distraction_hours self <-> 2 < trigger_count self h.
Proof.
  unfold high_distraction_hours, trigger_count.
  rewrite elem_of_dom. unfold is_Some.
  setoid_rewrite map_lookup_filter_Some. cbn [snd].
  destruct (distraction_triggers self !! h) as [c|]; cbn [default].
  - split; [intros (x & [= ->] & Hx); exact Hx | intros Hc; now exists c].
  - split; [intros (x & [=] & _) | lia].
Qed.

(** The five fixed tips always come first; a sixth tip follows exactly
    when some hour has a trigger count above 2, and it names exactly the
    hours with such a count. *)
Theorem distraction_tips_structure (self : FocusDistractionsAgent) :
  firstn 5 (get_distraction_mitigation_tips self) = generic_tips
  /\ (get_distraction_mitigation_tips self = generic_tips
      /\ (forall h, trigger_count self h <= 2)
      \/ get_distraction_mitigation_tips self
         = generic_tips ++ [MostDistractingHours (high_distraction_hours self)]
         /\ (exists h, 2 < trigger_count self h))
  /\ (forall h, h ∈ high_distraction_hours self <-> 2 < trigger_count self h).
Proof.
  unfold get_distraction_mitigation_tips.
  split; [|split; [|apply high_distraction_hours_spec]].
  - now destruct (bool_decide _).
  - destruct (bool_decide_reflect (high_distraction_hours self = ∅))
      as [Hempty|Hne].
    + left. split; [reflexivity|]. intros h.
      destruct (Z.le_gt_cases (trigger_count self h) 2) as [?|Hgt];
        [assumption|].
      apply high_distraction_hours_spec in Hgt.
      rewrite Hempty in Hgt. set_solver.
    + right. split; [reflexivity|].
      apply set_choose_L in Hne as [h Hh]. exists h.
      now apply high_distraction_hours_spec.
Qed.


(** An hour for which a break is suggested is one of the hours the sixth
    tip names. *)
Theorem break_hour_in_tips
    (self : FocusDistractionsAgent) (current_time : datetime) :
  suggest_break_time self current_time = true ->
  hour current_time ∈ high_distraction_hours self
  /\ get_distraction_mitigation_tips self
     = generic_tips ++ [MostDistractingHours (high_distraction_hours self)].
Proof.
  intros Hbreak. apply suggest_break_time_spec in Hbreak.
  assert (Hin : hour current_time ∈ high_distraction_hours self)
    by (apply high_distraction_hours_spec; lia).
  split; [exact Hin|].
  unfold get_distraction_mitigation_tips.
  destruct (bool_decide_reflect (high_distraction_hours self = ∅))
    as [Hempty|_]; [|reflexivity].
  rewrite Hempty in Hin. set_solver.
Qed.

Lemma break_hour_in_tips_witness :
  14 ∈ high_distraction_hours (log_sessions Demo.distracted_afternoon)
  /\ get_distraction_mitigation_tips (log_sessions Demo.distracted_afternoon)
     = generic_tips
       ++ [MostDistractingHours
             (high_distraction_hours (log_sessions Demo.distracted_afternoon))].
Proof.
  apply (break_hour_in_tips (log_sessions Demo.distracted_afternoon)
           (Sample.at_hour 14)).
  vm_compute. reflexivity.
Defined.


(** ** Optimizer facade: adding and completing tasks *)

Lemma str_nat_inj a b : str_nat a = str_nat b -> a = b.
Proof.
  unfold str_nat. intros H.
  apply (f_equal NilEmpty.uint_of_string) in H.
  rewrite !NilEmpty.usu in H. injection H as H.
  apply (f_equal Nat.of_uint) in H.
  now rewrite !DecimalNat.Unsigned.of_to in H.
Qed.

Lemma task_ids_NoDup first count : NoDup (task_ids first count).
Proof.
  unfold task_ids. apply NoDup_ListNoDup, Finite.Injective_map_NoDup.
  - intros a b H. apply str_nat_inj.
    now injection H.
  - apply List.seq_NoDup.
Qed.

Lemma task_ids_snoc first count :
  task_ids first (S count)
  = task_ids first count ++ ["task_" +:+ str_nat (first + count)].
Proof. unfold task_ids. now rewrite seq_S, List.map_app. Qed.

Lemma add_new_task_tasks self t :
  tasks (add_new_task self t) = tasks self ++ [added_task self t].
Proof. reflexivity. Qed.

Lemma added_task_id self t :
  id (added_task self t) = "task_" +:+ str_nat (length (tasks self) + 1).
Proof. reflexivity. Qed.

Lemma add_tasks_snoc self l t :
  add_tasks self (l ++ [t]) = add_new_task (add_tasks self l) t.
Proof. unfold add_tasks. now rewrite fold_left_app. Qed.

Lemma add_tasks_length self l :
  length (tasks (add_tasks self l)) = (length (tasks self) + length l)%nat.
Proof.
  induction l as [|t l IH] using rev_ind.
  - simpl. lia.
  - rewrite add_tasks_snoc, add_new_task_tasks, !length_app, IH. simpl. lia.
Qed.

Lemma add_tasks_ids_from self l :
  List.map id (tasks (add_tasks self l))
  = List.map id (tasks self) ++ task_ids (length (tasks self) + 1) (length l).
Proof.
  induction l as [|t l IH] using rev_ind.
  - simpl. now rewrite app_nil_r.
  - rewrite add_tasks_snoc, add_new_task_tasks, List.map_app, IH.
    replace (length (l ++ [t])) with (S (length l))
      by (rewrite length_app; simpl; lia).
    rewrite task_ids_snoc, app_assoc. cbn [List.map].
    rewrite added_task_id, add_tasks_length.
    do 4 f_equal. lia.
Qed.

Lemma add_tasks_fresh_ids uid l :
  List.map id (tasks (add_tasks (fresh_optimizer uid) l))
  = task_ids 1 (length l).
Proof. rewrite add_tasks_ids_from. reflexivity. Qed.


(** Completing the identifier [add_task] returned marks the task just
    added and no other, whatever tasks were added before. *)
Theorem add_then_complete
    (uid : string) (l : list NewTask) (t : NewTask)
    (actual_hours : option pyfloat) (now : datetime) :
  let self := add_tasks (fresh_optimizer uid) l in
  tasks (complete_task (add_new_task self t) (id (added_task self t))
           actual_hours now)
  = tasks self ++ [mark_completed (added_task self t) actual_hours now].
Proof.
  intros self.
  destruct (complete_task_found (add_new_task self t)
              (id (added_task self t)) actual_hours now
              (tasks self) (added_task self t) []) as [H _];
    [reflexivity | | reflexivity | exact H].
  pose proof (task_ids_NoDup 1 (S (length l))) as Hnodup.
  rewrite task_ids_snoc in Hnodup.
  apply NoDup_app in Hnodup as (_ & Hdisj & _).
  pose proof (add_tasks_fresh_ids uid l) as Hids. fold self in Hids.
  apply Forall_forall. intros task Hin Heq.
  apply (Hdisj (id task)).
  - rewrite <- Hids. apply list_elem_of_In, in_map. now apply list_elem_of_In.
  - rewrite Heq, added_task_id.
    replace (length (tasks self)) with (length l)
      by (subst self; now rewrite add_tasks_length).
    rewrite Nat.add_comm. apply list_elem_of_singleton. reflexivity.
Qed.

(** The first task that carries the identifier, and no other, is marked
    completed at [now]: the tasks before and after it stay as they are,
    later tasks of the same identifier included. *)
Theorem complete_task_first_match
    (self : ProductivityOptimizer) (task_id : string)
    (actual_hours : option pyfloat) (now : datetime)
    (before after : list Task) (task : Task) :
  tasks self = before ++ task :: after ->
  Forall (fun t => id t <> task_id) before ->
  id task = task_id ->
  tasks (complete_task self task_id actual_hours now)
  = before ++ mark_completed task actual_hours now :: after
  /\ status (mark_completed task actual_hours now) = COMPLETED
  /\ completed_at (mark_completed task actual_hours now) = Some now.
Proof. apply complete_task_found. Qed.

Lemma complete_task_first_match_witness :
  tasks (complete_task (Sample.optimizer [Sample.inbox; Sample.proposal None;
                                          Sample.proposal None])
           "task_1" (Some (FFinite 3)) Sample.now)
  = [Sample.inbox]
    ++ mark_completed (Sample.proposal None) (Some (FFinite 3)) Sample.now
       :: [Sample.proposal None]
  /\ status (mark_completed (Sample.proposal None) (Some (FFinite 3)) Sample.now)
     = COMPLETED
  /\ completed_at
       (mark_completed (Sample.proposal None) (Some (FFinite 3)) Sample.now)
     = Some Sample.now.
Proof.
  apply (complete_task_first_match
           (Sample.optimizer [Sample.inbox; Sample.proposal None;
                              Sample.proposal None])
           "task_1" (Some (FFinite 3)) Sample.now
           [Sample.inbox] [Sample.proposal None] (Sample.proposal None)).
  - reflexivity.
  - repeat constructor. discriminate.
  - reflexivity.
Defined.

(** An identifier that no task carries leaves the optimizer as it is:
    nothing is raised, nothing is changed. *)
Theorem complete_task_unknown_id
    (self : ProductivityOptimizer) (task_id : string)
    (actual_hours : option pyfloat) (now : datetime) :
  Forall (fun task => id task <> task_id) (tasks self) ->
  complete_task self task_id actual_hours now = self.
Proof. apply complete_task_not_found. Qed.

Lemma complete_task_unknown_id_witness :
  complete_task (Sample.optimizer [Sample.inbox; Sample.proposal None])
    "task_9" (Some (FFinite 3)) Sample.now
  = Sample.optimizer [Sample.inbox; Sample.proposal None].
Proof.
  apply (complete_task_unknown_id
           (Sample.optimizer [Sample.inbox; Sample.proposal None])
           "task_9" (Some (FFinite 3)) Sample.now).
  repeat constructor; discriminate.
Defined.


(** ** Snapshot persistence: what a load restores *)

Lemma load_user_data_focus_agent self files o :
  _load_user_data self files = Ok o ->
  user_id o = user_id self /\ focus_agent o = focus_agent self.
Proof.
  unfold _load_user_data.
  destruct (files !! user_file self) as [[doc|e]|];
    [|discriminate|now intros [= <-]].
  destruct doc as [| | | | |?|data]; try discriminate.
  destruct (match dict_get "tasks" data with
            | Some v => l ← json_iter v; load_tasks l
            | None => Ok []
            end) as [ts|]; [|discriminate].
  cbn [mbind result_bind].
  destruct (match dict_get "current_energy" data with
            | Some v => as_int v
            | None => Ok 7
            end) as [e|]; [|discriminate].
  cbn [mbind result_bind]. now intros [= <-].
Qed.

(** Whatever the snapshot holds, a load restores the tasks and the energy
    only: an optimizer that starts from a snapshot has a focus agent
    without history, so its focus window is the default and it suggests
    no break. *)
Theorem init_focus_agent_fresh
    (uid : string) (files : gmap string (result json))
    (o : ProductivityOptimizer) :
  ProductivityOptimizer_init uid files = Ok o ->
  user_id o = uid
  /\ focus_agent o = FocusDistractionsAgent_init
  /\ get_optimal_focus_time (focus_agent o) = Ok (9, 11)
  /\ (forall current_time,
        suggest_break_time (focus_agent o) current_time = false).
Proof.
  intros H. apply load_user_data_focus_agent in H as [Hid Hagent].
  cbn [user_id focus_agent] in Hid, Hagent.
  rewrite Hagent. repeat split. exact Hid.
Qed.

Lemma init_focus_agent_fresh_witness :
  ProductivityOptimizer_init "user123" Demo.snapshot
  = Ok {| user_id := "user123";
          focus_agent := FocusDistractionsAgent_init;
          tasks := [Sample.inbox];
          current_energy := 4 |}
  /\ get_optimal_focus_time
       (focus_agent
          {| user_id := "user123";
             focus_agent := FocusDistractionsAgent_init;
             tasks := [Sample.inbox];
             current_energy := 4 |})
     = Ok (9, 11).
Proof.
  split; [vm_compute; reflexivity|].
  apply (init_focus_agent_fresh "user123" Demo.snapshot
           {| user_id := "user123";
              focus_agent := FocusDistractionsAgent_init;
              tasks := [Sample.inbox];
              current_energy := 4 |}).
  vm_compute. reflexivity.
Defined.

Lemma datetime_str_nonempty dt :
  json_truthy (JString (datetime_str dt)) = true.
Proof.
  unfold datetime_str. cbn [zfill]. rewrite string_app_assoc.
  now destruct (zfill 3 (year dt / 10)).
Qed.

(** What [save] writes for a timestamp, [load] reads back as the same
    timestamp, microseconds included; a missing deadline or completion
    time is read back as missing. *)
Theorem timestamps_roundtrip
    (dt : datetime) (key : string) (items : list (string * json)) :
  datetime_valid dt = true ->
  fromisoformat (JString (datetime_str dt)) = Ok dt
  /\ (dict_get key items = Some (dump_datetime (Some dt)) ->
      load_optional_datetime key items = Ok (Some dt))
  /\ (dict_get key items = Some (dump_datetime None) ->
      load_optional_datetime key items = Ok None).
Proof.
  intros Hvalid. split; [now apply datetime_roundtrip|]. split.
  - intros H. unfold load_optional_datetime. rewrite H. cbn [dump_datetime].
    now rewrite datetime_str_nonempty, datetime_roundtrip.
  - intros H. unfold load_optional_datetime. now rewrite H.
Qed.

Lemma timestamps_roundtrip_witness :
  fromisoformat (JString (datetime_str (mk_datetime 2024 2 29 23 59 59 250)))
  = Ok (mk_datetime 2024 2 29 23 59 59 250).
Proof.
  apply (timestamps_roundtrip (mk_datetime 2024 2 29 23 59 59 250)
           "deadline" []).
  reflexivity.
Defined.

(** ** Optimizer facade: recommendations after a history *)

Lemma log_productivity_sessions_focus_agent self sessions :
  focus_agent (log_productivity_sessions self sessions)
  = fold_left log_session sessions (focus_agent self).
Proof.
  unfold log_productivity_sessions. revert self.
  induction sessions as [|s l IH]; intros self; [reflexivity|].
  cbn [fold_left]. rewrite IH. f_equal.
  unfold log_productivity_session. cbn [focus_agent]. f_equal.
  now destruct s.
Qed.

Lemma add_tasks_focus_agent self l :
  focus_agent (add_tasks self l) = focus_agent self.
Proof.
  induction l as [|t l IH] using rev_ind; [reflexivity|].
  now rewrite add_tasks_snoc.
Qed.

(** Tasks added and sessions logged through the optimizer lead to
    recommendations whenever the average focus of every hour fits a float:
    at most five tasks, ranked with the energy of the last session; a
    break exactly when four sessions or more with over 3 distractions
    started in the current hour; a focus window of two hours that starts
    between 6 and 19.  When an average is too large for a float, the call
    raises [OverflowError]. *)
Theorem recommendations_after_history
    (uid : string) (new : list NewTask)
    (sessions : list ProductivitySession) (last : ProductivitySession)
    (current_time : datetime) :
  let added := add_tasks (fresh_optimizer uid) new in
  let self := log_productivity_sessions added (sessions ++ [last]) in
  (averages_finite (log_sessions (sessions ++ [last])) ->
   exists r,
     get_daily_recommendations self current_time = Ok r
     /\ prioritized_tasks r
        = firstn 5 (prioritize_tasks (tasks added) (energy_level last)
                      current_time)
     /\ (length (prioritized_tasks r) <= 5)%nat
     /\ (should_take_break r = true
         <-> (4 <= length (distracted_at (hour current_time)
                             (sessions ++ [last])))%nat)
     /\ (exists start,
           optimal_focus_time r = (start, start + 2) /\ 6 <= start <= 19))
  /\ (~ averages_finite (log_sessions (sessions ++ [last])) ->
      get_daily_recommendations self current_time = Raise OverflowError).
Proof.
  intros added self.
  assert (Hagent : focus_agent self = log_sessions (sessions ++ [last])).
  { subst self added.
    now rewrite log_productivity_sessions_focus_agent, add_tasks_focus_agent. }
  split.
  - intros Hfin.
    destruct (optimal_focus_time_ok (sessions ++ [last]) Hfin)
      as (start & Hget & Hstart).
    unfold get_daily_recommendations. rewrite Hagent, Hget.
    cbn [mbind result_bind].
    eexists. split; [reflexivity|].
    cbn [prioritized_tasks should_take_break optimal_focus_time].
    subst self.
    rewrite log_productivity_sessions_tasks, log_productivity_sessions_last.
    split; [reflexivity|]. split; [apply List.firstn_le_length|].
    split; [apply suggest_break_time_log_sessions|].
    now exists start.
  - intros Hnot. unfold get_daily_recommendations.
    now rewrite Hagent, (optimal_focus_time_raises _ Hnot).
Qed.


(** ** Resource recommendations *)

(** The loop that removes duplicates: what it has collected stays in
    front, names stay different, and it never holds more than five. *)
Lemma unique_loop_spec recommendations seen unique :
  (forall x, In x unique -> Resource.name x ∈ seen) ->
  NoDup (List.map Resource.name unique) ->
  (length unique < 5)%nat ->
  NoDup (List.map Resource.name (unique_loop recommendations seen unique))
  /\ (length (unique_loop recommendations seen unique) <= 5)%nat
  /\ (forall x, In x (unique_loop recommendations seen unique) ->
                In x unique \/ In x recommendations)
  /\ (exists more, unique_loop recommendations seen unique = unique ++ more).
Proof.
  revert seen unique.
  induction recommendations as [|rec rest IH]; intros seen unique Hseen Hnd Hlen.
  - cbn [unique_loop]. repeat split; auto; [lia|].
    exists []. now rewrite app_nil_r.
  - cbn [unique_loop].
    destruct (bool_decide_reflect (Resource.name rec ∈ seen)) as [Hin|Hnew].
    + destruct (IH seen unique Hseen Hnd Hlen) as (H1 & H2 & H3 & H4).
      repeat split; auto.
      intros x Hx. destruct (H3 x Hx); [now left | right; now right].
    + assert (Hnd' : NoDup (List.map Resource.name (unique ++ [rec]))).
      { rewrite List.map_app. apply NoDup_app. repeat split.
        - exact Hnd.
        - intros n Hn Hn'. apply list_elem_of_singleton in Hn'. subst n.
          apply list_elem_of_In, in_map_iff in Hn as (x & Hx & Hxin).
          apply Hnew. rewrite <- Hx. now apply Hseen.
        - apply NoDup_singleton. }
      assert (Hlen' : length (unique ++ [rec]) = S (length unique))
        by (rewrite length_app; simpl; lia).
      destruct (Nat.leb_spec 5 (length (unique ++ [rec]))) as [Hfull|Hroom].
      * repeat split; auto; [lia| |].
        -- intros x Hx. apply in_app_or in Hx as [Hx|[<-|[]]];
             [now left | right; now left].
        -- now exists [rec].
      * destruct (IH ({[Resource.name rec]} ∪ seen) (unique ++ [rec]))
          as (H1 & H2 & H3 & more & H4); auto.
        { intros x Hx. apply in_app_or in Hx as [Hx|[<-|[]]].
          - apply elem_of_union_r. now apply Hseen.
          - apply elem_of_union_l. now apply elem_of_singleton. }
        repeat split; auto.
        -- intros x Hx. destruct (H3 x Hx) as [Hu|Hr]; [|right; now right].
           apply in_app_or in Hu as [Hu|[<-|[]]]; [now left | right; now left].
        -- exists (rec :: more). rewrite H4, <- app_assoc. reflexivity.
Qed.

Lemma extend_recommendations_In database recommendations tag x :
  In x (extend_recommendations database recommendations tag) ->
  In x recommendations
  \/ exists key resources, database !! key = Some resources /\ In x resources.
Proof.
  unfold extend_recommendations.
  destruct (database !! lower tag) as [resources|] eqn:E; [|now left].
  intros Hx. apply in_app_or in Hx as [Hx|Hx]; [now left|].
  right. now exists (lower tag), resources.
Qed.

Lemma fold_extend_recommendations_In database tags recommendations x :
  In x (fold_left (extend_recommendations database) tags recommendations) ->
  In x recommendations
  \/ exists key resources, database !! key = Some resources /\ In x resources.
Proof.
  revert recommendations.
  induction tags as [|tag tags IH]; intros recommendations Hx; [now left|].
  cbn [fold_left] in Hx. apply IH in Hx as [Hx|Hx]; [|now right].
  now apply extend_recommendations_In in Hx.
Qed.

(** Recommendations are at most five, carry different names, and each
    one is an entry of the resource database. *)
Theorem get_recommendations_bounded
    (self : ResourceRecommendationAgent) (task_tags : list string)
    (skill_goals : option (list string)) (r : list Resource.t) :
  get_recommendations self task_tags skill_goals = Ok r ->
  (length r <= 5)%nat
  /\ NoDup (List.map Resource.name r)
  /\ (forall x, In x r ->
        exists key resources,
          resource_database self !! key = Some resources /\ In x resources).
Proof.
  unfold get_recommendations.
  set (found := fold_left _ (default [] skill_goals) _).
  assert (Hfound : forall x, In x found ->
            exists key resources,
              resource_database self !! key = Some resources /\ In x resources).
  { intros x Hx. subst found.
    apply fold_extend_recommendations_In in Hx as [Hx|Hx]; [|exact Hx].
    apply fold_extend_recommendations_In in Hx as [[]|Hx]. exact Hx. }
  intros H.
  assert (exists recommendations,
             r = unique_loop recommendations ∅ []
             /\ forall x, In x recommendations ->
                  exists key resources,
                    resource_database self !! key = Some resources
                    /\ In x resources) as (recs & -> & Hrecs).
  { destruct found as [|x0 found'] eqn:Efound.
    - destruct (resource_database self !! "productivity") as [resources|] eqn:E;
        [|discriminate].
      cbn [mbind result_bind] in H. injection H as <-.
      exists resources. split; [reflexivity|].
      intros x Hx. now exists "productivity"%string, resources.
    - cbn [mbind result_bind] in H. injection H as <-.
      exists (x0 :: found'). split; [reflexivity | exact Hfound]. }
  destruct (unique_loop_spec recs ∅ [])
    as (H1 & H2 & H3 & _); [intros x [] | constructor | simpl; lia |].
  split; [exact H2|]. split; [exact H1|].
  intros x Hx. destruct (H3 x Hx) as [[]|Hin]. now apply Hrecs.
Qed.

Lemma get_recommendations_bounded_witness :
  get_recommendations ResourceRecommendationAgent_init
    ["Writing"; "productivity"; "email"]%string None
  = Ok [ Resource.mk "Grammarly" "tool" "Writing assistant";
         Resource.mk "Hemingway Editor" "tool" "Writing clarity tool";
         Resource.mk "Notion" "tool" "Document creation and organization";
         Resource.mk "Todoist" "tool" "Task management";
         Resource.mk "Getting Things Done" "book" "Productivity methodology" ]
  /\ NoDup ["Grammarly"; "Hemingway Editor"; "Notion"; "Todoist";
            "Getting Things Done"]%string.
Proof.
  split; [vm_compute; reflexivity|].
  apply (get_recommendations_bounded ResourceRecommendationAgent_init
           ["Writing"; "productivity"; "email"]%string None
           [ Resource.mk "Grammarly" "tool" "Writing assistant";
             Resource.mk "Hemingway Editor" "tool" "Writing clarity tool";
             Resource.mk "Notion" "tool" "Document creation and organization";
             Resource.mk "Todoist" "tool" "Task management";
             Resource.mk "Getting Things Done" "book"
               "Productivity methodology" ]).
  vm_compute. reflexivity.
Defined.








(** Counting the interest in a skill changes no recommendation. *)
Lemma track_skill_interest_recommendations self skill task_tags skill_goals :
  get_recommendations (track_skill_interest self skill) task_tags skill_goals
  = get_recommendations self task_tags skill_goals.
Proof. reflexivity. Qed.

Lemma fold_extend_none database tags recommendations :
  Forall (fun tag => database !! lower tag = None) tags ->
  fold_left (extend_recommendations database) tags recommendations
  = recommendations.
Proof.
  revert recommendations.
  induction 1 as [|tag tags Htag _ IH]; intros; [reflexivity|].
  cbn [fold_left]. unfold extend_recommendations at 2.
  now rewrite Htag.
Qed.

(** When no tag and no skill names a category, none being given
    included, the three resources filed under productivity are
    recommended. *)
Theorem get_recommendations_fallback
    (task_tags : list string) (skill_goals : option (list string)) :
  Forall (fun tag => _initialize_resources !! lower tag = None)
         (task_tags ++ default [] skill_goals) ->
  get_recommendations ResourceRecommendationAgent_init task_tags skill_goals
  = Ok productivity_resources.
Proof.
  intros H. apply Forall_app in H as [Htags Hgoals].
  unfold get_recommendations.
  cbn [resource_database ResourceRecommendationAgent_init].
  rewrite (fold_extend_none _ task_tags) by exact Htags.
  rewrite (fold_extend_none _ (default [] skill_goals)) by exact Hgoals.
  vm_compute. reflexivity.
Qed.

Lemma get_recommendations_fallback_witness :
  get_recommendations ResourceRecommendationAgent_init
    ["home"; "Garden"]%string (Some ["cooking"]%string)
  = Ok productivity_resources.
Proof.
  apply (get_recommendations_fallback ["home"; "Garden"]%string
           (Some ["cooking"]%string)).
  repeat constructor.
Defined.

Lemma ascii_lower_idempotent c : ascii_lower (ascii_lower c) = ascii_lower c.
Proof. destruct c as [[] [] [] [] [] [] [] []]; reflexivity. Qed.

Lemma lower_idempotent s : lower (lower s) = lower s.
Proof.
  induction s as [|c s IH]; [reflexivity|].
  cbn [lower]. now rewrite ascii_lower_idempotent, IH.
Qed.

Lemma fold_extend_same_lower database tags tags' recommendations :
  Forall2 (fun a b => lower a = lower b) tags tags' ->
  fold_left (extend_recommendations database) tags recommendations
  = fold_left (extend_recommendations database) tags' recommendations.
Proof.
  intros H. revert recommendations.
  induction H as [|a b tags tags' Hab _ IH]; intros; [reflexivity|].
  cbn [fold_left]. unfold extend_recommendations at 2 4.
  rewrite Hab. apply IH.
Qed.

(** Tags are compared without regard to the case of their letters: two
    lists of tags that agree once lowered get the same recommendations,
    and lowering the tags beforehand changes nothing. *)
Theorem get_recommendations_ignores_case
    (self : ResourceRecommendationAgent) (task_tags task_tags' : list string)
    (skill_goals : option (list string)) :
  Forall2 (fun a b => lower a = lower b) task_tags task_tags' ->
  get_recommendations self task_tags skill_goals
  = get_recommendations self task_tags' skill_goals
  /\ get_recommendations self (List.map lower task_tags) skill_goals
     = get_recommendations self task_tags skill_goals.
Proof.
  intros H. unfold get_recommendations. split.
  - now rewrite (fold_extend_same_lower _ task_tags task_tags').
  - rewrite (fold_extend_same_lower _ (List.map lower task_tags) task_tags);
      [reflexivity|].
    clear. induction task_tags as [|t l IH]; constructor;
      [apply lower_idempotent | exact IH].
Qed.

Lemma get_recommendations_ignores_case_witness :
  get_recommendations ResourceRecommendationAgent_init
    ["Writing"; "E-MAIL"; "Email"]%string None
  = get_recommendations ResourceRecommendationAgent_init
      ["WRITING"; "e-mail"; "eMAIL"]%string None.
Proof.
  apply (get_recommendations_ignores_case ResourceRecommendationAgent_init
           ["Writing"; "E-MAIL"; "Email"]%string
           ["WRITING"; "e-mail"; "eMAIL"]%string None).
  repeat constructor.
Defined.


(** ** Text *)

Lemma space_prefix_length s rest :
  space_prefix s = Some rest -> (String.length rest < String.length s)%nat.
Proof.
  unfold space_prefix.
  destruct s as [|c1 [|c2 [|c3 s3]]];
    repeat match goal with
           | |- context [if ?b then _ else _] => destruct b
           end;
    intros [= <-] || discriminate; simpl; lia.
Qed.

Lemma split_loop_step fuel s word :
  (String.length s <= fuel)%nat ->
  split_loop (S fuel) s word = split_loop fuel s word.
Proof.
  revert s word. induction fuel as [|fuel IH]; intros s word Hlen.
  - destruct s; [reflexivity | simpl in Hlen; lia].
  - change (split_loop (S (S fuel)) s word)
      with (match space_prefix s with
            | Some rest => close_word word ++ split_loop (S fuel) rest EmptyString
            | None =>
                match s with
                | EmptyString => close_word word
                | String c rest =>
                    split_loop (S fuel) rest (word +:+ String c EmptyString)
                end
            end).
    change (split_loop (S fuel) s word)
      with (match space_prefix s with
            | Some rest => close_word word ++ split_loop fuel rest EmptyString
            | None =>
                match s with
                | EmptyString => close_word word
                | String c rest =>
                    split_loop fuel rest (word +:+ String c EmptyString)
                end
            end).
    destruct (space_prefix s) as [rest|] eqn:E.
    + apply space_prefix_length in E. rewrite IH by lia. reflexivity.
    + destruct s as [|c rest]; [reflexivity|].
      simpl in Hlen. apply IH. lia.
Qed.

(** The steps [split] allows are enough: more of them change nothing. *)
Lemma split_loop_fuel fuel s word :
  (String.length s <= fuel)%nat ->
  split_loop fuel s word = split_loop (String.length s) s word.
Proof.
  intros Hlen. induction Hlen as [|fuel Hle IH]; [reflexivity|].
  now rewrite split_loop_step.
Qed.

(** ** Workflow automation *)

(** A title falls under one of seven patterns. *)
Lemma extract_pattern_key_range title :
  In (_extract_pattern_key title)
     [ "email_tasks"; "meeting_tasks"; "report_tasks"; "review_tasks";
       "project_tasks"; "preparation_tasks"; "other_tasks" ]%string.
Proof.
  unfold _extract_pattern_key.
  repeat match goal with
         | |- context [if ?b then _ else _] => destruct b
         end; cbn [In]; tauto.
Qed.

Lemma patterns_get_append key task patterns k :
  patterns_get k (patterns_append key task patterns)
  = if String.eqb key k
    then Some (default [] (patterns_get key patterns) ++ [task])
    else patterns_get k patterns.
Proof.
  induction patterns as [|[k' l] rest IH]; cbn [patterns_append patterns_get].
  - destruct (String.eqb key k); reflexivity.
  - destruct (String.eqb_spec k' key) as [->|Hne]; cbn [patterns_get].
    + destruct (String.eqb key k); reflexivity.
    + rewrite IH.
      destruct (String.eqb_spec k' k) as [->|Hne'].
      * destruct (String.eqb_spec key k) as [->|_]; [congruence | reflexivity].
      * reflexivity.
Qed.

Lemma patterns_get_group tasks patterns k :
  patterns_get k (group_tasks tasks patterns)
  = match tasks_of_pattern k tasks with
    | [] => patterns_get k patterns
    | ts => Some (default [] (patterns_get k patterns) ++ ts)
    end.
Proof.
  unfold group_tasks. revert patterns.
  induction tasks as [|t l IH]; intros patterns; [reflexivity|].
  cbn [fold_left]. rewrite IH, patterns_get_append.
  unfold tasks_of_pattern, pattern_of. cbn [List.filter].
  destruct (String.eqb_spec (_extract_pattern_key (title t)) k) as [->|Hne].
  - destruct (List.filter _ l) as [|t' ts]; simpl.
    + reflexivity.
    + now rewrite <- app_assoc.
  - reflexivity.
Qed.

Lemma patterns_append_keys key task patterns :
  List.map fst (patterns_append key task patterns)
  = match patterns_get key patterns with
    | Some _ => List.map fst patterns
    | None => List.map fst patterns ++ [key]
    end.
Proof.
  induction patterns as [|[k l] rest IH]; cbn [patterns_append patterns_get].
  - reflexivity.
  - destruct (String.eqb k key); cbn [List.map fst]; [reflexivity|].
    rewrite IH. now destruct (patterns_get key rest).
Qed.

Lemma patterns_get_None key patterns :
  patterns_get key patterns = None -> ~ In key (List.map fst patterns).
Proof.
  induction patterns as [|[k l] rest IH]; cbn [patterns_get List.map fst In].
  - tauto.
  - destruct (String.eqb_spec k key) as [->|Hne]; [discriminate|].
    intros H [Hk|Hin]; [congruence | now apply IH].
Qed.

Lemma patterns_get_In key l patterns :
  patterns_get key patterns = Some l -> In (key, l) patterns.
Proof.
  induction patterns as [|[k l'] rest IH]; cbn [patterns_get In];
    [discriminate|].
  destruct (String.eqb_spec k key) as [->|Hne].
  - intros [= ->]. now left.
  - intros H. right. now apply IH.
Qed.

Lemma In_patterns_get key l patterns :
  List.NoDup (List.map fst patterns) ->
  In (key, l) patterns -> patterns_get key patterns = Some l.
Proof.
  induction patterns as [|[k l'] rest IH]; cbn [patterns_get In List.map fst];
    [tauto|].
  intros Hnd [[= -> ->]|Hin].
  - now rewrite String.eqb_refl.
  - apply List.NoDup_cons_iff in Hnd as [Hk Hnd].
    destruct (String.eqb_spec k key) as [->|Hne].
    + exfalso. apply Hk. apply (in_map fst) in Hin. exact Hin.
    + now apply IH.
Qed.

Lemma group_tasks_keys_NoDup tasks patterns :
  List.NoDup (List.map fst patterns) ->
  List.NoDup (List.map fst (group_tasks tasks patterns)).
Proof.
  unfold group_tasks. revert patterns.
  induction tasks as [|t l IH]; intros patterns Hnd; [exact Hnd|].
  cbn [fold_left]. apply IH. rewrite patterns_append_keys.
  destruct (patterns_get _ patterns) eqn:E; [exact Hnd|].
  apply List.NoDup_app; [exact Hnd | repeat constructor; intros [] |].
  intros x Hx [<-|[]]. exact (patterns_get_None _ _ E Hx).
Qed.

(** [analyze_task_patterns] files every task under the pattern of its
    title: the groups are the non-empty classes of the tasks by pattern,
    each pattern once, each group in the order of the task list. *)
Theorem task_patterns_exact
    (self : WorkflowAutomationAgent) (tasks : list Task) :
  List.NoDup (List.map fst (task_patterns (analyze_task_patterns self tasks)))
  /\ (forall key group,
        In (key, group) (task_patterns (analyze_task_patterns self tasks))
        <-> group = tasks_of_pattern key tasks /\ group <> []).
Proof.
  assert (Hnd : List.NoDup (List.map fst (group_tasks tasks [])))
    by (apply group_tasks_keys_NoDup; constructor).
  split; [exact Hnd|].
  intros key group. change (task_patterns (analyze_task_patterns self tasks))
    with (group_tasks tasks []).
  pose proof (patterns_get_group tasks [] key) as Hget.
  cbn [patterns_get] in Hget. split.
  - intros Hin. apply (In_patterns_get _ _ _ Hnd) in Hin.
    rewrite Hin in Hget.
    destruct (tasks_of_pattern key tasks) as [|t ts]; [discriminate|].
    injection Hget as ->. split; [reflexivity | discriminate].
  - intros [-> Hne]. apply patterns_get_In. rewrite Hget.
    now destruct (tasks_of_pattern key tasks).
Qed.


Lemma filter_all_false {A : Type} (f : A -> bool) (l : list A) :
  (forall x, In x l -> f x = false) -> List.filter f l = [].
Proof.
  induction l as [|x l IH]; intros H; simpl; [reflexivity|].
  rewrite (H x) by now left.
  apply IH. intros y Hy. apply H. now right.
Qed.

Lemma tasks_of_pattern_NoDup key tasks :
  List.NoDup (List.map pattern_of tasks) ->
  (length (tasks_of_pattern key tasks) <= 1)%nat.
Proof.
  unfold tasks_of_pattern.
  induction tasks as [|t l IH]; intros Hnd; cbn [List.filter List.map] in *;
    [simpl; lia|].
  apply List.NoDup_cons_iff in Hnd as [Hnotin Hnd].
  destruct (String.eqb_spec (pattern_of t) key) as [<-|Hne]; [|now apply IH].
  rewrite filter_all_false; [simpl; lia|].
  intros x Hx. apply String.eqb_neq. intros Heq.
  apply Hnotin. rewrite <- Heq. now apply in_map.
Qed.

Lemma group_In_tasks_of_pattern tasks key group :
  In (key, group) (group_tasks tasks []) ->
  group = tasks_of_pattern key tasks.
Proof.
  intros Hin.
  apply In_patterns_get in Hin;
    [|apply group_tasks_keys_NoDup; constructor].
  rewrite patterns_get_group in Hin. cbn [patterns_get] in Hin.
  destruct (tasks_of_pattern key tasks); [discriminate|].
  now injection Hin as ->.
Qed.

Lemma repetitive_tasks_In self tasks r :
  In r (repetitive_tasks (analyze_task_patterns self tasks)) ->
  Repetitive.tasks r = tasks_of_pattern (Repetitive.pattern r) tasks
  /\ Repetitive.frequency r = length (Repetitive.tasks r)
  /\ (2 <= Repetitive.frequency r)%nat.
Proof.
  cbn [repetitive_tasks analyze_task_patterns].
  intros Hin. apply in_map_iff in Hin as ([key group] & <- & Hin).
  apply filter_In in Hin as [Hin Hlen]. cbn [fst snd] in *.
  apply group_In_tasks_of_pattern in Hin. apply Nat.leb_le in Hlen.
  cbn [Repetitive.tasks Repetitive.pattern Repetitive.frequency].
  now repeat split.
Qed.

(** When no two tasks share a pattern, none being given included, the
    suggestions are the two general ones. *)
Theorem automation_suggestions_general
    (self : WorkflowAutomationAgent) (tasks : list Task) :
  List.NoDup (List.map pattern_of tasks) ->
  generate_automation_suggestions (analyze_task_patterns self tasks)
  = general_suggestions.
Proof.
  intros Hnd.
  assert (Hrep : repetitive_tasks (analyze_task_patterns self tasks) = []).
  { destruct (repetitive_tasks (analyze_task_patterns self tasks))
      as [|r rest] eqn:E; [reflexivity|].
    destruct (repetitive_tasks_In self tasks r) as (Ht & Hf & Hlen);
      [rewrite E; now left|].
    pose proof (tasks_of_pattern_NoDup (Repetitive.pattern r) tasks Hnd).
    rewrite <- Ht, <- Hf in H. lia. }
  unfold generate_automation_suggestions. rewrite Hrep. reflexivity.
Qed.

Lemma automation_suggestions_general_witness :
  generate_automation_suggestions
    (analyze_task_patterns WorkflowAutomationAgent_init
       [Sample.proposal None; Sample.inbox; Sample.finished; Demo.bank])
  = general_suggestions.
Proof.
  apply (automation_suggestions_general WorkflowAutomationAgent_init
           [Sample.proposal None; Sample.inbox; Sample.finished; Demo.bank]).
  vm_compute. repeat constructor; cbn [In]; intuition discriminate.
Defined.

(** The suggestions can be empty: when some pattern repeats and every
    title falls under review or under no keyword at all, neither the
    general suggestions nor a specific one is made. *)
Theorem automation_suggestions_none
    (self : WorkflowAutomationAgent) (tasks : list Task) (key : string) :
  Forall (fun task => pattern_of task = "review_tasks"%string
                      \/ pattern_of task = "other_tasks"%string) tasks ->
  (2 <= length (tasks_of_pattern key tasks))%nat ->
  generate_automation_suggestions (analyze_task_patterns self tasks) = [].
Proof.
  intros Hall Hkey.
  set (agent := analyze_task_patterns self tasks).
  assert (Hne : repetitive_tasks agent <> []).
  { assert (Hin : In (key, tasks_of_pattern key tasks) (group_tasks tasks [])).
    { apply patterns_get_In. rewrite patterns_get_group.
      destruct (tasks_of_pattern key tasks); [simpl in Hkey; lia | reflexivity]. }
    intros Hrep.
    assert (Hr : In (Repetitive.mk key (length (tasks_of_pattern key tasks))
                       (tasks_of_pattern key tasks))
                    (repetitive_tasks agent)).
    { cbn [agent repetitive_tasks analyze_task_patterns].
      apply in_map_iff. exists (key, tasks_of_pattern key tasks).
      split; [reflexivity|]. apply filter_In. split; [exact Hin|].
      now apply Nat.leb_le. }
    rewrite Hrep in Hr. destruct Hr. }
  assert (Hnone : forall r, In r (repetitive_tasks agent) ->
                            pattern_suggestion r = []).
  { intros r Hr.
    destruct (repetitive_tasks_In self tasks r Hr) as (Ht & Hf & Hlen).
    rewrite Hf, Ht in Hlen.
    assert (Hp : Repetitive.pattern r = "review_tasks"%string
                 \/ Repetitive.pattern r = "other_tasks"%string).
    { destruct (tasks_of_pattern (Repetitive.pattern r) tasks) as [|t ts] eqn:E.
      - simpl in Hlen. lia.
      - assert (Hin : In t (tasks_of_pattern (Repetitive.pattern r) tasks))
          by (rewrite E; now left).
        apply filter_In in Hin as [Hin Hpat].
        apply String.eqb_eq in Hpat. rewrite <- Hpat.
        rewrite List.Forall_forall in Hall. now apply Hall. }
    unfold pattern_suggestion. now destruct Hp as [-> | ->]. }
  unfold generate_automation_suggestions. fold agent.
  destruct (repetitive_tasks agent) as [|r rest]; [congruence|].
  cbn [app]. apply List.concat_nil_Forall, List.Forall_forall.
  intros l Hl. apply in_map_iff in Hl as (r' & <- & Hr'). now apply Hnone.
Qed.

Lemma automation_suggestions_none_witness :
  generate_automation_suggestions
    (analyze_task_patterns WorkflowAutomationAgent_init
       [Demo.groceries; Demo.bank])
  = [].
Proof.
  apply (automation_suggestions_none WorkflowAutomationAgent_init
           [Demo.groceries; Demo.bank] "other_tasks").
  - repeat constructor; right; vm_compute; reflexivity.
  - vm_compute. lia.
Defined.


Lemma pattern_suggestion_cases r :
  pattern_suggestion r = []
  \/ exists s,
       pattern_suggestion r = [s]
       /\ Suggestion.pattern s = Repetitive.pattern r
       /\ In (Repetitive.pattern r) suggested_patterns
       /\ Suggestion.potential_time_saved s
          = HoursPerWeek
              (inject_Z (Z.of_nat (Repetitive.frequency r))
               * pattern_rate (Repetitive.pattern r)).
Proof.
  unfold pattern_suggestion, pattern_rate, suggested_patterns.
  repeat match goal with
         | |- context [String.eqb ?a ?b] =>
             destruct (String.eqb_spec a b) as [->|?]
         end;
    try (right; eexists; split; [reflexivity|];
         cbn [Suggestion.pattern Suggestion.potential_time_saved In];
         split; [reflexivity|]; split; [tauto | reflexivity]).
  now left.
Qed.

Lemma NoDup_map_fst_filter {A B : Type} (f : A * B -> bool) (l : list (A * B)) :
  List.NoDup (List.map fst l) ->
  List.NoDup (List.map fst (List.filter f l)).
Proof.
  induction l as [|x l IH]; intros Hnd; cbn [List.filter List.map] in *;
    [constructor|].
  apply List.NoDup_cons_iff in Hnd as [Hx Hnd].
  destruct (f x); [|now apply IH].
  cbn [List.map]. constructor; [|now apply IH].
  intros Hin. apply Hx. apply in_map_iff in Hin as (y & Hy & Hyin).
  apply filter_In in Hyin as [Hyin _].
  rewrite <- Hy. now apply in_map.
Qed.

Lemma repetitive_patterns_NoDup self tasks :
  List.NoDup
    (List.map Repetitive.pattern
       (repetitive_tasks (analyze_task_patterns self tasks))).
Proof.
  cbn [repetitive_tasks analyze_task_patterns].
  rewrite List.map_map. cbn [Repetitive.pattern].
  apply NoDup_map_fst_filter.
  apply (group_tasks_keys_NoDup tasks []). constructor.
Qed.

Lemma specific_suggestions_patterns rep :
  List.NoDup (List.map Repetitive.pattern rep) ->
  List.NoDup
    (List.map Suggestion.pattern (List.concat (List.map pattern_suggestion rep)))
  /\ (forall s,
        In s (List.concat (List.map pattern_suggestion rep)) ->
        In (Suggestion.pattern s) suggested_patterns
        /\ exists r,
             In r rep
             /\ Suggestion.pattern s = Repetitive.pattern r
             /\ Suggestion.potential_time_saved s
                = HoursPerWeek
                    (inject_Z (Z.of_nat (Repetitive.frequency r))
                     * pattern_rate (Repetitive.pattern r))).
Proof.
  induction rep as [|r rep IH]; intros Hnd; cbn [List.map List.concat].
  - split; [constructor | intros s []].
  - apply List.NoDup_cons_iff in Hnd as [Hr Hnd].
    destruct (IH Hnd) as [IH1 IH2].
    destruct (pattern_suggestion_cases r)
      as [-> | (s & -> & Hp & Hin & Hsaved)].
    + split; [exact IH1|].
      intros s Hs. destruct (IH2 s Hs) as (H1 & r' & Hr' & H2).
      split; [exact H1|]. exists r'. split; [now right | exact H2].
    + cbn [app List.map]. split.
      * constructor; [|exact IH1].
        intros Hs. apply in_map_iff in Hs as (s' & Hs' & Hin').
        destruct (IH2 s' Hin') as (_ & r' & Hr' & Hp' & _).
        apply Hr. rewrite <- Hp, <- Hs', Hp'. now apply in_map.
      * intros s' [<-|Hs'].
        -- split; [now rewrite Hp|]. exists r.
           split; [now left | now split].
        -- destruct (IH2 s' Hs') as (H1 & r' & Hr' & H2).
           split; [exact H1|]. exists r'. split; [now right | exact H2].
Qed.

(** There are never more than five suggestions.  Each one is general or
    stands for a pattern with a branch of its own that at least two tasks
    share, no pattern twice, and its time saved is the number of these
    tasks times the rate of the pattern: half an hour a week for an email
    or a preparation task, a quarter for a meeting, one hour for a report
    and three quarters for a project. *)
Theorem automation_suggestions_bounded
    (self : WorkflowAutomationAgent) (tasks : list Task) :
  let suggestions :=
    generate_automation_suggestions (analyze_task_patterns self tasks) in
  (length suggestions <= 5)%nat
  /\ (suggestions = general_suggestions
      \/ List.NoDup (List.map Suggestion.pattern suggestions)
         /\ forall s,
              In s suggestions ->
              In (Suggestion.pattern s) suggested_patterns
              /\ (2 <= length (tasks_of_pattern (Suggestion.pattern s) tasks))%nat
              /\ Suggestion.potential_time_saved s
                 = HoursPerWeek
                     (inject_Z
                        (Z.of_nat
                           (length
                              (tasks_of_pattern (Suggestion.pattern s) tasks)))
                      * pattern_rate (Suggestion.pattern s))).
Proof.
  intros suggestions. subst suggestions.
  unfold generate_automation_suggestions.
  set (agent := analyze_task_patterns self tasks).
  destruct (specific_suggestions_patterns (repetitive_tasks agent)
              (repetitive_patterns_NoDup self tasks)) as [Hnd Hall].
  destruct (repetitive_tasks agent) as [|r rest] eqn:E.
  - split; [simpl; lia | now left].
  - cbn [app]. split.
    + rewrite <- (length_map Suggestion.pattern).
      change 5%nat with (length suggested_patterns).
      apply List.NoDup_incl_length; [exact Hnd|].
      intros p Hp. apply in_map_iff in Hp as (s & <- & Hs).
      now apply Hall.
    + right. split; [exact Hnd|].
      intros s Hs. destruct (Hall s Hs) as (H1 & r' & Hr' & Hp & Hsaved).
      destruct (repetitive_tasks_In self tasks r') as (Ht & Hf & Hlen);
        [fold agent; now rewrite E|].
      rewrite Hp, <- Ht, <- Hf.
      split; [now rewrite <- Hp|]. split; [exact Hlen|]. exact Hsaved.
Qed.

(** Suggestions are read off the titles alone. *)
Lemma patterns_append_same_shape key t t' d d' :
  Forall2 (fun a b : string * list Task =>
             a.1 = b.1 /\ length a.2 = length b.2) d d' ->
  Forall2 (fun a b : string * list Task =>
             a.1 = b.1 /\ length a.2 = length b.2)
          (patterns_append key t d) (patterns_append key t' d').
Proof.
  induction 1 as [|[k l] [k' l'] d d' [Hk Hl] Htail IH]; cbn [patterns_append].
  - repeat constructor.
  - cbn [fst snd] in Hk, Hl. subst k'.
    destruct (String.eqb k key).
    + constructor; [|exact Htail]. split; [reflexivity|].
      cbn [snd]. rewrite !length_app, Hl. reflexivity.
    + constructor; [now split | exact IH].
Qed.

Lemma group_tasks_same_shape tasks tasks' d d' :
  Forall2 (fun a b => title a = title b) tasks tasks' ->
  Forall2 (fun a b : string * list Task =>
             a.1 = b.1 /\ length a.2 = length b.2) d d' ->
  Forall2 (fun a b : string * list Task =>
             a.1 = b.1 /\ length a.2 = length b.2)
          (group_tasks tasks d) (group_tasks tasks' d').
Proof.
  unfold group_tasks. intros H. revert d d'.
  induction H as [|t t' tasks tasks' Ht _ IH]; intros d d' Hd; [exact Hd|].
  cbn [fold_left]. apply IH. rewrite Ht.
  now apply patterns_append_same_shape.
Qed.

Lemma suggestions_same_shape d d' :
  Forall2 (fun a b : string * list Task =>
             a.1 = b.1 /\ length a.2 = length b.2) d d' ->
  List.map (fun r => (Repetitive.pattern r, Repetitive.frequency r))
    (List.map (fun item : string * list Task =>
                 Repetitive.mk item.1 (length item.2) item.2)
       (List.filter (fun item : string * list Task => (2 <=? length item.2)%nat)
          d))
  = List.map (fun r => (Repetitive.pattern r, Repetitive.frequency r))
      (List.map (fun item : string * list Task =>
                   Repetitive.mk item.1 (length item.2) item.2)
         (List.filter (fun item : string * list Task => (2 <=? length item.2)%nat)
            d')).
Proof.
  induction 1 as [|[k l] [k' l'] d d' [Hk Hl] _ IH]; [reflexivity|].
  cbn [fst snd] in Hk, Hl. subst k'. cbn [List.filter snd]. rewrite Hl.
  destruct (2 <=? length l')%nat; [|exact IH].
  cbn [List.map fst snd Repetitive.pattern Repetitive.frequency].
  now rewrite IH, Hl.
Qed.

Lemma generate_by_shape rep rep' :
  List.map (fun r => (Repetitive.pattern r, Repetitive.frequency r)) rep
  = List.map (fun r => (Repetitive.pattern r, Repetitive.frequency r)) rep' ->
  (match rep with [] => general_suggestions | _ :: _ => [] end)
  ++ List.concat (List.map pattern_suggestion rep)
  = (match rep' with [] => general_suggestions | _ :: _ => [] end)
    ++ List.concat (List.map pattern_suggestion rep').
Proof.
  intros H.
  assert (Hconcat : List.map pattern_suggestion rep
                    = List.map pattern_suggestion rep').
  { revert rep' H. induction rep as [|r rep IH]; intros [|r' rep'] H;
      try discriminate; [reflexivity|].
    cbn [List.map] in *. injection H as Hp Hf Hrest.
    f_equal; [|now apply IH].
    unfold pattern_suggestion. now rewrite Hp, Hf. }
  rewrite Hconcat. f_equal.
  destruct rep, rep'; try discriminate; reflexivity.
Qed.

Lemma complete_task_loop_titles tasks task_id actual_hours now :
  Forall2 (fun a b => title a = title b)
          (complete_task_loop tasks task_id actual_hours now) tasks.
Proof.
  induction tasks as [|t l IH]; cbn [complete_task_loop]; [constructor|].
  destruct (String.eqb (id t) task_id).
  - constructor; [reflexivity|].
    clear. induction l; constructor; auto.
  - constructor; [reflexivity | exact IH].
Qed.

(** Completing a task changes no automation suggestion: the analysis
    reads the titles of all the tasks, whatever their status. *)
Theorem automation_suggestions_ignore_completion
    (self : ProductivityOptimizer) (task_id : string)
    (actual_hours : option pyfloat) (now : datetime) :
  daily_automation_suggestions (complete_task self task_id actual_hours now)
  = daily_automation_suggestions self.
Proof.
  unfold daily_automation_suggestions, generate_automation_suggestions.
  cbn [repetitive_tasks analyze_task_patterns tasks complete_task].
  apply generate_by_shape, suggestions_same_shape.
  apply (group_tasks_same_shape _ _ [] []); [|constructor].
  apply complete_task_loop_titles.
Qed.
